(** * uzed_iot.c: the MicroZed IOT sensor acquisition pipeline

    A shallow embedding of [uzed_iot.c] (the LPS25HB barometer, the HTS221
    hygrometer and the MAX31855 thermocouple drivers, the register access
    layer under them, the telemetry publisher and the sampling loop) and
    the properties of it that the design document states.

    The embedding follows the one task that runs the file.  Taking and
    giving the IIC semaphore and the critical section of [ReadIicRegs] are
    left out: no property below is about them.  Everything outside the
    file (the IIC and SPI controllers, the MQTT agent, the GPIO pin, the
    tick counter) is part of the [World]: what the program sends is appended
    to a log per device, what a device answers is taken from a script per
    device. *)

From Stdlib Require Import ZArith List String Bool Lia QArith.
From Stdlib Require Import QArith.Qabs QArith.Qpower.
From Stdlib Require Import Floats.SpecFloat.
From Stdlib Require Floats.PrimFloat Floats.FloatOps Floats.FloatAxioms.
Import ListNotations.
Open Scope string_scope.
Open Scope list_scope.
Open Scope Z_scope.

Set Implicit Arguments.

(* ================================================================== *)
(** * Constants of the source *)
(* ================================================================== *)

Definition SAMPLING_PERIOD_MS : Z := 500.
Definition UZedMAX_DATA_LENGTH : Z := 256.

Definition BAROMETER_SLAVE_ADDRESS : Z := 0x5D.
Definition HYGROMETER_SLAVE_ADDRESS : Z := 0x5F.
Definition LED_PIN : Z := 47.

Definition BAROMETER_REG_WHO_AM_I : Z := 0x0F.
Definition BAROMETER_REG_CTRL_REG1 : Z := 0x20.
Definition BAROMETER_BFLD_PD : Z := Z.shiftl 1 7.
Definition BAROMETER_REG_CTRL_REG2 : Z := 0x21.
Definition BAROMETER_BFLD_BOOT : Z := Z.shiftl 1 7.
Definition BAROMETER_BFLD_SWRESET : Z := Z.shiftl 1 2.
Definition BAROMETER_BFLD_ONE_SHOT : Z := Z.shiftl 1 0.
Definition BAROMETER_REG_STATUS_REG : Z := 0x27.
Definition BAROMETER_BFLD_P_DA : Z := Z.shiftl 1 1.
Definition BAROMETER_BFLD_T_DA : Z := Z.shiftl 1 0.

Definition HYGROMETER_REG_WHO_AM_I : Z := 0x0F.
Definition HYGROMETER_REG_CTRL_REG1 : Z := 0x20.
Definition HYGROMETER_BFLD_PD : Z := Z.shiftl 1 7.
Definition HYGROMETER_REG_CTRL_REG2 : Z := 0x21.
Definition HYGROMETER_BFLD_BOOT : Z := Z.shiftl 1 7.
Definition HYGROMETER_BFLD_ONE_SHOT : Z := Z.shiftl 1 0.
Definition HYGROMETER_REG_STATUS_REG : Z := 0x27.
Definition HYGROMETER_BFLD_H_DA : Z := Z.shiftl 1 1.
Definition HYGROMETER_BFLD_T_DA : Z := Z.shiftl 1 0.
Definition HYGROMETER_REG_CALIB_0 : Z := 0x30.

Definition PL_SPI_CHANNEL_SEL_0 : Z := 0xFFFFFFFE.
Definition PL_SPI_CHANNEL_SEL_NONE : Z := 0xFFFFFFFF.
Definition AXI_SPI_RESET_VALUE : Z := 0x0A.

(** [xstatus.h] is not part of the source.  The code compares [rc] with
    [XST_SUCCESS] and stores a byte count or an identity byte in it, and
    [ReadIicRegs] writes the literal 1 for a failure: the two codes are the
    Xilinx ones, 0 and 1. *)
Definition XST_SUCCESS : Z := 0.
Definition XST_FAILURE : Z := 1.

(** [pdTRUE] and [pdFALSE] are the FreeRTOS truth values ([projdefs.h],
    not part of the source): [BlinkLed] tests its [xFinalOn] argument with
    [if(xFinalOn)] and is called with one or the other. *)
Definition pdTRUE : Z := 1.
Definition pdFALSE : Z := 0.

(** The options of an IIC transfer. *)
Inductive IicOption := XIIC_STOP | XIIC_REPEATED_START.

(** The registers of the AXI SPI controller that the code touches, by
    name ([xspi_l.h] is not part of the source). *)
Inductive SpiReg :=
  XSP_SRR_OFFSET | XSP_CR_OFFSET | XSP_SR_OFFSET | XSP_DTR_OFFSET
| XSP_DRR_OFFSET | XSP_SSR_OFFSET | XSP_RFO_OFFSET.

(** The two status bits that [XSpi_LowLevelExecute] tests, with the values
    of the Xilinx header. *)
Definition XSP_SR_RX_EMPTY_MASK : Z := 0x1.
Definition XSP_SR_TX_EMPTY_MASK : Z := 0x4.

(** The source's comment on [MAX31855_CR_INIT_MODE] gives its value,
    0x186: inhibit, manual slave select, master mode, enable.  The
    uninhibit mode is the same without the inhibit bit. *)
Definition MAX31855_CR_INIT_MODE : Z := 0x186.
Definition MAX31855_CR_UNINHIBIT_MODE : Z := 0x086.

(* ================================================================== *)
(** * Machine integers *)
(* ================================================================== *)

(** The value of a 32-bit pattern read as [u32] and as [s32]. *)
Definition to_u32 (z : Z) : Z := z mod 2 ^ 32.
Definition to_s32 (z : Z) : Z := (z + 2 ^ 31) mod 2 ^ 32 - 2 ^ 31.

(** [s |= mask] for an [s32] variable and an unsigned 32-bit constant: the
    variable is converted to [u32], the bits are combined and the result is
    stored back as [s32]. *)
Definition s32_or_mask (s mask : Z) : Z := to_s32 (Z.lor (to_u32 s) mask).

(** [s & mask] used as a condition, same conversion. *)
Definition s32_test_mask (s mask : Z) : bool :=
  negb (Z.land (to_u32 s) mask =? 0).

(* ================================================================== *)
(** * Topics *)
(* ================================================================== *)

Inductive TOPIC :=
  TOPIC_BAROMETER_PRESSURE
| TOPIC_BAROMETER_TEMPERATURE
| TOPIC_BAROMETER_STATUS
| TOPIC_THERMOCOUPLE_TEMPERATURE
| TOPIC_THERMOCOUPLE_BOARD_TEMPERATURE
| TOPIC_THERMOCOUPLE_STATUS
| TOPIC_HYGROMETER_RELATIVE_HUMIDITY
| TOPIC_HYGROMETER_HUMIDITY_SENSOR_TEMPERATURE
| TOPIC_HYGROMETER_STATUS
| TOPIC_SYSTEM_STATUS
| TOPIC_LAST.

(** The enumerators count from 0. *)
Definition TOPIC_value (t : TOPIC) : Z :=
  match t with
  | TOPIC_BAROMETER_PRESSURE => 0
  | TOPIC_BAROMETER_TEMPERATURE => 1
  | TOPIC_BAROMETER_STATUS => 2
  | TOPIC_THERMOCOUPLE_TEMPERATURE => 3
  | TOPIC_THERMOCOUPLE_BOARD_TEMPERATURE => 4
  | TOPIC_THERMOCOUPLE_STATUS => 5
  | TOPIC_HYGROMETER_RELATIVE_HUMIDITY => 6
  | TOPIC_HYGROMETER_HUMIDITY_SENSOR_TEMPERATURE => 7
  | TOPIC_HYGROMETER_STATUS => 8
  | TOPIC_SYSTEM_STATUS => 9
  | TOPIC_LAST => 10
  end.

Definition TOPIC_eqb (a b : TOPIC) : bool := TOPIC_value a =? TOPIC_value b.

(** An entry of the table.  [tiTopic] is the field [eTopic] of the
    source's [struct TopicInfo] (the name is taken by the field of
    [System]); [pbName] is [None] for the null pointer of the sentinel. *)
Record TopicInfo := mkTopicInfo {
  tiTopic : TOPIC;
  pbName : option string;
  usNameLen : Z
}.

Definition pTopicInfo_initial : list TopicInfo :=
  [ mkTopicInfo TOPIC_BAROMETER_PRESSURE
      (Some "/remote_io_module/sensor_value/Pressure") 0;
    mkTopicInfo TOPIC_BAROMETER_TEMPERATURE
      (Some "/remote_io_module/sensor_value/Pressure_Sensor_Temp") 0;
    mkTopicInfo TOPIC_BAROMETER_STATUS
      (Some "/remote_io_module/sensor_status/LPS25HB_Error") 0;
    mkTopicInfo TOPIC_THERMOCOUPLE_TEMPERATURE
      (Some "/remote_io_module/sensor_value/Thermocouple_Temp") 0;
    mkTopicInfo TOPIC_THERMOCOUPLE_BOARD_TEMPERATURE
      (Some "/remote_io_module/sensor_value/Board_Temp_1") 0;
    mkTopicInfo TOPIC_THERMOCOUPLE_STATUS
      (Some "/remote_io_module/sensor_status/MAX31855_Error") 0;
    mkTopicInfo TOPIC_HYGROMETER_RELATIVE_HUMIDITY
      (Some "/remote_io_module/sensor_value/Relative_Humidity") 0;
    mkTopicInfo TOPIC_HYGROMETER_HUMIDITY_SENSOR_TEMPERATURE
      (Some "/remote_io_module/sensor_value/Humidity_Sensor_Temp") 0;
    mkTopicInfo TOPIC_HYGROMETER_STATUS
      (Some "/remote_io_module/sensor_status/HTS221_Error") 0;
    mkTopicInfo TOPIC_SYSTEM_STATUS
      (Some "/remote_io_module/sensor_status/System_Error") 0;
    mkTopicInfo TOPIC_LAST None 0 ].

(* ================================================================== *)
(** * The system handle and the world around it *)
(* ================================================================== *)

(** [struct System].  Of the two driver instances only the fields that the
    file reads are kept. *)
Record System := mkSystem {
  iic_BaseAddress : Z;
  iic_IsReady : bool;
  gpio_IsReady : bool;
  xMQTTHandle : option Z;              (* [None] is the null handle *)
  pbHygrometerCalibration : list Z;    (* 16 bytes *)
  rc : Z;
  pcErr : string;
  eTopic : TOPIC
}.

(** What the program hands to [vsnprintf] after the format: an [int], or a
    [float] given by the expression that the source assigns to the [float]
    variable it passes: a literal with the suffix [F] ([F_lit], a [float]),
    a literal without it ([F_dbl], a [double]), the cast [(float)] of an
    integer, a quotient, a sum. *)
Inductive FloatExpr :=
| F_lit (q : Q)
| F_dbl (q : Q)
| F_of_int (z : Z)
| F_div (a b : FloatExpr)
| F_add (a b : FloatExpr).

(** The value that the expression has in exact arithmetic.  This is the
    reading of the design document ("scaled by 1/480 with a fixed offset
    of 42.5"); what the code computes is [stored_float] below, and the two
    are compared in the claims. *)
Fixpoint ideal (e : FloatExpr) : Q :=
  match e with
  | F_lit q => q
  | F_dbl q => q
  | F_of_int z => inject_Z z
  | F_div a b => (ideal a / ideal b)%Q
  | F_add a b => (ideal a + ideal b)%Q
  end.

(** ** Binary floating point

    On the Zynq a [float] is an IEEE 754 binary32 number and a [double] a
    binary64 number, and every operation is carried out in the type that
    the usual arithmetic conversions give its operands, rounding to the
    nearest number of that type (to the one with the even mantissa when two
    are equally near).  The numbers and the operations are those of the
    Standard Library's specification of IEEE arithmetic, [spec_float]. *)
Inductive FloatType := T_float | T_double.

(** The number of mantissa bits and the exponent of the infinities. *)
Definition float_prec (t : FloatType) : Z :=
  match t with T_float => 24 | T_double => 53 end.

Definition float_emax (t : FloatType) : Z :=
  match t with T_float => 128 | T_double => 1024 end.

Definition float_of_int (t : FloatType) (z : Z) : spec_float :=
  binary_normalize (float_prec t) (float_emax t) z 0 false.

Definition float_div (t : FloatType) (x y : spec_float) : spec_float :=
  SFdiv (float_prec t) (float_emax t) x y.

Definition float_add (t : FloatType) (x y : spec_float) : spec_float :=
  SFadd (float_prec t) (float_emax t) x y.

(** The number of type [t] that a literal denotes: the one nearest to its
    decimal value.  The quotient of numerator and denominator is that
    number when both are numbers of the type, as they are for every
    literal of the source. *)
Definition float_literal (t : FloatType) (q : Q) : spec_float :=
  float_div t (float_of_int t (Qnum q)) (float_of_int t (Z.pos (Qden q))).

(** The conversion to type [t]: of a [float] to [double] where an operand
    is promoted, of a [double] to [float] where it is assigned. *)
Definition float_convert (t : FloatType) (x : spec_float) : spec_float :=
  match x with
  | S754_finite s m e => binary_round (float_prec t) (float_emax t) s m e
  | _ => x
  end.

(** The usual arithmetic conversions: [double] as soon as one operand is
    a [double]. *)
Definition arithmetic_conversion (a b : FloatType) : FloatType :=
  match a, b with
  | T_float, T_float => T_float
  | _, _ => T_double
  end.

Fixpoint type_of (e : FloatExpr) : FloatType :=
  match e with
  | F_lit _ => T_float
  | F_dbl _ => T_double
  | F_of_int _ => T_float
  | F_div a b => arithmetic_conversion (type_of a) (type_of b)
  | F_add a b => arithmetic_conversion (type_of a) (type_of b)
  end.

(** The operand [e], of value [x], of an operation that is carried out in
    type [t]: a [float] operand of a [double] operation is converted. *)
Definition promote (t : FloatType) (e : FloatExpr) (x : spec_float)
    : spec_float :=
  match type_of e, t with
  | T_float, T_double => float_convert T_double x
  | _, _ => x
  end.

(** The value of the expression in its own type. *)
Fixpoint float_value (e : FloatExpr) : spec_float :=
  match e with
  | F_lit q => float_literal T_float q
  | F_dbl q => float_literal T_double q
  | F_of_int z => float_of_int T_float z
  | F_div a b =>
      float_div (type_of e) (promote (type_of e) a (float_value a))
        (promote (type_of e) b (float_value b))
  | F_add a b =>
      float_add (type_of e) (promote (type_of e) a (float_value a))
        (promote (type_of e) b (float_value b))
  end.

(** What the [float] variable holds after [f = e]: this is what goes to
    [vsnprintf] (the promotion of the variadic argument to [double] does
    not change it). *)
Definition stored_float (e : FloatExpr) : spec_float :=
  float_convert T_float (float_value e).

(** The number that a finite [spec_float] stands for. *)
Definition SF2Q (x : spec_float) : option Q :=
  match x with
  | S754_zero _ => Some 0%Q
  | S754_finite s m e =>
      Some (inject_Z (if s then Z.neg m else Z.pos m) * (2 # 1) ^ e)%Q
  | _ => None
  end.

(** ** Decimal text

    [vsnprintf] is the C library's, not the source's.  Of its conversion
    [%.Nf] only this is used: for a finite argument it writes the decimal
    with [N] digits after the point that is nearest to the argument, and
    when two are equally near the one whose last digit is even (ISO C
    7.21.6.1 with the rounding of IEC 60559).  [decimal_places tie N q] is
    that decimal in units of 10^-N; rounding a tie away from zero, the
    other common reading of "two decimal places", is there for
    comparison. *)
Inductive Tie := ties_to_even | ties_away_from_zero.

Definition nearest_integer (tie : Tie) (q : Q) : Z :=
  let (n, r) := Z.div_eucl (Qnum q) (Z.pos (Qden q)) in
  match 2 * r ?= Z.pos (Qden q) with
  | Lt => n
  | Gt => n + 1
  | Eq =>
      match tie with
      | ties_to_even => if Z.even n then n else n + 1
      | ties_away_from_zero => if 0 <=? n then n + 1 else n
      end
  end.

Definition decimal_places (tie : Tie) (digits : nat) (q : Q) : Z :=
  nearest_integer tie (q * inject_Z (10 ^ Z.of_nat digits)).

(** What [%.Nf] writes for the [float], in units of 10^-N. *)
Definition printf_f (digits : nat) (x : spec_float) : option Z :=
  option_map (decimal_places ties_to_even digits) (SF2Q x).

Inductive Arg := ArgInt (z : Z) | ArgFloat (e : FloatExpr).

(** One call of [MQTT_AGENT_Publish]: the table entry whose name and
    length go into the parameters, and the data as format and arguments. *)
Record Publication := mkPublication {
  pubInfo : TopicInfo;
  pubFmt : string;
  pubArgs : list Arg
}.

Inductive MQTTAgentReturnCode :=
  eMQTTAgentSuccess | eMQTTAgentFailure | eMQTTAgentTimeout
| eMQTTAgentAPICalledFromCallback.

(** What an IIC transfer answers: the byte count that [XIic_Send] or
    [XIic_Recv] returns and, for a receive, what the caller's buffer holds
    when the call returns. *)
Record IicReply := mkIicReply { xfer : Z; data : list Z }.

Inductive IicOp :=
| IicSend (bSlaveAddress : Z) (bytes : list Z) (opt : IicOption)
| IicRecv (bSlaveAddress : Z) (xCount : Z) (opt : IicOption).

Inductive SpiOp :=
| SpiWrite (reg : SpiReg) (value : Z)
| SpiRead (reg : SpiReg).

Record World := mkWorld {
  sys : System;
  pTopicInfo : list TopicInfo;
  iic_in : list IicReply;
  iic_log : list IicOp;
  iic_buf : list Z;                    (* the memory behind [pbBuf] *)
  mqtt_in : list MQTTAgentReturnCode;
  mqtt_log : list Publication;
  spi_in : list Z;
  spi_log : list SpiOp;
  gpio_log : list (Z * Z);             (* pin, level *)
  configTICK_RATE_HZ : Z;
  now : Z                              (* the tick count *)
}.

Definition with_sys (f : System -> System) (w : World) : World :=
  mkWorld (f (sys w)) (pTopicInfo w) (iic_in w) (iic_log w) (iic_buf w) (mqtt_in w)
    (mqtt_log w) (spi_in w) (spi_log w) (gpio_log w)
    (configTICK_RATE_HZ w) (now w).

Definition with_iic (i : list IicReply) (l : list IicOp) (w : World) : World :=
  mkWorld (sys w) (pTopicInfo w) i l (iic_buf w) (mqtt_in w)
    (mqtt_log w) (spi_in w) (spi_log w) (gpio_log w)
    (configTICK_RATE_HZ w) (now w).

Definition with_mqtt (i : list MQTTAgentReturnCode) (l : list Publication)
    (w : World) : World :=
  mkWorld (sys w) (pTopicInfo w) (iic_in w) (iic_log w) (iic_buf w) i
    l (spi_in w) (spi_log w) (gpio_log w)
    (configTICK_RATE_HZ w) (now w).

Definition with_spi (i : list Z) (l : list SpiOp) (w : World) : World :=
  mkWorld (sys w) (pTopicInfo w) (iic_in w) (iic_log w) (iic_buf w) (mqtt_in w)
    (mqtt_log w) i l (gpio_log w)
    (configTICK_RATE_HZ w) (now w).

Definition with_gpio (l : list (Z * Z)) (w : World) : World :=
  mkWorld (sys w) (pTopicInfo w) (iic_in w) (iic_log w) (iic_buf w) (mqtt_in w)
    (mqtt_log w) (spi_in w) (spi_log w) l
    (configTICK_RATE_HZ w) (now w).

Definition with_iic_buf (b : list Z) (w : World) : World :=
  mkWorld (sys w) (pTopicInfo w) (iic_in w) (iic_log w) b (mqtt_in w)
    (mqtt_log w) (spi_in w) (spi_log w) (gpio_log w)
    (configTICK_RATE_HZ w) (now w).

Definition with_now (t : Z) (w : World) : World :=
  mkWorld (sys w) (pTopicInfo w) (iic_in w) (iic_log w) (iic_buf w) (mqtt_in w)
    (mqtt_log w) (spi_in w) (spi_log w) (gpio_log w)
    (configTICK_RATE_HZ w) t.

Definition with_topics (t : list TopicInfo) (w : World) : World :=
  mkWorld (sys w) t (iic_in w) (iic_log w) (iic_buf w) (mqtt_in w)
    (mqtt_log w) (spi_in w) (spi_log w) (gpio_log w)
    (configTICK_RATE_HZ w) (now w).

Definition set_rc (v : Z) (s : System) : System :=
  mkSystem (iic_BaseAddress s) (iic_IsReady s) (gpio_IsReady s)
    (xMQTTHandle s) (pbHygrometerCalibration s) v (pcErr s) (eTopic s).

Definition set_pcErr (v : string) (s : System) : System :=
  mkSystem (iic_BaseAddress s) (iic_IsReady s) (gpio_IsReady s)
    (xMQTTHandle s) (pbHygrometerCalibration s) (rc s) v (eTopic s).

Definition set_eTopic (v : TOPIC) (s : System) : System :=
  mkSystem (iic_BaseAddress s) (iic_IsReady s) (gpio_IsReady s)
    (xMQTTHandle s) (pbHygrometerCalibration s) (rc s) (pcErr s) v.

Definition set_calibration (v : list Z) (s : System) : System :=
  mkSystem (iic_BaseAddress s) (iic_IsReady s) (gpio_IsReady s)
    (xMQTTHandle s) v (rc s) (pcErr s) (eTopic s).

(* ================================================================== *)
(** * Control flow *)
(* ================================================================== *)

(** How a run can stop short of returning. *)
Inductive Fault :=
| AssertionHalt        (* [configASSERT] with a false condition *)
| NullDereference      (* a field read through a null pointer *)
| BufferOverrun        (* an access past the end of an array *)
| Hang.                (* a busy-wait loop that does not end *)

(** A piece of a function body either goes on with a value, or jumps to
    the function's [L_DIE] label, or stops the program. *)
Inductive Result (A : Type) :=
| Normal (a : A) (w : World)
| Goto_L_DIE (w : World)
| Crash (f : Fault) (w : World).

Arguments Goto_L_DIE {A} w.
Arguments Crash {A} f w.

Definition M (A : Type) := World -> Result A.

Definition ret {A} (a : A) : M A := fun w => Normal a w.

Definition bind {A B} (c : M A) (k : A -> M B) : M B :=
  fun w =>
    match c w with
    | Normal a w' => k a w'
    | Goto_L_DIE w' => Goto_L_DIE w'
    | Crash f w' => Crash f w'
    end.

Notation "x <- c ;; k" := (bind c (fun x => k))
  (at level 61, c at next level, right associativity).
Notation "c ;; k" := (bind c (fun _ => k))
  (at level 61, right associativity).

Definition goto_L_DIE {A} : M A := fun w => Goto_L_DIE w.
Definition crash {A} (f : Fault) : M A := fun w => Crash f w.

(** The label at the end of a function: a jump lands here, and so does the
    body when it runs to its end. *)
Definition L_DIE (body : M unit) : M unit :=
  fun w =>
    match body w with
    | Normal _ w' => Normal tt w'
    | Goto_L_DIE w' => Normal tt w'
    | Crash f w' => Crash f w'
    end.

Definition get_sys : M System := fun w => Normal (sys w) w.
Definition modify_sys (f : System -> System) : M unit :=
  fun w => Normal tt (with_sys f w).

Definition when (b : bool) (c : M unit) : M unit := if b then c else ret tt.

(** [for(i = n; i-- > 0; ) { body }], for a body that says whether it left
    through [break] and hands on the locals it wrote.  The result is the
    value of [i] after the loop: [n - k] after a break in round [k], and -1
    when the test fails, since the test decrements once more. *)
Fixpoint for_countdown {L : Type} (n : nat) (body : L -> M (bool * L))
    (l : L) : M (Z * L) :=
  match n with
  | O => ret (-1, l)
  | S n' =>
      r <- body l ;;
      if fst r then ret (Z.of_nat n', snd r)
      else for_countdown n' body (snd r)
  end.

(* ================================================================== *)
(** * Time, the status indicator and the topic table *)
(* ================================================================== *)

(** [pdMS_TO_TICKS] is the FreeRTOS macro (not part of the source):
    milliseconds times the tick rate, divided by 1000, in [TickType_t]. *)
Definition pdMS_TO_TICKS (hz xMs : Z) : Z := to_u32 (xMs * hz) / 1000.

Definition MS_TO_TICKS (xMs : Z) : M Z :=
  fun w =>
    let xTicks := pdMS_TO_TICKS (configTICK_RATE_HZ w) xMs in
    Normal (if xTicks <? 1 then 1 else xTicks) w.

Definition vTaskDelay (xTicks : Z) : M unit :=
  fun w => Normal tt (with_now (now w + xTicks) w).

Definition XGpioPs_WritePin (pin level : Z) : M unit :=
  fun w => Normal tt (with_gpio (gpio_log w ++ [(pin, level)]) w).

Fixpoint BlinkLed_loop (n : nat) (xHalfSecond : Z) : M unit :=
  match n with
  | O => ret tt
  | S n' =>
      XGpioPs_WritePin LED_PIN 1 ;;
      vTaskDelay xHalfSecond ;;
      XGpioPs_WritePin LED_PIN 0 ;;
      vTaskDelay xHalfSecond ;;
      BlinkLed_loop n' xHalfSecond
  end.

Definition BlinkLed (xCount xFinalOn : Z) : M unit :=
  xHalfSecond <- MS_TO_TICKS 500 ;;
  s <- get_sys ;;
  if negb (gpio_IsReady s) then ret tt
  else
    BlinkLed_loop (Z.to_nat xCount) xHalfSecond ;;
    when (negb (xFinalOn =? 0)) (XGpioPs_WritePin LED_PIN 1).

Definition StopHere : M unit := ret tt.

(** Modelled from the spec: [configASSERT] is the assertion macro of
    FreeRTOSConfig.h, which is not part of the source.  The design document
    has a failed assertion halt the program at once; the macro is given the
    condition that must hold, as in the source's
    [configASSERT(pGpioConfig != NULL)], and stops the program when that
    condition is zero. *)
Definition configASSERT (x : Z) : M unit :=
  if x =? 0 then crash AssertionHalt else ret tt.

Definition strlen (s : string) : Z := Z.of_nat (String.length s).

(** The loop of [InitTopicInfo] over the table: the fault that ends it,
    if one does, and the table as the loop leaves it.  An entry before
    the sentinel gets the length of its name in its 16-bit field
    [usNameLen]; [strlen] of a null name reads through the null pointer;
    and in a table without the sentinel the scan runs past the end of the
    array. *)
Fixpoint InitTopicInfo_loop (pTI : list TopicInfo)
    : option Fault * list TopicInfo :=
  match pTI with
  | [] => (Some BufferOverrun, [])
  | ti :: rest =>
      if TOPIC_eqb TOPIC_LAST (tiTopic ti) then (None, ti :: rest)
      else
        match pbName ti with
        | None => (Some NullDereference, ti :: rest)
        | Some s =>
            let (f, rest') := InitTopicInfo_loop rest in
            (f, mkTopicInfo (tiTopic ti) (Some s) (strlen s mod 2 ^ 16)
                :: rest')
        end
  end.

Definition InitTopicInfo : M unit :=
  fun w =>
    let (f, pTI) := InitTopicInfo_loop (pTopicInfo w) in
    match f with
    | None => Normal tt (with_topics pTI w)
    | Some f => Crash f (with_topics pTI w)
    end.

(** The loop of [GetTopicInfo]: the entry found, or [None] when the scan
    reaches the sentinel (or the end of a table that has none). *)
Fixpoint GetTopicInfo_loop (pTI : list TopicInfo) (eTopic : TOPIC)
    : option TopicInfo :=
  match pTI with
  | [] => None
  | ti :: rest =>
      if TOPIC_eqb TOPIC_LAST (tiTopic ti) then None
      else if TOPIC_eqb (tiTopic ti) eTopic then Some ti
      else GetTopicInfo_loop rest eTopic
  end.

(** The entry, or the null pointer ([None]) after [configASSERT( pdTRUE )]. *)
Definition GetTopicInfo (eTopic : TOPIC) : M (option TopicInfo) :=
  fun w =>
    match GetTopicInfo_loop (pTopicInfo w) eTopic with
    | Some ti => Normal (Some ti) w
    | None => (configASSERT pdTRUE ;; ret None) w
    end.

(* ================================================================== *)
(** * The telemetry publisher *)
(* ================================================================== *)

Definition MQTT_AGENT_Publish (p : Publication) : M MQTTAgentReturnCode :=
  fun w =>
    Normal (hd eMQTTAgentSuccess (mqtt_in w))
           (with_mqtt (tl (mqtt_in w)) (mqtt_log w ++ [p]) w).

(** [prvPublishTopic].  The text that [vsnprintf] composes is kept as the
    format and its arguments; the cut at 255 characters and the
    replacement text for a formatting error act on that text and are not
    modelled. *)
Definition prvPublishTopic (eTopic : TOPIC) (pcFmt : string)
    (args : list Arg) : M unit :=
  s <- get_sys ;;
  match xMQTTHandle s with
  | None => ret tt
  | Some _ =>
      pTI <- GetTopicInfo eTopic ;;
      match pTI with
      | None => crash NullDereference          (* [pTI->pbName] *)
      | Some ti =>
          xReturned <- MQTT_AGENT_Publish (mkPublication ti pcFmt args) ;;
          match xReturned with
          | eMQTTAgentSuccess => ret tt
          | eMQTTAgentFailure => BlinkLed 1 pdFALSE
          | eMQTTAgentTimeout => BlinkLed 1 pdFALSE
          | eMQTTAgentAPICalledFromCallback =>
              BlinkLed 1 pdFALSE ;; configASSERT pdTRUE
          end
      end
  end.

(** The macro [MAY_DIE]: run the code, and on a result code other than
    success publish the error text on the current topic and jump. *)
Definition MAY_DIE {A} (code : M A) : M A :=
  a <- code ;;
  s <- get_sys ;;
  if negb (rc s =? XST_SUCCESS) then
    prvPublishTopic (eTopic s) (pcErr s) [ArgInt (rc s)] ;;
    StopHere ;;
    goto_L_DIE
  else ret a.

(* ================================================================== *)
(** * The register access layer *)
(* ================================================================== *)

Definition no_reply : IicReply := mkIicReply 0 [].

Definition XIic_Send (bSlaveAddress : Z) (pbBuf : list Z) (xCount : Z)
    (opt : IicOption) : M Z :=
  fun w =>
    Normal (xfer (hd no_reply (iic_in w)))
      (with_iic (tl (iic_in w))
         (iic_log w ++ [IicSend bSlaveAddress
                          (firstn (Z.to_nat xCount) pbBuf) opt]) w).

(** The receive writes into the memory behind [pbBuf]. *)
Definition XIic_Recv (bSlaveAddress : Z) (xCount : Z) (opt : IicOption)
    : M Z :=
  fun w =>
    Normal (xfer (hd no_reply (iic_in w)))
      (with_iic_buf (data (hd no_reply (iic_in w)))
         (with_iic (tl (iic_in w))
            (iic_log w ++ [IicRecv bSlaveAddress xCount opt]) w)).

Definition ReadIicRegs (bSlaveAddress xCount bFirstSlaveReg : Z)
    (pbBuf : list Z) : M (Z * list Z) :=
  let bFirstSlaveReg :=
    if xCount >? 1 then Z.lor bFirstSlaveReg 0x80 else bFirstSlaveReg in
  (fun w => Normal tt (with_iic_buf pbBuf w)) ;;
  L_DIE (
    MAY_DIE (
      xSent <- XIic_Send bSlaveAddress [bFirstSlaveReg] 1 XIIC_REPEATED_START ;;
      when (negb (1 =? xSent)) (
        modify_sys (set_rc 1) ;;
        modify_sys (set_pcErr "ReadIicRegs::XIic_Send(Addr) -> %08x"))) ;;
    MAY_DIE (
      xReceived <- XIic_Recv bSlaveAddress xCount XIIC_STOP ;;
      when (negb (xCount =? xReceived)) (
        modify_sys (set_rc xReceived) ;;
        modify_sys (set_pcErr "ReadIicRegs::XIic_Recv(Data) -> %08x")))) ;;
  (fun w => Normal (rc (sys w), iic_buf w) w).

Definition ReadIicReg (bSlaveAddress bFirstSlaveReg : Z) (pbBuf : list Z)
    : M (Z * list Z) :=
  ReadIicRegs bSlaveAddress 1 bFirstSlaveReg pbBuf.

(** [WriteIicRegs] returns the result code; the second component is the
    caller's buffer as the call leaves it.  [pbBuf[0] |= 0x80] needs a
    first byte to write to. *)
Definition WriteIicRegs (bSlaveAddress xCount : Z) (pbBuf : list Z)
    : M (Z * list Z) :=
  pbBuf <- (if xCount >? 2 then
              match pbBuf with
              | [] => crash BufferOverrun
              | b0 :: rest => ret (Z.lor b0 0x80 :: rest)
              end
            else ret pbBuf) ;;
  L_DIE (
    MAY_DIE (
      xSent <- XIic_Send bSlaveAddress pbBuf xCount XIIC_STOP ;;
      when (negb (xCount =? xSent)) (
        modify_sys (set_rc xSent) ;;
        modify_sys (set_pcErr "WriteIicRegs::XIic_Send(Buf) -> %08x")))) ;;
  (fun w => Normal (rc (sys w), pbBuf) w).

Definition WriteIicReg (bSlaveAddress bFirstSlaveReg bVal : Z) : M Z :=
  r <- WriteIicRegs bSlaveAddress 2 [bFirstSlaveReg; bVal] ;;
  ret (fst r).

(* ================================================================== *)
(** * The barometer (LPS25HB) *)
(* ================================================================== *)

(** A local that the source declares without a value.  Each one is the
    target of a receive before it is read. *)
Definition uninitialised : Z := 0.

Definition StartBarometer : M unit :=
  L_DIE (
    xOneMs <- MS_TO_TICKS 1 ;;
    modify_sys (set_eTopic TOPIC_BAROMETER_STATUS) ;;
    (* Verify it is the right chip *)
    b <- MAY_DIE (
      r <- ReadIicReg BAROMETER_SLAVE_ADDRESS BAROMETER_REG_WHO_AM_I
             [uninitialised] ;;
      modify_sys (set_pcErr "ReadIicReg(WHO_AM_I) -> %08x") ;;
      ret (nth 0 (snd r) 0)) ;;
    MAY_DIE (
      when (negb (0xBD =? b)) (
        modify_sys (set_rc b) ;;
        modify_sys (set_pcErr "BAROMETER_WHO_AM_I = %08x != BD"))) ;;
    (* Reset chip: first swreset, then boot *)
    MAY_DIE (
      WriteIicReg BAROMETER_SLAVE_ADDRESS BAROMETER_REG_CTRL_REG2
        BAROMETER_BFLD_SWRESET ;;
      modify_sys (set_pcErr
        "WriteIicReg(BAROMETER_REG_CTRL_REG2::BFLD_SWRESET) -> %08x")) ;;
    t <- for_countdown 100 (fun b =>
      b <- MAY_DIE (
        r <- ReadIicReg BAROMETER_SLAVE_ADDRESS BAROMETER_REG_CTRL_REG2 [b] ;;
        modify_sys (set_pcErr "ReadIicReg(BAROMETER_REG_CTRL_REG2) -> %08x") ;;
        ret (nth 0 (snd r) 0)) ;;
      if 0 =? Z.land b BAROMETER_BFLD_SWRESET then ret (true, b)
      else vTaskDelay xOneMs ;; ret (false, b)) b ;;
    when (fst t <=? 0) (
      MAY_DIE (
        modify_sys (set_rc XST_FAILURE) ;;
        modify_sys (set_pcErr "Barometer swreset timeout"))) ;;
    MAY_DIE (
      WriteIicReg BAROMETER_SLAVE_ADDRESS BAROMETER_REG_CTRL_REG2
        BAROMETER_BFLD_BOOT ;;
      modify_sys (set_pcErr
        "WriteIicReg(BAROMETER_REG_CTRL_REG2::BAROMETER_BFLD_BOOT -> %08x")) ;;
    t <- for_countdown 100 (fun b =>
      b <- MAY_DIE (
        r <- ReadIicReg BAROMETER_SLAVE_ADDRESS BAROMETER_REG_CTRL_REG2 [b] ;;
        modify_sys (set_pcErr "ReadIicReg(BAROMETER_REG_CTRL_REG2) -> %08x") ;;
        ret (nth 0 (snd r) 0)) ;;
      if 0 =? Z.land b BAROMETER_BFLD_BOOT then ret (true, b)
      else vTaskDelay xOneMs ;; ret (false, b)) (snd t) ;;
    when (fst t <=? 0) (
      MAY_DIE (
        modify_sys (set_pcErr "Barometer boot timeout"))) ;;
    MAY_DIE (
      WriteIicReg BAROMETER_SLAVE_ADDRESS BAROMETER_REG_CTRL_REG1
        BAROMETER_BFLD_PD ;;
      modify_sys (set_pcErr
        "WriteIicReg(BAROMETER_REG_CTRL_REG1::BAROMETER_BFLD_PD) -> %08x")) ;;
    vTaskDelay xOneMs ;;
    prvPublishTopic TOPIC_BAROMETER_STATUS "Barometer started" []).

Definition StopBarometer : M unit :=
  modify_sys (set_eTopic TOPIC_BAROMETER_STATUS).

(** The two integers that [SampleBarometer] builds in [sqTmp] from the
    block it read. *)
Definition barometer_pressure_sqTmp (pbBuf : list Z) : Z :=
  let sqTmp :=
    to_s32 (Z.lor (Z.lor (Z.lor 0
      (to_u32 (Z.shiftl (nth 1 pbBuf 0) 0)))
      (to_u32 (Z.shiftl (nth 2 pbBuf 0) 8)))
      (to_u32 (Z.shiftl (nth 3 pbBuf 0) 16))) in
  if s32_test_mask sqTmp 0x00800000 then s32_or_mask sqTmp 0xFF800000
  else sqTmp.

Definition barometer_temperature_sqTmp (pbBuf : list Z) : Z :=
  let sqTmp :=
    to_s32 (Z.lor (Z.lor 0
      (to_u32 (Z.shiftl (nth 4 pbBuf 0) 0)))
      (to_u32 (Z.shiftl (nth 5 pbBuf 0) 8))) in
  if s32_test_mask sqTmp 0x00008000 then s32_or_mask sqTmp 0xFFFF8000
  else sqTmp.

(** [SampleBarometer] up to the point where the block is in [pbBuf]: the
    one-shot trigger, the two polls and their time-out tests.  The result
    is [pbBuf]. *)
Definition SampleBarometer_acquire : M (list Z) :=
  xOneMs <- MS_TO_TICKS 1 ;;
  modify_sys (set_eTopic TOPIC_BAROMETER_STATUS) ;;
  MAY_DIE (
    WriteIicReg BAROMETER_SLAVE_ADDRESS BAROMETER_REG_CTRL_REG2
      BAROMETER_BFLD_ONE_SHOT ;;
    modify_sys (set_pcErr
      "WriteIicReg(BAROMETER_REG_CTRL_REG2::BAROMETER_BFLD_ONE_SHOT) -> %08x")) ;;
  t <- for_countdown 50 (fun b =>
    b <- MAY_DIE (
      r <- ReadIicReg BAROMETER_SLAVE_ADDRESS BAROMETER_REG_CTRL_REG2 [b] ;;
      modify_sys (set_pcErr
        "ReadIicRegs(6@BAROMETER_REG_STATUS_REG) -> %08x") ;;
      ret (nth 0 (snd r) 0)) ;;
    if 0 =? Z.land b BAROMETER_BFLD_ONE_SHOT then ret (true, b)
    else vTaskDelay xOneMs ;; ret (false, b)) uninitialised ;;
  MAY_DIE (
    when (fst t <=? 0) (
      modify_sys (set_rc XST_FAILURE) ;;
      modify_sys (set_pcErr
        "Timed out waiting for BAROMETER_BFLD_ONE_SHOT"))) ;;
  t <- for_countdown 50 (fun pbBuf =>
    pbBuf <- MAY_DIE (
      r <- ReadIicRegs BAROMETER_SLAVE_ADDRESS 6 BAROMETER_REG_STATUS_REG
             pbBuf ;;
      modify_sys (set_pcErr
        "ReadIicRegs(6@BAROMETER_REG_STATUS_REG) -> %08x") ;;
      ret (snd r)) ;;
    if Z.lor BAROMETER_BFLD_P_DA BAROMETER_BFLD_T_DA
       =? Z.land (nth 0 pbBuf 0)
                 (Z.lor BAROMETER_BFLD_P_DA BAROMETER_BFLD_T_DA)
    then ret (true, pbBuf)
    else vTaskDelay xOneMs ;; ret (false, pbBuf))
    (repeat uninitialised 6) ;;
  MAY_DIE (
    when (fst t <=? 0) (
      modify_sys (set_rc XST_FAILURE) ;;
      modify_sys (set_pcErr "Timed out waiting for P_DA and T_DA"))) ;;
  ret (snd t).

(** The rest of [SampleBarometer]: the two conversions and publications
    (see ST TN1228). *)
Definition SampleBarometer_publish (pbBuf : list Z) : M unit :=
  prvPublishTopic TOPIC_BAROMETER_PRESSURE "%.2f hPa"
    [ArgFloat (F_div (F_of_int (barometer_pressure_sqTmp pbBuf))
                     (F_lit (4096 # 1)))] ;;
  prvPublishTopic TOPIC_BAROMETER_TEMPERATURE "%.2f C"
    [ArgFloat (F_add (F_lit (85 # 2))
                     (F_div (F_of_int (barometer_temperature_sqTmp pbBuf))
                            (F_dbl (480 # 1))))].

Definition SampleBarometer : M unit :=
  L_DIE (
    pbBuf <- SampleBarometer_acquire ;;
    SampleBarometer_publish pbBuf).

(* ================================================================== *)
(** * The hygrometer (HTS221) *)
(* ================================================================== *)

Definition StartHygrometer : M unit :=
  L_DIE (
    xOneMs <- MS_TO_TICKS 1 ;;
    modify_sys (set_eTopic TOPIC_HYGROMETER_STATUS) ;;
    (* Verify it is the right chip *)
    b <- MAY_DIE (
      r <- ReadIicReg HYGROMETER_SLAVE_ADDRESS HYGROMETER_REG_WHO_AM_I
             [uninitialised] ;;
      modify_sys (set_pcErr "ReadIicReg(HYGROMETER_WHO_AM_I) -> %08x") ;;
      ret (nth 0 (snd r) 0)) ;;
    MAY_DIE (
      when (negb (0xBC =? b)) (
        modify_sys (set_rc b) ;;
        modify_sys (set_pcErr "HYGROMETER_WHO_AM_I = %08x != BC"))) ;;
    (* Reset chip: boot *)
    MAY_DIE (
      WriteIicReg HYGROMETER_SLAVE_ADDRESS HYGROMETER_REG_CTRL_REG2
        HYGROMETER_BFLD_BOOT ;;
      modify_sys (set_pcErr
        "WriteIicReg(HYGROMETER_REG_CTRL_REG2::HYGROMETER_BFLD_BOOT -> %08x")) ;;
    t <- for_countdown (Z.to_nat 1000) (fun b =>
      b <- MAY_DIE (
        r <- ReadIicReg HYGROMETER_SLAVE_ADDRESS HYGROMETER_REG_CTRL_REG2 [b] ;;
        modify_sys (set_pcErr "ReadIicReg(BAROMETER_REG_CTRL_REG2) -> %08x") ;;
        ret (nth 0 (snd r) 0)) ;;
      if 0 =? Z.land b HYGROMETER_BFLD_BOOT then ret (true, b)
      else vTaskDelay xOneMs ;; ret (false, b)) b ;;
    when (fst t <=? 0) (
      MAY_DIE (
        modify_sys (set_pcErr "Hygrometer boot timeout"))) ;;
    (* Read and store calibration values *)
    MAY_DIE (
      s <- get_sys ;;
      r <- ReadIicRegs HYGROMETER_SLAVE_ADDRESS 16 HYGROMETER_REG_CALIB_0
             (pbHygrometerCalibration s) ;;
      modify_sys (set_calibration (snd r)) ;;
      modify_sys (set_pcErr "ReadIicRegs(HYGROMETER_REG_CALIB_0) -> %08x")) ;;
    (* Power up device *)
    MAY_DIE (
      WriteIicReg HYGROMETER_SLAVE_ADDRESS HYGROMETER_REG_CTRL_REG1
        HYGROMETER_BFLD_PD ;;
      modify_sys (set_pcErr
        "WriteIicReg(HYGROMETER_REG_CTRL_REG1::HYGROMETER_BFLD_PD) -> %08x")) ;;
    vTaskDelay xOneMs ;;
    prvPublishTopic TOPIC_HYGROMETER_STATUS "Hygrometer started" []).

Definition StopHygrometer : M unit :=
  modify_sys (set_eTopic TOPIC_HYGROMETER_STATUS).

Definition SampleHygrometer : M unit :=
  L_DIE (
    xOneMs <- MS_TO_TICKS 1 ;;
    modify_sys (set_eTopic TOPIC_HYGROMETER_STATUS) ;;
    MAY_DIE (
      WriteIicReg HYGROMETER_SLAVE_ADDRESS HYGROMETER_REG_CTRL_REG2
        HYGROMETER_BFLD_ONE_SHOT ;;
      modify_sys (set_pcErr
        "WriteIicReg(HYGROMETER_REG_CTRL_REG2::HYGROMETER_BFLD_ONE_SHOT) -> %08x")) ;;
    t <- for_countdown (Z.to_nat 10000) (fun b =>
      b <- MAY_DIE (
        r <- ReadIicReg HYGROMETER_SLAVE_ADDRESS HYGROMETER_REG_CTRL_REG2 [b] ;;
        modify_sys (set_pcErr
          "ReadIicRegs(6@HYGROMETER_REG_STATUS_REG) -> %08x") ;;
        ret (nth 0 (snd r) 0)) ;;
      if 0 =? Z.land b HYGROMETER_BFLD_ONE_SHOT then ret (true, b)
      else vTaskDelay xOneMs ;; ret (false, b)) uninitialised ;;
    MAY_DIE (
      when (fst t <=? 0) (
        modify_sys (set_rc XST_FAILURE) ;;
        modify_sys (set_pcErr
          "Timed out waiting for HYGROMETER_BFLD_ONE_SHOT"))) ;;
    t <- for_countdown 50 (fun pbBuf =>
      pbBuf <- MAY_DIE (
        r <- ReadIicRegs HYGROMETER_SLAVE_ADDRESS 5 HYGROMETER_REG_STATUS_REG
               pbBuf ;;
        modify_sys (set_pcErr
          "ReadIicRegs(6@HYGROMETER_REG_STATUS_REG) -> %08x") ;;
        ret (snd r)) ;;
      if Z.lor HYGROMETER_BFLD_H_DA HYGROMETER_BFLD_T_DA
         =? Z.land (nth 0 pbBuf 0)
                   (Z.lor HYGROMETER_BFLD_H_DA HYGROMETER_BFLD_T_DA)
      then ret (true, pbBuf)
      else vTaskDelay xOneMs ;; ret (false, pbBuf))
      (repeat uninitialised 5) ;;
    MAY_DIE (
      when (fst t <=? 0) (
        modify_sys (set_rc XST_FAILURE) ;;
        modify_sys (set_pcErr
          "Timed out waiting for HYGROMETER P_DA and T_DA"))) ;;
    (* TODO of the source: the values read are not converted *)
    prvPublishTopic TOPIC_HYGROMETER_RELATIVE_HUMIDITY "%.2f %%rH"
      [ArgFloat (F_lit (100 # 1))] ;;
    prvPublishTopic TOPIC_HYGROMETER_HUMIDITY_SENSOR_TEMPERATURE "%.2f C"
      [ArgFloat (F_lit (1000 # 1))]).

(* ================================================================== *)
(** * The thermocouple (MAX31855 behind the AXI SPI controller) *)
(* ================================================================== *)

Definition XSpi_WriteReg (reg : SpiReg) (value : Z) : M unit :=
  fun w =>
    Normal tt (with_spi (spi_in w)
                 (spi_log w ++ [SpiWrite reg (to_u32 value)]) w).

Definition XSpi_ReadReg (reg : SpiReg) : M Z :=
  fun w =>
    Normal (to_u32 (hd 0 (spi_in w)))
           (with_spi (tl (spi_in w)) (spi_log w ++ [SpiRead reg]) w).

Definition StartPLTempSensor : M unit :=
  xOneMs <- MS_TO_TICKS 1 ;;
  modify_sys (set_eTopic TOPIC_THERMOCOUPLE_STATUS) ;;
  XSpi_WriteReg XSP_SRR_OFFSET AXI_SPI_RESET_VALUE ;;
  vTaskDelay xOneMs ;;
  XSpi_WriteReg XSP_CR_OFFSET MAX31855_CR_INIT_MODE ;;
  XSpi_WriteReg XSP_SSR_OFFSET PL_SPI_CHANNEL_SEL_NONE ;;
  vTaskDelay xOneMs ;;
  prvPublishTopic TOPIC_THERMOCOUPLE_STATUS "PL Thermocouple started" [].

Definition StopPLTempSensor : M unit :=
  modify_sys (set_eTopic TOPIC_THERMOCOUPLE_STATUS).

(** The loop that fills the transmit FIFO; [n] is [xByteCount]. *)
Fixpoint XSpi_fill_tx (n : nat) (pqTxBuffer : list Z) : M unit :=
  match n with
  | O => ret tt
  | S n' =>
      match pqTxBuffer with
      | [] => crash BufferOverrun
      | v :: rest => XSpi_WriteReg XSP_DTR_OFFSET v ;; XSpi_fill_tx n' rest
      end
  end.

(** The two busy-wait loops.  Neither has a bound in the source; [fuel]
    is how many register reads the run is given before it counts as
    hanging. *)
Fixpoint XSpi_wait_tx_empty (fuel : nat) : M unit :=
  match fuel with
  | O => crash Hang
  | S fuel' =>
      sr <- XSpi_ReadReg XSP_SR_OFFSET ;;
      if Z.land sr XSP_SR_TX_EMPTY_MASK =? 0 then XSpi_wait_tx_empty fuel'
      else ret tt
  end.

Fixpoint XSpi_wait_occupancy (fuel : nat) (xByteCount : Z) : M unit :=
  match fuel with
  | O => crash Hang
  | S fuel' =>
      rfo <- XSpi_ReadReg XSP_RFO_OFFSET ;;
      if negb (to_u32 xByteCount =? rfo) then
        XSpi_wait_occupancy fuel' xByteCount
      else ret tt
  end.

(** [*pqRxBuffer++ = v] at position [i] of the caller's array. *)
Fixpoint store (l : list Z) (i : nat) (v : Z) : option (list Z) :=
  match l, i with
  | [], _ => None
  | _ :: rest, O => Some (v :: rest)
  | x :: rest, S i' =>
      match store rest i' v with
      | Some rest' => Some (x :: rest')
      | None => None
      end
  end.

(** The loop that drains the receive FIFO; the result is the array and
    [xNumBytesRcvd]. *)
Fixpoint XSpi_drain_rx (fuel : nat) (pqRxBuffer : list Z)
    (xNumBytesRcvd : nat) : M (list Z * nat) :=
  match fuel with
  | O => crash Hang
  | S fuel' =>
      sr <- XSpi_ReadReg XSP_SR_OFFSET ;;
      if Z.land sr XSP_SR_RX_EMPTY_MASK =? 0 then
        v <- XSpi_ReadReg XSP_DRR_OFFSET ;;
        match store pqRxBuffer xNumBytesRcvd v with
        | None => crash BufferOverrun
        | Some pqRxBuffer' =>
            XSpi_drain_rx fuel' pqRxBuffer' (S xNumBytesRcvd)
        end
      else ret (pqRxBuffer, xNumBytesRcvd)
  end.

(** The result is the receive array; the base address is always that of
    the one controller and is left out. *)
Definition XSpi_LowLevelExecute (fuel : nat) (xSPI_Channel xByteCount : Z)
    (pqTxBuffer pqRxBuffer : list Z) : M (list Z) :=
  xOneMs <- MS_TO_TICKS 1 ;;
  XSpi_fill_tx (Z.to_nat xByteCount) pqTxBuffer ;;
  XSpi_WriteReg XSP_SSR_OFFSET xSPI_Channel ;;
  vTaskDelay xOneMs ;;
  XSpi_WriteReg XSP_CR_OFFSET MAX31855_CR_UNINHIBIT_MODE ;;
  XSpi_wait_tx_empty fuel ;;
  XSpi_wait_occupancy fuel (xByteCount - 1) ;;
  r <- XSpi_drain_rx fuel pqRxBuffer 0 ;;
  XSpi_WriteReg XSP_CR_OFFSET MAX31855_CR_INIT_MODE ;;
  XSpi_WriteReg XSP_SSR_OFFSET PL_SPI_CHANNEL_SEL_NONE ;;
  (if negb (xByteCount =? Z.of_nat (snd r)) then modify_sys (set_rc XST_FAILURE)
   else modify_sys (set_rc XST_SUCCESS)) ;;
  ret (fst r).

(** The integers that [SamplePLTempSensor] builds in [sqTemporaryValue]
    for the internal junction and for the thermocouple. *)
Definition internal_sqTemporaryValue (pqRxBuffer : list Z) : Z :=
  let sqTemporaryValue := to_s32 (nth 2 pqRxBuffer 0) in
  let sqTemporaryValue := to_s32 (Z.shiftl sqTemporaryValue 4) in
  let sqTemporaryValue2 := to_s32 (nth 3 pqRxBuffer 0) in
  let sqTemporaryValue2 := Z.shiftr sqTemporaryValue2 4 in
  let sqTemporaryValue := Z.lor sqTemporaryValue sqTemporaryValue2 in
  if Z.land (nth 2 pqRxBuffer 0) 0x80 =? 0x80
  then s32_or_mask sqTemporaryValue 0xFFFFF800
  else sqTemporaryValue.

Definition thermocouple_sqTemporaryValue (pqRxBuffer : list Z) : Z :=
  let sqTemporaryValue := to_s32 (nth 0 pqRxBuffer 0) in
  let sqTemporaryValue := to_s32 (Z.shiftl sqTemporaryValue 6) in
  let sqTemporaryValue2 := to_s32 (nth 1 pqRxBuffer 0) in
  let sqTemporaryValue2 := Z.shiftr sqTemporaryValue2 2 in
  let sqTemporaryValue := Z.lor sqTemporaryValue sqTemporaryValue2 in
  if Z.land (nth 0 pqRxBuffer 0) 0x80 =? 0x80
  then s32_or_mask sqTemporaryValue 0xFFFFE000
  else sqTemporaryValue.

(** What [SamplePLTempSensor] does with the result code and the receive
    array once the transfer is over. *)
Definition SamplePLTempSensor_report (pqRxBuffer : list Z) : M unit :=
  s <- get_sys ;;
  if negb (XST_SUCCESS =? rc s) then
    prvPublishTopic TOPIC_THERMOCOUPLE_STATUS "SPI Transaction failure" []
  else if negb (Z.land (nth 3 pqRxBuffer 0) 0x1 =? 0) then
    prvPublishTopic TOPIC_THERMOCOUPLE_STATUS "Open Circuit" []
  else if negb (Z.land (nth 3 pqRxBuffer 0) 0x2 =? 0) then
    prvPublishTopic TOPIC_THERMOCOUPLE_STATUS "Short to GND" []
  else if negb (Z.land (nth 3 pqRxBuffer 0) 0x4 =? 0) then
    prvPublishTopic TOPIC_THERMOCOUPLE_STATUS "Short to VCC" []
  else if negb (Z.land (nth 1 pqRxBuffer 0) 0x01 =? 0) then
    prvPublishTopic TOPIC_THERMOCOUPLE_STATUS "Fault" []
  else
    prvPublishTopic TOPIC_THERMOCOUPLE_BOARD_TEMPERATURE "%.1f C"
      [ArgFloat (F_div (F_of_int (internal_sqTemporaryValue pqRxBuffer))
                       (F_lit (16 # 1)))] ;;
    prvPublishTopic TOPIC_THERMOCOUPLE_TEMPERATURE "%.1f C"
      [ArgFloat (F_div (F_of_int (thermocouple_sqTemporaryValue pqRxBuffer))
                       (F_lit (4 # 1)))].

(** The first half of [SamplePLTempSensor]: the 4-byte read transaction.
    The result is [pqRxBuffer]. *)
Definition SamplePLTempSensor_transfer (fuel : nat) : M (list Z) :=
  modify_sys (set_eTopic TOPIC_THERMOCOUPLE_STATUS) ;;
  XSpi_LowLevelExecute fuel PL_SPI_CHANNEL_SEL_0 4
    [0; 0; 0; 0]
    [0xFFFFFFFF; 0xFFFFFFFF; 0xFFFFFFFF; 0xFFFFFFFF].

Definition SamplePLTempSensor (fuel : nat) : M unit :=
  pqRxBuffer <- SamplePLTempSensor_transfer fuel ;;
  SamplePLTempSensor_report pqRxBuffer.

(* ================================================================== *)
(** * The sampling loop *)
(* ================================================================== *)

(** Modelled from the spec: [vTaskDelayUntil] is the scheduler's and not
    part of the source.  The design document has each wake time computed
    relative to the previous scheduled wake time, not relative to when
    sampling finished: the new wake time is the previous one plus the
    period, the task sleeps until then if that lies ahead, and the new wake
    time replaces the previous one. *)
Definition vTaskDelayUntil (xPreviousWakeTime xTimeIncrement : Z) : M Z :=
  fun w =>
    let xTimeToWake := xPreviousWakeTime + xTimeIncrement in
    Normal xTimeToWake (with_now (Z.max (now w) xTimeToWake) w).

(** [periods] rounds of the [for(;;)] of [prvMQTTConnectAndPublishTask];
    the result is [xPreviousWakeTime]. *)
Fixpoint sampling_rounds (periods fuel : nat) (xSamplingPeriod : Z)
    (xPreviousWakeTime : Z) : M Z :=
  match periods with
  | O => ret xPreviousWakeTime
  | S periods' =>
      (* Line up with next period boundary *)
      xPreviousWakeTime <- vTaskDelayUntil xPreviousWakeTime xSamplingPeriod ;;
      (* Publish all sensors *)
      SampleBarometer ;;
      SamplePLTempSensor fuel ;;
      SampleHygrometer ;;
      sampling_rounds periods' fuel xSamplingPeriod xPreviousWakeTime
  end.

(** [prvMQTTConnectAndPublishTask] from the point where [StartSystem] has
    returned, for [periods] rounds. *)
Definition prvMQTTConnectAndPublishTask_loop (periods fuel : nat) : M Z :=
  xSamplingPeriod <- MS_TO_TICKS SAMPLING_PERIOD_MS ;;
  xPreviousWakeTime <- (fun w => Normal (now w) w) ;;
  sampling_rounds periods fuel xSamplingPeriod xPreviousWakeTime.

(* ================================================================== *)
(** * Worlds to run the code in *)
(* ================================================================== *)

(** The handle as [StartSystem] leaves it once the broker is connected and
    before the first sensor is started. *)
Definition connected_System : System :=
  mkSystem 0 true true (Some 1) (repeat 0 16) XST_SUCCESS "Success"
    TOPIC_SYSTEM_STATUS.

(** A world with that handle, the topic table after [InitTopicInfo], a
    tick rate of 1000 Hz and the given device scripts. *)
Definition world_of (iic : list IicReply) (spi : list Z) : World :=
  mkWorld connected_System (snd (InitTopicInfo_loop pTopicInfo_initial))
    iic [] [] [] [] spi [] [] 1000 0.

(** A transfer of [n] bytes that goes through, and a one-byte register
    read that delivers [b]: the address phase and the data phase. *)
Definition sent (n : Z) : IicReply := mkIicReply n [].
Definition reg_read (b : Z) : list IicReply := [sent 1; mkIicReply 1 [b]].
Definition block_read (bytes : list Z) : list IicReply :=
  [sent 1; mkIicReply (Z.of_nat (List.length bytes)) bytes].

(** [k] polls of a register that each deliver [b]. *)
Fixpoint polls (k : nat) (b : Z) : list IicReply :=
  match k with
  | O => []
  | S k' => reg_read b ++ polls k' b
  end.

(** [k] reads of a block that each deliver [bytes]. *)
Fixpoint block_polls (k : nat) (bytes : list Z) : list IicReply :=
  match k with
  | O => []
  | S k' => block_read bytes ++ block_polls k' bytes
  end.

(** The text and arguments of the publications of a run, with the topic
    each went to. *)
Definition published (w : World) : list (TOPIC * string * list Arg) :=
  map (fun p => (tiTopic (pubInfo p), pubFmt p, pubArgs p)) (mqtt_log w).

Definition world_after {A} (r : Result A) : World :=
  match r with
  | Normal _ w => w
  | Goto_L_DIE w => w
  | Crash _ w => w
  end.

Definition returned {A} (r : Result A) : bool :=
  match r with
  | Normal _ _ => true
  | _ => false
  end.

(* ================================================================== *)
(** * Notions used in the statements *)
(* ================================================================== *)

(** What a [u8] can hold. *)
Definition byte_range (b : Z) : Prop := 0 <= b < 256.

(** The value of an [n]-bit pattern [x] read as a two's-complement
    number: what sign extension from bit [n - 1] preserves. *)
Definition sign_extend (n x : Z) : Z :=
  if Z.testbit x (n - 1) then x - 2 ^ n else x.

(** The topic table as [InitTopicInfo] leaves it. *)
Definition topic_table : list TopicInfo :=
  snd (InitTopicInfo_loop pTopicInfo_initial).

(** The entries that a scan of the table passes before it reaches the
    sentinel; [None] for a table that has none. *)
Fixpoint before_sentinel (pTI : list TopicInfo) : option (list TopicInfo) :=
  match pTI with
  | [] => None
  | ti :: rest =>
      if TOPIC_eqb TOPIC_LAST (tiTopic ti) then Some []
      else option_map (cons ti) (before_sentinel rest)
  end.

(** The entry has a name: [pbName] is not the null pointer. *)
Definition named (ti : TopicInfo) : Prop := pbName ti <> None.

(** Everything of the world but the broker, the status indicator and the
    clock. *)
Definition same_devices (w w' : World) : Prop :=
  sys w' = sys w /\ pTopicInfo w' = pTopicInfo w /\
  iic_in w' = iic_in w /\ iic_log w' = iic_log w /\ iic_buf w' = iic_buf w /\
  spi_in w' = spi_in w /\ spi_log w' = spi_log w /\
  configTICK_RATE_HZ w' = configTICK_RATE_HZ w.

(** [MAY_DIE] can publish on the current topic: no broker, or a topic
    that the table knows. *)
Definition can_report (w : World) : Prop :=
  xMQTTHandle (sys w) = None \/
  exists ti, GetTopicInfo_loop (pTopicInfo w) (eTopic (sys w)) = Some ti.

(** The caller's buffer as [WriteIicRegs] leaves it. *)
Definition buffer_after_write (xCount : Z) (pbBuf : list Z) : list Z :=
  if 2 <? xCount then
    match pbBuf with
    | [] => []
    | b0 :: rest => Z.lor b0 0x80 :: rest
    end
  else pbBuf.

(** What no operation of the file changes once the system is up: the
    broker handle and the topic table. *)
Definition steady (w w' : World) : Prop :=
  xMQTTHandle (sys w') = xMQTTHandle (sys w) /\
  pTopicInfo w' = pTopicInfo w.

Definition keeps {A : Type} (c : M A) : Prop :=
  forall w, steady w (world_after (c w)).

(** [k] rounds of a loop body, none of which left through [break]. *)
Inductive rounds {L : Type} (body : L -> M (bool * L))
    : nat -> L -> World -> L -> World -> Prop :=
| rounds_O (l : L) (w : World) : rounds body O l w l w
| rounds_S (k : nat) (l l1 l2 : L) (w w1 w2 : World) :
    body l w = Normal (false, l1) w1 ->
    rounds body k l1 w1 l2 w2 ->
    rounds body (S k) l w l2 w2.

(** The reconstruction of a thermocouple field in the words of the design
    document: the most significant byte shifted left by the field's
    fractional-bit width, OR the next byte shifted right by the number of
    its low bits that belong elsewhere, OR the sign mask when bit 7 of the
    most significant byte is set.  The fractional-bit width of a fixed-point
    field is the binary logarithm of its denominator. *)
Definition fractional_bits (denominator : Z) : Z := Z.log2 denominator.

Definition spec_reconstruct (frac drop mask msb next : Z) : Z :=
  let v := Z.lor (Z.shiftl msb frac) (Z.shiftr next drop) in
  if Z.testbit msb 7 then s32_or_mask v mask else v.

Definition spec_internal (pqRxBuffer : list Z) : Z :=
  spec_reconstruct (fractional_bits 16) 4 0xFFFFF800
    (nth 2 pqRxBuffer 0) (nth 3 pqRxBuffer 0).

Definition spec_thermocouple (pqRxBuffer : list Z) : Z :=
  spec_reconstruct (fractional_bits 4) 2 0xFFFFE000
    (nth 0 pqRxBuffer 0) (nth 1 pqRxBuffer 0).

(** What the SPI controller answers to the register reads of one transfer
    that delivers the four bytes: transmit FIFO empty, occupancy 3, then
    for each byte "not empty" and the byte, then "empty". *)
Definition spi_transfer (r0 r1 r2 r3 : Z) : list Z :=
  [XSP_SR_TX_EMPTY_MASK; 3; 0; r0; 0; r1; 0; r2; 0; r3;
   XSP_SR_RX_EMPTY_MASK].

(** The IIC replies of one barometer sample that finds the device ready
    at the first poll of each loop: the one-shot write goes through, the
    one-shot bit reads as cleared, and the block comes with both
    data-ready bits, the pressure bytes 00 F0 FF and the temperature bytes
    20 FE. *)
Definition barometer_sample_script : list IicReply :=
  [sent 2] ++ reg_read 0x00
  ++ block_read [0x03; 0x00; 0xF0; 0xFF; 0x20; 0xFE].

(** The IIC replies of one hygrometer sample that finds the device ready
    at the first poll of each loop. *)
Definition hygrometer_sample_script : list IicReply :=
  [sent 2] ++ reg_read 0x00 ++ block_read [0x03; 0x10; 0x20; 0x30; 0x40].

(** A barometer that identifies itself, resets and then keeps its boot bit
    set through all 100 polls; the last reply is for the power-up write. *)
Definition barometer_boot_stuck : list IicReply :=
  reg_read 0xBD ++ [sent 2] ++ reg_read 0x00
  ++ [sent 2] ++ polls 100 0x80
  ++ [sent 2].

(** A hygrometer that identifies itself and then keeps its boot bit set
    through all 1000 polls; the replies after them are for the
    calibration read and the power-up write. *)
Definition hygrometer_calibration : list Z :=
  [1; 2; 3; 4; 5; 6; 7; 8; 9; 10; 11; 12; 13; 14; 15; 16].

Definition hygrometer_boot_stuck : list IicReply :=
  reg_read 0xBC
  ++ [sent 2] ++ polls 1000 0x80
  ++ block_read hygrometer_calibration
  ++ [sent 2].

(** A barometer whose software-reset bit reads as set 99 times and as
    cleared the 100th time, and that would go through boot and power-up. *)
Definition barometer_swreset_last_round : list IicReply :=
  reg_read 0xBD
  ++ [sent 2] ++ polls 99 0x04 ++ reg_read 0x00
  ++ [sent 2] ++ reg_read 0x00
  ++ [sent 2].

(** A barometer whose one-shot bit reads as set 49 times and as cleared
    the 50th time, and that has its block ready. *)
Definition barometer_one_shot_last_round : list IicReply :=
  [sent 2] ++ polls 49 0x01 ++ reg_read 0x00
  ++ block_read [0x03; 0x00; 0xF0; 0xFF; 0x20; 0xFE].

(** A barometer whose one-shot bit is cleared at once and whose status
    byte shows no data 49 times and both data-ready bits the 50th time. *)
Definition barometer_data_ready_last_round : list IicReply :=
  [sent 2] ++ reg_read 0x00
  ++ block_polls 49 [0x00; 0x00; 0x00; 0x00; 0x00; 0x00]
  ++ block_read [0x03; 0x00; 0xF0; 0xFF; 0x20; 0xFE].

(** A device at the barometer's address, and one at the hygrometer's, that
    answers the identity read with 0 and everything after it like the
    real part. *)
Definition barometer_identity_zero : list IicReply :=
  reg_read 0x00
  ++ [sent 2] ++ reg_read 0x00
  ++ [sent 2] ++ reg_read 0x00
  ++ [sent 2].

Definition hygrometer_identity_zero : list IicReply :=
  reg_read 0x00
  ++ [sent 2] ++ reg_read 0x00
  ++ block_read hygrometer_calibration
  ++ [sent 2].

(** An SPI transfer in which the receive FIFO runs empty after three
    bytes. *)
Definition spi_transfer_short (r0 r1 r2 : Z) : list Z :=
  [XSP_SR_TX_EMPTY_MASK; 3; 0; r0; 0; r1; 0; r2; XSP_SR_RX_EMPTY_MASK].

(** The three sensor drivers, the stop operation of each and the topic on
    which each reports its status. *)
Inductive Sensor := Barometer | Thermocouple | Hygrometer.

Definition stop_of (d : Sensor) : M unit :=
  match d with
  | Barometer => StopBarometer
  | Thermocouple => StopPLTempSensor
  | Hygrometer => StopHygrometer
  end.

Definition status_topic (d : Sensor) : TOPIC :=
  match d with
  | Barometer => TOPIC_BAROMETER_STATUS
  | Thermocouple => TOPIC_THERMOCOUPLE_STATUS
  | Hygrometer => TOPIC_HYGROMETER_STATUS
  end.

(* ================================================================== *)
(** * Notions for the properties of every operation *)
(* ================================================================== *)

(** A relation between the world before and the world after that an
    operation keeps: whatever the devices answer and however the run ends,
    the world it ends in is related to the one it started in. *)
Definition preserves (R : World -> World -> Prop) {A : Type} (c : M A)
    : Prop :=
  forall w, R w (world_after (c w)).

(** The operations of the three drivers, and the function that each
    names; [fuel] bounds the busy-wait loops of the SPI transfer. *)
Inductive Operation := Start (d : Sensor) | Stop (d : Sensor) | Sample (d : Sensor).

Definition run (fuel : nat) (op : Operation) : M unit :=
  match op with
  | Start Barometer => StartBarometer
  | Start Thermocouple => StartPLTempSensor
  | Start Hygrometer => StartHygrometer
  | Stop d => stop_of d
  | Sample Barometer => SampleBarometer
  | Sample Thermocouple => SamplePLTempSensor fuel
  | Sample Hygrometer => SampleHygrometer
  end.

(** The handles of the system and the tables around it: what is set up
    once, before the first sensor is started. *)
Definition setup_kept (w w' : World) : Prop :=
  xMQTTHandle (sys w') = xMQTTHandle (sys w) /\
  iic_BaseAddress (sys w') = iic_BaseAddress (sys w) /\
  iic_IsReady (sys w') = iic_IsReady (sys w) /\
  gpio_IsReady (sys w') = gpio_IsReady (sys w) /\
  pTopicInfo w' = pTopicInfo w /\
  configTICK_RATE_HZ w' = configTICK_RATE_HZ w.

(** Without a broker handle: no call of the broker, no flash of the
    status indicator. *)
Definition quiet (w w' : World) : Prop :=
  xMQTTHandle (sys w) = None ->
  xMQTTHandle (sys w') = None /\
  mqtt_log w' = mqtt_log w /\ mqtt_in w' = mqtt_in w /\
  gpio_log w' = gpio_log w.

Definition calibration_kept (w w' : World) : Prop :=
  pbHygrometerCalibration (sys w') = pbHygrometerCalibration (sys w).

Definition spi_idle (w w' : World) : Prop :=
  spi_log w' = spi_log w /\ spi_in w' = spi_in w.

Definition iic_idle (w w' : World) : Prop :=
  iic_log w' = iic_log w /\ iic_in w' = iic_in w /\ iic_buf w' = iic_buf w.

(** The slave address of an IIC transfer, and the address of each of the
    two IIC sensors. *)
Definition iic_address (o : IicOp) : Z :=
  match o with
  | IicSend a _ _ => a
  | IicRecv a _ _ => a
  end.

(** Every transfer that was added to the IIC log went to address [a]. *)
Definition addressed (a : Z) (w w' : World) : Prop :=
  exists ops, iic_log w' = iic_log w ++ ops /\
              Forall (fun o => iic_address o = a) ops.

(** The status texts of each driver other than its error reports. *)
Definition status_texts (d : Sensor) : list string :=
  match d with
  | Barometer => ["Barometer started"]
  | Thermocouple =>
      ["PL Thermocouple started"; "SPI Transaction failure"; "Open Circuit";
       "Short to GND"; "Short to VCC"; "Fault"]
  | Hygrometer => ["Hygrometer started"]
  end.

(** The measurements of each driver: topic, format and the one argument,
    which for the barometer and the thermocouple is decoded from some
    buffer [raw]. *)
Definition measurement_of (d : Sensor) (t : TOPIC) (f : string)
    (a : list Arg) : Prop :=
  match d with
  | Barometer =>
      (t = TOPIC_BAROMETER_PRESSURE /\ f = "%.2f hPa" /\
       exists raw,
         a = [ArgFloat (F_div (F_of_int (barometer_pressure_sqTmp raw))
                              (F_lit (4096 # 1)))]) \/
      (t = TOPIC_BAROMETER_TEMPERATURE /\ f = "%.2f C" /\
       exists raw,
         a = [ArgFloat
                (F_add (F_lit (85 # 2))
                   (F_div (F_of_int (barometer_temperature_sqTmp raw))
                          (F_dbl (480 # 1))))])
  | Thermocouple =>
      (t = TOPIC_THERMOCOUPLE_BOARD_TEMPERATURE /\ f = "%.1f C" /\
       exists raw,
         a = [ArgFloat (F_div (F_of_int (internal_sqTemporaryValue raw))
                              (F_lit (16 # 1)))]) \/
      (t = TOPIC_THERMOCOUPLE_TEMPERATURE /\ f = "%.1f C" /\
       exists raw,
         a = [ArgFloat (F_div (F_of_int (thermocouple_sqTemporaryValue raw))
                              (F_lit (4 # 1)))])
  | Hygrometer =>
      (t = TOPIC_HYGROMETER_RELATIVE_HUMIDITY /\ f = "%.2f %%rH" /\
       a = [ArgFloat (F_lit (100 # 1))]) \/
      (t = TOPIC_HYGROMETER_HUMIDITY_SENSOR_TEMPERATURE /\ f = "%.2f C" /\
       a = [ArgFloat (F_lit (1000 # 1))])
  end.

(** What a driver publishes: on its status topic an error text with the
    result code, which is not the success code, or one of its status
    texts without an argument; on a value topic a measurement. *)
Definition publication_of (d : Sensor) (t : TOPIC) (f : string)
    (a : list Arg) : Prop :=
  (t = status_topic d /\
   exists code, code <> XST_SUCCESS /\ a = [ArgInt code]) \/
  (t = status_topic d /\ In f (status_texts d) /\ a = []) \/
  measurement_of d t f a.

(** Once the reporting topic is [T], it stays [T], and every publication
    that was added is among [allowed]. *)
Definition reports_within (T : TOPIC)
    (allowed : TOPIC -> string -> list Arg -> Prop) (w w' : World) : Prop :=
  exists pubs,
    mqtt_log w' = mqtt_log w ++ pubs /\
    (eTopic (sys w) = T ->
     eTopic (sys w') = T /\
     Forall (fun p => allowed (tiTopic (pubInfo p)) (pubFmt p) (pubArgs p))
       pubs).

Definition sensor_of (op : Operation) : Sensor :=
  match op with
  | Start d => d
  | Stop d => d
  | Sample d => d
  end.

(** What the status indicator leaves alone: the system handle, the
    topic table, both buses, the tick rate and the broker's log. *)
Definition indicator_frame (w w' : World) : Prop :=
  sys w' = sys w /\ pTopicInfo w' = pTopicInfo w /\
  iic_in w' = iic_in w /\ iic_log w' = iic_log w /\ iic_buf w' = iic_buf w /\
  spi_in w' = spi_in w /\ spi_log w' = spi_log w /\
  configTICK_RATE_HZ w' = configTICK_RATE_HZ w /\
  mqtt_log w' = mqtt_log w /\ mqtt_in w' = mqtt_in w.

(** What an operation of sensor [d] may do to the buses: the two IIC
    sensors leave the SPI controller alone and address their own slave
    only, the thermocouple leaves the IIC bus alone. *)
Definition own_device (d : Sensor) (w w' : World) : Prop :=
  match d with
  | Barometer => spi_idle w w' /\ addressed BAROMETER_SLAVE_ADDRESS w w'
  | Thermocouple => iic_idle w w'
  | Hygrometer => spi_idle w w' /\ addressed HYGROMETER_SLAVE_ADDRESS w w'
  end.

(** The handle as [StartSystem] has it before the broker is connected,
    and a world with it. *)
Definition offline_System : System :=
  mkSystem 0 true true None (repeat 0 16) XST_SUCCESS "Success"
    TOPIC_SYSTEM_STATUS.

Definition offline_world (iic : list IicReply) (spi : list Z) : World :=
  mkWorld offline_System (snd (InitTopicInfo_loop pTopicInfo_initial))
    iic [] [] [] [] spi [] [] 1000 0.

(** Nothing was said to the broker and the status indicator was not
    touched. *)
Definition silent (w w' : World) : Prop :=
  mqtt_log w' = mqtt_log w /\ mqtt_in w' = mqtt_in w /\
  gpio_log w' = gpio_log w.

(* ================================================================== *)
(** * Answers of the devices and the transfers they lead to *)
(* ================================================================== *)

(** The register named in the address phase of a read of [n] registers. *)
Definition first_register (n reg : Z) : Z :=
  if n >? 1 then Z.lor reg 0x80 else reg.

(** [n] flashes of the status indicator: on, off. *)
Fixpoint flashes (n : nat) : list (Z * Z) :=
  match n with
  | O => []
  | S n' => (LED_PIN, 1) :: (LED_PIN, 0) :: flashes n'
  end.

(** The ticks of half a second for the indicator at the world's tick
    rate. *)
Definition half_second (w : World) : Z :=
  Z.max 1 (pdMS_TO_TICKS (configTICK_RATE_HZ w) 500).

(** The answer of the broker that the next publication gets. *)
Definition next_answer (w : World) : MQTTAgentReturnCode :=
  hd eMQTTAgentSuccess (mqtt_in w).

(** What the controller answers while the receive FIFO is drained: for
    each word "not empty" and the word, then "empty". *)
Fixpoint fifo (words : list Z) : list Z :=
  match words with
  | [] => [XSP_SR_RX_EMPTY_MASK]
  | v :: rest => 0 :: v :: fifo rest
  end.

(** The register reads that drain [n] words. *)
Fixpoint fifo_reads (n : nat) : list SpiOp :=
  match n with
  | O => [SpiRead XSP_SR_OFFSET]
  | S n' => SpiRead XSP_SR_OFFSET :: SpiRead XSP_DRR_OFFSET :: fifo_reads n'
  end.

(** The answers of the controller to one transfer: the status words that
    show the transmit FIFO busy and the one that shows it empty, the
    occupancy values before the expected one, and the receive FIFO. *)
Definition spi_answers (busy other words : list Z) : list Z :=
  busy ++ XSP_SR_TX_EMPTY_MASK :: other ++ 3 :: fifo words.

(** The register accesses of one 4-word transfer on channel 0. *)
Definition spi_transfer_log (polls_tx polls_occupancy words : nat)
    : list SpiOp :=
  [SpiWrite XSP_DTR_OFFSET 0; SpiWrite XSP_DTR_OFFSET 0;
   SpiWrite XSP_DTR_OFFSET 0; SpiWrite XSP_DTR_OFFSET 0;
   SpiWrite XSP_SSR_OFFSET PL_SPI_CHANNEL_SEL_0;
   SpiWrite XSP_CR_OFFSET MAX31855_CR_UNINHIBIT_MODE]
  ++ repeat (SpiRead XSP_SR_OFFSET) polls_tx
  ++ repeat (SpiRead XSP_RFO_OFFSET) polls_occupancy
  ++ fifo_reads words
  ++ [SpiWrite XSP_CR_OFFSET MAX31855_CR_INIT_MODE;
      SpiWrite XSP_SSR_OFFSET PL_SPI_CHANNEL_SEL_NONE].

(** One round of a loop that polls a register until the bits of [mask]
    read as cleared, as [StartBarometer], [SampleBarometer],
    [StartHygrometer] and [SampleHygrometer] have them. *)
Definition register_poll (addr reg : Z) (text : string) (mask xOneMs : Z)
    (b : Z) : M (bool * Z) :=
  b <- MAY_DIE (
    r <- ReadIicReg addr reg [b] ;;
    modify_sys (set_pcErr text) ;;
    ret (nth 0 (snd r) 0)) ;;
  if 0 =? Z.land b mask then ret (true, b)
  else vTaskDelay xOneMs ;; ret (false, b).

(** One round of a loop that reads a block of [n] registers until the
    bits of [mask] are all set in its first byte. *)
Definition block_poll (addr n reg : Z) (text : string) (mask xOneMs : Z)
    (pbBuf : list Z) : M (bool * list Z) :=
  pbBuf <- MAY_DIE (
    r <- ReadIicRegs addr n reg pbBuf ;;
    modify_sys (set_pcErr text) ;;
    ret (snd r)) ;;
  if mask =? Z.land (nth 0 pbBuf 0) mask then ret (true, pbBuf)
  else vTaskDelay xOneMs ;; ret (false, pbBuf).

(** What a register access leaves alone. *)
Definition bus_frame (w w' : World) : Prop :=
  rc (sys w') = rc (sys w) /\ eTopic (sys w') = eTopic (sys w) /\
  xMQTTHandle (sys w') = xMQTTHandle (sys w) /\
  pbHygrometerCalibration (sys w') = pbHygrometerCalibration (sys w) /\
  pTopicInfo w' = pTopicInfo w /\
  mqtt_log w' = mqtt_log w /\ mqtt_in w' = mqtt_in w /\
  spi_log w' = spi_log w /\ spi_in w' = spi_in w /\
  gpio_log w' = gpio_log w /\
  configTICK_RATE_HZ w' = configTICK_RATE_HZ w.

(** The transfers of [k] reads of one register. *)
Fixpoint register_reads (addr reg : Z) (k : nat) : list IicOp :=
  match k with
  | O => []
  | S k' =>
      IicSend addr [reg] XIIC_REPEATED_START :: IicRecv addr 1 XIIC_STOP
      :: register_reads addr reg k'
  end.

(** The transfers of [k] reads of a block of [n] registers. *)
Fixpoint block_reads (addr n reg : Z) (k : nat) : list IicOp :=
  match k with
  | O => []
  | S k' =>
      IicSend addr [Z.lor reg 0x80] XIIC_REPEATED_START
      :: IicRecv addr n XIIC_STOP :: block_reads addr n reg k'
  end.

(** The ticks of one millisecond at the world's tick rate. *)
Definition one_ms (w : World) : Z :=
  Z.max 1 (pdMS_TO_TICKS (configTICK_RATE_HZ w) 1).

(** The bus transfers of a start of the barometer in which the reset bit
    clears in poll [k1 + 1] and the boot bit in poll [k2 + 1]. *)
Definition barometer_start_log (k1 k2 : nat) : list IicOp :=
  register_reads BAROMETER_SLAVE_ADDRESS BAROMETER_REG_WHO_AM_I 1
  ++ [IicSend BAROMETER_SLAVE_ADDRESS
        [BAROMETER_REG_CTRL_REG2; BAROMETER_BFLD_SWRESET] XIIC_STOP]
  ++ register_reads BAROMETER_SLAVE_ADDRESS BAROMETER_REG_CTRL_REG2 (S k1)
  ++ [IicSend BAROMETER_SLAVE_ADDRESS
        [BAROMETER_REG_CTRL_REG2; BAROMETER_BFLD_BOOT] XIIC_STOP]
  ++ register_reads BAROMETER_SLAVE_ADDRESS BAROMETER_REG_CTRL_REG2 (S k2)
  ++ [IicSend BAROMETER_SLAVE_ADDRESS
        [BAROMETER_REG_CTRL_REG1; BAROMETER_BFLD_PD] XIIC_STOP].

(** The bus transfers of a start of the hygrometer in which the boot bit
    clears in poll [k + 1]. *)
Definition hygrometer_start_log (k : nat) : list IicOp :=
  register_reads HYGROMETER_SLAVE_ADDRESS HYGROMETER_REG_WHO_AM_I 1
  ++ [IicSend HYGROMETER_SLAVE_ADDRESS
        [HYGROMETER_REG_CTRL_REG2; HYGROMETER_BFLD_BOOT] XIIC_STOP]
  ++ register_reads HYGROMETER_SLAVE_ADDRESS HYGROMETER_REG_CTRL_REG2 (S k)
  ++ block_reads HYGROMETER_SLAVE_ADDRESS 16 HYGROMETER_REG_CALIB_0 1
  ++ [IicSend HYGROMETER_SLAVE_ADDRESS
        [HYGROMETER_REG_CTRL_REG1; HYGROMETER_BFLD_PD] XIIC_STOP].

(** The bus transfers of a sample of the barometer in which the one-shot
    bit clears in poll [k1 + 1] and the data is ready in read [k2 + 1] of
    the block. *)
Definition barometer_sample_log (k1 k2 : nat) : list IicOp :=
  [IicSend BAROMETER_SLAVE_ADDRESS
     [BAROMETER_REG_CTRL_REG2; BAROMETER_BFLD_ONE_SHOT] XIIC_STOP]
  ++ register_reads BAROMETER_SLAVE_ADDRESS BAROMETER_REG_CTRL_REG2 (S k1)
  ++ block_reads BAROMETER_SLAVE_ADDRESS 6 BAROMETER_REG_STATUS_REG (S k2).

(** Both data-ready bits of the barometer's status byte. *)
Definition barometer_data_ready (pbBuf : list Z) : Prop :=
  Z.land (nth 0 pbBuf 0) (Z.lor BAROMETER_BFLD_P_DA BAROMETER_BFLD_T_DA)
  = Z.lor BAROMETER_BFLD_P_DA BAROMETER_BFLD_T_DA.

(** The bus transfers of a sample of the hygrometer in which the one-shot
    bit clears in poll [k1 + 1] and the data is ready in read [k2 + 1] of
    the block. *)
Definition hygrometer_sample_log (k1 k2 : nat) : list IicOp :=
  [IicSend HYGROMETER_SLAVE_ADDRESS
     [HYGROMETER_REG_CTRL_REG2; HYGROMETER_BFLD_ONE_SHOT] XIIC_STOP]
  ++ register_reads HYGROMETER_SLAVE_ADDRESS HYGROMETER_REG_CTRL_REG2 (S k1)
  ++ block_reads HYGROMETER_SLAVE_ADDRESS 5 HYGROMETER_REG_STATUS_REG (S k2).

(** Both data-ready bits of the hygrometer's status byte. *)
Definition hygrometer_data_ready (pbBuf : list Z) : Prop :=
  Z.land (nth 0 pbBuf 0) (Z.lor HYGROMETER_BFLD_H_DA HYGROMETER_BFLD_T_DA)
  = Z.lor HYGROMETER_BFLD_H_DA HYGROMETER_BFLD_T_DA.

(** The fault bits of the thermocouple's answer, in the order in which
    [SamplePLTempSensor] tests them. *)
Definition thermocouple_faultless (r1 r3 : Z) : Prop :=
  Z.testbit r3 0 = false /\ Z.testbit r3 1 = false /\
  Z.testbit r3 2 = false /\ Z.testbit r1 0 = false.

(** The IIC answers of a sample that finds its sensor ready at the first
    poll of each loop: the one-shot write is taken, the control register
    reads [c], the block comes as [block]. *)
Definition ready_answers (c : Z) (block : list Z) : list IicReply :=
  [sent 2] ++ reg_read c ++ block_read block.

(** The log of the SPI controller has only grown. *)
Definition spi_grows (w w' : World) : Prop :=
  exists l, spi_log w' = spi_log w ++ l.

(** The register writes with which every transfer of
    [SamplePLTempSensor] begins: the four words of the transmit FIFO, the
    slave select and the release of the controller. *)
Definition spi_transfer_begins : list SpiOp :=
  [SpiWrite XSP_DTR_OFFSET 0; SpiWrite XSP_DTR_OFFSET 0;
   SpiWrite XSP_DTR_OFFSET 0; SpiWrite XSP_DTR_OFFSET 0;
   SpiWrite XSP_SSR_OFFSET PL_SPI_CHANNEL_SEL_0;
   SpiWrite XSP_CR_OFFSET MAX31855_CR_UNINHIBIT_MODE].

(* ================================================================== *)
(** * Worlds in which reports can be made, and the start of the system *)
(* ================================================================== *)

(** The identities that the drivers publish under. *)
Definition all_topics : list TOPIC :=
  [TOPIC_BAROMETER_PRESSURE; TOPIC_BAROMETER_TEMPERATURE;
   TOPIC_BAROMETER_STATUS; TOPIC_THERMOCOUPLE_TEMPERATURE;
   TOPIC_THERMOCOUPLE_BOARD_TEMPERATURE; TOPIC_THERMOCOUPLE_STATUS;
   TOPIC_HYGROMETER_RELATIVE_HUMIDITY;
   TOPIC_HYGROMETER_HUMIDITY_SENSOR_TEMPERATURE; TOPIC_HYGROMETER_STATUS;
   TOPIC_SYSTEM_STATUS].

(** The table has an entry, before its sentinel, for each of them. *)
Definition knows_all_topics (pTI : list TopicInfo) : bool :=
  forallb (fun t => match GetTopicInfo_loop pTI t with
                    | Some _ => true
                    | None => false
                    end) all_topics.

(** A world in which every report can be made: no broker, or a table
    that knows every topic; and a reporting topic other than the
    sentinel's. *)
Definition reportable (w : World) : Prop :=
  (xMQTTHandle (sys w) = None \/ knows_all_topics (pTopicInfo w) = true) /\
  eTopic (sys w) <> TOPIC_LAST.

(** From such a world the operation does not fault, whatever the devices
    answer, and ends in such a world. *)
Definition never_faults {A : Type} (c : M A) : Prop :=
  forall w, reportable w ->
    match c w with
    | Normal _ w' => reportable w'
    | Goto_L_DIE w' => reportable w'
    | Crash _ _ => False
    end.

(** [StartSystem] from the point where the broker connection has been
    made to its return: the three starts and the report.  The jump to
    [L_DIE], where [StopSystem] takes over, is the result
    [Goto_L_DIE]. *)
Definition StartSystem_sensors : M unit :=
  MAY_DIE (
    StartBarometer ;;
    modify_sys (set_pcErr "StartBarometer() -> %08x")) ;;
  MAY_DIE (
    StartPLTempSensor ;;
    modify_sys (set_pcErr "StartPLTempSensor() -> %08x")) ;;
  MAY_DIE (
    StartHygrometer ;;
    modify_sys (set_pcErr "StartHygroMeter() -> %08x")) ;;
  prvPublishTopic TOPIC_SYSTEM_STATUS "System started" [].

(* ================================================================== *)
(** * Facts about the machine integers *)
(* ================================================================== *)

Unset Implicit Arguments.

Lemma to_u32_small (x : Z) : 0 <= x < 2 ^ 32 -> to_u32 x = x.
Proof. intros H. unfold to_u32. now apply Z.mod_small. Qed.

Lemma to_s32_small (x : Z) : - 2 ^ 31 <= x < 2 ^ 31 -> to_s32 x = x.
Proof.
  intros H. unfold to_s32. rewrite Z.mod_small; lia.
Qed.

Lemma to_s32_high (x : Z) : 2 ^ 31 <= x < 2 ^ 32 -> to_s32 x = x - 2 ^ 32.
Proof.
  intros H. unfold to_s32.
  replace (x + 2 ^ 31) with (x - 2 ^ 31 + 1 * 2 ^ 32) by lia.
  rewrite Z_mod_plus_full, Z.mod_small; lia.
Qed.

(** Bits of a number below a power of two. *)
Lemma testbit_above (x k i : Z) :
  0 <= x < 2 ^ k -> k <= i -> Z.testbit x i = false.
Proof.
  intros Hx Hi.
  destruct (Z.eq_dec x 0) as [->|Hn]; [apply Z.bits_0|].
  apply Z.bits_above_log2; [lia|].
  assert (Z.log2 x < k); [|lia].
  apply Z.log2_lt_pow2; lia.
Qed.

(** Two patterns without a common bit: OR is addition. *)
Lemma lor_disjoint (a b : Z) : Z.land a b = 0 -> Z.lor a b = a + b.
Proof.
  intros H. rewrite <- (Z.add_lor_land a b), H. lia.
Qed.

Lemma land_low_shifted (a b k : Z) :
  0 <= a < 2 ^ k -> 0 <= k -> Z.land a (Z.shiftl b k) = 0.
Proof.
  intros Ha Hk. apply Z.bits_inj'. intros i Hi.
  rewrite Z.land_spec, Z.bits_0.
  destruct (Z.lt_ge_cases i k) as [Hlt|Hge].
  - rewrite (Z.shiftl_spec_low b k i Hlt). apply andb_false_r.
  - rewrite (testbit_above a k i Ha Hge). reflexivity.
Qed.

(** Concatenation: a low part of [k] bits and a part shifted above it. *)
Lemma lor_shifted (a b k : Z) :
  0 <= a < 2 ^ k -> 0 <= k -> Z.lor a (Z.shiftl b k) = a + b * 2 ^ k.
Proof.
  intros Ha Hk.
  rewrite lor_disjoint by (apply land_low_shifted; assumption).
  now rewrite Z.shiftl_mul_pow2.
Qed.

(** The top bit of a [k+1]-bit pattern. *)
Lemma testbit_top (x k : Z) :
  0 <= k -> 0 <= x < 2 ^ (k + 1) -> Z.testbit x k = (2 ^ k <=? x).
Proof.
  intros Hk Hx.
  rewrite Z.pow_add_r, Z.pow_1_r in Hx by lia.
  rewrite Z.testbit_eqb by lia.
  assert (Hq : x / 2 ^ k = if 2 ^ k <=? x then 1 else 0).
  { destruct (Z.leb_spec (2 ^ k) x).
    - symmetry. apply (Z.div_unique x (2 ^ k) 1 (x - 2 ^ k)); lia.
    - apply Z.div_small. lia. }
  rewrite Hq. now destruct (2 ^ k <=? x).
Qed.

Lemma land_pow2 (x k : Z) :
  0 <= k -> Z.land x (2 ^ k) = if Z.testbit x k then 2 ^ k else 0.
Proof.
  intros Hk. apply Z.bits_inj'. intros i Hi.
  rewrite Z.land_spec, Z.pow2_bits_eqb by lia.
  destruct (Z.eqb_spec k i) as [->|Hne].
  - destruct (Z.testbit x i) eqn:E; rewrite ?Z.bits_0, ?Z.pow2_bits_eqb,
      ?Z.eqb_refl by lia; reflexivity.
  - rewrite andb_false_r.
    destruct (Z.testbit x k); rewrite ?Z.bits_0, ?Z.pow2_bits_eqb by lia;
      [symmetry; now apply Z.eqb_neq|reflexivity].
Qed.

(** The mask with bits [k] to 31 set, OR-ed onto a pattern whose top bit
    is bit [k]: the bits above [k] are filled. *)
Lemma lor_sign_mask (x k : Z) :
  0 <= k < 32 -> 2 ^ k <= x < 2 ^ (k + 1) ->
  Z.lor x (2 ^ 32 - 2 ^ k) = x + 2 ^ 32 - 2 ^ (k + 1).
Proof.
  intros Hk Hx.
  assert (Hm : 2 ^ 32 - 2 ^ k = Z.shiftl (Z.ones (32 - k)) k).
  { rewrite Z.shiftl_mul_pow2, Z.ones_equiv by lia.
    rewrite <- Z.sub_1_r, Z.mul_sub_distr_r, <- Z.pow_add_r by lia.
    replace (32 - k + k) with 32 by lia. lia. }
  assert (Hl : Z.land x (2 ^ 32 - 2 ^ k) = 2 ^ k).
  { rewrite Hm. apply Z.bits_inj'. intros i Hi.
    rewrite Z.land_spec, Z.pow2_bits_eqb by lia.
    destruct (Z.lt_trichotomy i k) as [Hlt|[->|Hgt]].
    - rewrite (Z.shiftl_spec_low _ k i Hlt), andb_false_r.
      symmetry. apply Z.eqb_neq. lia.
    - rewrite Z.shiftl_spec, Z.sub_diag, Z.eqb_refl by lia.
      rewrite (testbit_top x k) by lia.
      rewrite Z.testbit_ones_nonneg by lia.
      replace (2 ^ k <=? x) with true by (symmetry; apply Z.leb_le; lia).
      replace (0 <? 32 - k) with true by (symmetry; apply Z.ltb_lt; lia).
      reflexivity.
    - rewrite (testbit_above x (k + 1) i) by lia.
      symmetry. apply Z.eqb_neq. lia. }
  pose proof (Z.add_lor_land x (2 ^ 32 - 2 ^ k)) as Ha.
  rewrite Hl in Ha.
  rewrite Z.pow_add_r, Z.pow_1_r by lia. lia.
Qed.

(** OR-ing that mask onto an [s32] whose pattern has [k+1] bits and bit
    [k] set yields the number that the pattern stands for in two's
    complement. *)
Lemma s32_or_mask_sign_extends (x k : Z) :
  0 <= k < 31 -> 2 ^ k <= x < 2 ^ (k + 1) ->
  s32_or_mask x (2 ^ 32 - 2 ^ k) = x - 2 ^ (k + 1).
Proof.
  intros Hk Hx. unfold s32_or_mask.
  assert (H31 : 2 ^ (k + 1) <= 2 ^ 31) by (apply Z.pow_le_mono_r; lia).
  assert (H32 : 2 ^ 31 < 2 ^ 32) by (apply Z.pow_lt_mono_r; lia).
  assert (0 < 2 ^ k) by (apply Z.pow_pos_nonneg; lia).
  rewrite to_u32_small by lia.
  rewrite lor_sign_mask by lia.
  rewrite to_s32_high by lia. lia.
Qed.

Lemma s32_test_mask_pow2 (x k : Z) :
  0 <= k -> 0 <= x < 2 ^ 32 ->
  s32_test_mask x (2 ^ k) = Z.testbit x k.
Proof.
  intros Hk Hx. unfold s32_test_mask.
  rewrite to_u32_small by lia. rewrite land_pow2 by lia.
  assert (0 < 2 ^ k) by (apply Z.pow_pos_nonneg; lia).
  destruct (Z.testbit x k).
  - replace (2 ^ k =? 0) with false by (symmetry; apply Z.eqb_neq; lia).
    reflexivity.
  - reflexivity.
Qed.

(* ================================================================== *)
(** * The conversions of the raw bytes *)
(* ================================================================== *)

Lemma pressure_pattern (xl l h : Z) :
  byte_range xl -> byte_range l -> byte_range h ->
  Z.lor (Z.lor xl (Z.shiftl l 8)) (Z.shiftl h 16) = xl + l * 2 ^ 8 + h * 2 ^ 16.
Proof.
  unfold byte_range. intros Hxl Hl Hh.
  rewrite (lor_shifted xl l 8) by lia.
  rewrite lor_shifted by lia. reflexivity.
Qed.

Lemma barometer_pressure_sqTmp_spec (s xl l h tl th : Z) :
  byte_range xl -> byte_range l -> byte_range h ->
  barometer_pressure_sqTmp [s; xl; l; h; tl; th]
  = sign_extend 24 (Z.lor (Z.lor xl (Z.shiftl l 8)) (Z.shiftl h 16)).
Proof.
  intros Hxl Hl Hh.
  unfold barometer_pressure_sqTmp, sign_extend. cbn [nth].
  rewrite Z.lor_0_l, Z.shiftl_0_r.
  unfold byte_range in *.
  rewrite (to_u32_small xl) by lia.
  rewrite (to_u32_small (Z.shiftl l 8)) by (rewrite Z.shiftl_mul_pow2; lia).
  rewrite (to_u32_small (Z.shiftl h 16)) by (rewrite Z.shiftl_mul_pow2; lia).
  rewrite pressure_pattern by (unfold byte_range; assumption).
  set (x := xl + l * 2 ^ 8 + h * 2 ^ 16).
  assert (Hx : 0 <= x < 2 ^ 24) by (unfold x; lia).
  rewrite to_s32_small by lia.
  change 0x00800000 with (2 ^ 23).
  change 0xFF800000 with (2 ^ 32 - 2 ^ 23).
  rewrite s32_test_mask_pow2 by lia.
  change (24 - 1) with 23.
  rewrite (testbit_top x 23) by (change (23 + 1) with 24; lia).
  destruct (Z.leb_spec (2 ^ 23) x).
  - rewrite s32_or_mask_sign_extends by (change (23 + 1) with 24; lia). reflexivity.
  - reflexivity.
Qed.

Lemma temperature_pattern (tl th : Z) :
  byte_range tl -> byte_range th ->
  Z.lor tl (Z.shiftl th 8) = tl + th * 2 ^ 8.
Proof.
  unfold byte_range. intros. rewrite lor_shifted by lia. reflexivity.
Qed.

Lemma barometer_temperature_sqTmp_spec (s xl l h tl th : Z) :
  byte_range tl -> byte_range th ->
  barometer_temperature_sqTmp [s; xl; l; h; tl; th]
  = sign_extend 16 (Z.lor tl (Z.shiftl th 8)).
Proof.
  intros Htl Hth.
  unfold barometer_temperature_sqTmp, sign_extend. cbn [nth].
  rewrite Z.lor_0_l, Z.shiftl_0_r.
  unfold byte_range in *.
  rewrite (to_u32_small tl) by lia.
  rewrite (to_u32_small (Z.shiftl th 8)) by (rewrite Z.shiftl_mul_pow2; lia).
  rewrite temperature_pattern by (unfold byte_range; assumption).
  set (x := tl + th * 2 ^ 8).
  assert (Hx : 0 <= x < 2 ^ 16) by (unfold x; lia).
  rewrite to_s32_small by lia.
  change 0x00008000 with (2 ^ 15).
  change 0xFFFF8000 with (2 ^ 32 - 2 ^ 15).
  rewrite s32_test_mask_pow2 by lia.
  change (16 - 1) with 15.
  rewrite (testbit_top x 15) by (change (15 + 1) with 16; lia).
  destruct (Z.leb_spec (2 ^ 15) x).
  - rewrite s32_or_mask_sign_extends by (change (15 + 1) with 16; lia). reflexivity.
  - reflexivity.
Qed.

Lemma internal_pattern (r2 r3 : Z) :
  byte_range r2 -> byte_range r3 ->
  Z.lor (Z.shiftl r2 4) (Z.shiftr r3 4) = r2 * 2 ^ 4 + r3 / 2 ^ 4.
Proof.
  unfold byte_range. intros H2 H3.
  rewrite Z.lor_comm, Z.shiftr_div_pow2 by lia.
  assert (0 <= r3 / 2 ^ 4 < 2 ^ 4).
  { split; [apply Z.div_pos; lia|apply Z.div_lt_upper_bound; lia]. }
  rewrite lor_shifted by lia. lia.
Qed.

Lemma internal_spec (r0 r1 r2 r3 : Z) :
  byte_range r2 -> byte_range r3 ->
  internal_sqTemporaryValue [r0; r1; r2; r3]
  = sign_extend 12 (Z.lor (Z.shiftl r2 4) (Z.shiftr r3 4)).
Proof.
  intros H2 H3.
  unfold internal_sqTemporaryValue, sign_extend. cbn [nth].
  pose proof (internal_pattern r2 r3 H2 H3) as Hp.
  unfold byte_range in *.
  rewrite (to_s32_small r2), (to_s32_small r3) by lia.
  rewrite (to_s32_small (Z.shiftl r2 4)) by (rewrite Z.shiftl_mul_pow2; lia).
  rewrite Hp.
  assert (0 <= r3 / 2 ^ 4 < 2 ^ 4).
  { split; [apply Z.div_pos; lia|apply Z.div_lt_upper_bound; lia]. }
  set (x := r2 * 2 ^ 4 + r3 / 2 ^ 4).
  assert (Hx : 0 <= x < 2 ^ 12) by (unfold x; lia).
  change 0x80 with (2 ^ 7).
  rewrite land_pow2 by lia.
  rewrite (testbit_top r2 7) by (change (7 + 1) with 8; lia).
  change (12 - 1) with 11.
  rewrite (testbit_top x 11) by (change (11 + 1) with 12; lia).
  change 0xFFFFF800 with (2 ^ 32 - 2 ^ 11).
  destruct (Z.leb_spec (2 ^ 7) r2).
  - replace (2 ^ 11 <=? x) with true by (symmetry; apply Z.leb_le; unfold x; lia).
    rewrite Z.eqb_refl.
    rewrite s32_or_mask_sign_extends by (change (11 + 1) with 12; unfold x; lia).
    reflexivity.
  - replace (2 ^ 11 <=? x) with false by (symmetry; apply Z.leb_gt; unfold x; lia).
    reflexivity.
Qed.

Lemma thermocouple_pattern (r0 r1 : Z) :
  byte_range r0 -> byte_range r1 ->
  Z.lor (Z.shiftl r0 6) (Z.shiftr r1 2) = r0 * 2 ^ 6 + r1 / 2 ^ 2.
Proof.
  unfold byte_range. intros H0 H1.
  rewrite Z.lor_comm, Z.shiftr_div_pow2 by lia.
  assert (0 <= r1 / 2 ^ 2 < 2 ^ 6).
  { split; [apply Z.div_pos; lia|apply Z.div_lt_upper_bound; lia]. }
  rewrite lor_shifted by lia. lia.
Qed.

Lemma thermocouple_spec (r0 r1 r2 r3 : Z) :
  byte_range r0 -> byte_range r1 ->
  thermocouple_sqTemporaryValue [r0; r1; r2; r3]
  = sign_extend 14 (Z.lor (Z.shiftl r0 6) (Z.shiftr r1 2)).
Proof.
  intros H0 H1.
  unfold thermocouple_sqTemporaryValue, sign_extend. cbn [nth].
  pose proof (thermocouple_pattern r0 r1 H0 H1) as Hp.
  unfold byte_range in *.
  rewrite (to_s32_small r0), (to_s32_small r1) by lia.
  rewrite (to_s32_small (Z.shiftl r0 6)) by (rewrite Z.shiftl_mul_pow2; lia).
  rewrite Hp.
  assert (0 <= r1 / 2 ^ 2 < 2 ^ 6).
  { split; [apply Z.div_pos; lia|apply Z.div_lt_upper_bound; lia]. }
  set (x := r0 * 2 ^ 6 + r1 / 2 ^ 2).
  assert (Hx : 0 <= x < 2 ^ 14) by (unfold x; lia).
  change 0x80 with (2 ^ 7).
  rewrite land_pow2 by lia.
  rewrite (testbit_top r0 7) by (change (7 + 1) with 8; lia).
  change (14 - 1) with 13.
  rewrite (testbit_top x 13) by (change (13 + 1) with 14; lia).
  change 0xFFFFE000 with (2 ^ 32 - 2 ^ 13).
  destruct (Z.leb_spec (2 ^ 7) r0).
  - replace (2 ^ 13 <=? x) with true
      by (symmetry; apply Z.leb_le; unfold x; lia).
    rewrite Z.eqb_refl.
    rewrite s32_or_mask_sign_extends
      by (change (13 + 1) with 14; unfold x; lia).
    reflexivity.
  - replace (2 ^ 13 <=? x) with false
      by (symmetry; apply Z.leb_gt; unfold x; lia).
    reflexivity.
Qed.

(* ================================================================== *)
(** * Facts about the control flow *)
(* ================================================================== *)

Lemma bind_Normal {A B} (c : M A) (k : A -> M B) (w w1 : World) (a : A) :
  c w = Normal a w1 -> bind c k w = k a w1.
Proof. intros E. unfold bind. now rewrite E. Qed.

Lemma bind_Goto {A B} (c : M A) (k : A -> M B) (w w1 : World) :
  c w = Goto_L_DIE w1 -> bind c k w = Goto_L_DIE w1.
Proof. intros E. unfold bind. now rewrite E. Qed.

Lemma for_countdown_skip {L : Type} (body : L -> M (bool * L)) (k n : nat)
    (l l1 : L) (w w1 : World) :
  rounds body k l w l1 w1 ->
  for_countdown (k + n) body l w = for_countdown n body l1 w1.
Proof.
  induction 1 as [|k l l1 l2 w w1 w2 E _ IH]; [reflexivity|].
  cbn [Nat.add for_countdown]. unfold bind at 1. rewrite E. cbn [fst snd].
  exact IH.
Qed.

(** The poll that never sees its condition stops after exactly as many
    rounds as the bound, and leaves the counter at -1. *)
Lemma for_countdown_exhausted {L : Type} (body : L -> M (bool * L)) (n : nat)
    (l l1 : L) (w w1 : World) :
  rounds body n l w l1 w1 ->
  for_countdown n body l w = Normal (-1, l1) w1.
Proof.
  intros H. rewrite <- (Nat.add_0_r n) at 1.
  rewrite (for_countdown_skip body n 0 l l1 w w1 H). reflexivity.
Qed.

(** The poll that sees its condition in round [k + 1] of [n] leaves the
    counter at [n - (k + 1)]. *)
Lemma for_countdown_break {L : Type} (body : L -> M (bool * L)) (k n : nat)
    (l l1 l2 : L) (w w1 w2 : World) :
  rounds body k l w l1 w1 ->
  body l1 w1 = Normal (true, l2) w2 ->
  (k < n)%nat ->
  for_countdown n body l w = Normal (Z.of_nat n - Z.of_nat k - 1, l2) w2.
Proof.
  intros H E Hlt.
  replace n with (k + S (n - k - 1))%nat at 1 by lia.
  rewrite (for_countdown_skip body k _ l l1 w w1 H).
  cbn [for_countdown]. unfold bind. rewrite E. cbn [fst snd]. unfold ret.
  do 2 f_equal. lia.
Qed.

(** In the last permitted round the counter is already 0: the test
    [<= 0] that follows each loop takes it for a time-out. *)
Lemma for_countdown_break_in_last_round {L : Type}
    (body : L -> M (bool * L)) (n : nat) (l l1 l2 : L) (w w1 w2 : World) :
  rounds body n l w l1 w1 ->
  body l1 w1 = Normal (true, l2) w2 ->
  for_countdown (S n) body l w = Normal (0, l2) w2.
Proof.
  intros H E.
  rewrite (for_countdown_break body n (S n) l l1 l2 w w1 w2 H E) by lia.
  do 2 f_equal. lia.
Qed.

(* ================================================================== *)
(** * Facts about the publisher and the register layer *)
(* ================================================================== *)

Lemma BlinkLed_frame (xFinalOn : Z) (w : World) :
  exists w', BlinkLed 1 xFinalOn w = Normal tt w' /\ same_devices w w' /\
             mqtt_log w' = mqtt_log w /\ mqtt_in w' = mqtt_in w.
Proof.
  unfold BlinkLed, bind, MS_TO_TICKS, get_sys.
  destruct (gpio_IsReady (sys w)); cbn.
  - destruct (negb (xFinalOn =? 0)); cbn; eexists; (split; [reflexivity|]);
      unfold same_devices; cbn; intuition reflexivity.
  - eexists; (split; [reflexivity|]); unfold same_devices; cbn; intuition reflexivity.
Qed.

Lemma prvPublishTopic_connected (t : TOPIC) (fmt : string) (args : list Arg)
    (w : World) (h : Z) (ti : TopicInfo) :
  xMQTTHandle (sys w) = Some h ->
  GetTopicInfo_loop (pTopicInfo w) t = Some ti ->
  exists w', prvPublishTopic t fmt args w = Normal tt w' /\
             same_devices w w' /\
             mqtt_log w' = mqtt_log w ++ [mkPublication ti fmt args].
Proof.
  intros Hh Ht.
  unfold prvPublishTopic, bind, get_sys. rewrite Hh.
  unfold GetTopicInfo. rewrite Ht.
  unfold MQTT_AGENT_Publish.
  set (w1 := with_mqtt _ _ w).
  assert (Hd : same_devices w w1) by (unfold same_devices; cbn; intuition reflexivity).
  assert (Hl : mqtt_log w1 = mqtt_log w ++ [mkPublication ti fmt args]) by reflexivity.
  destruct (hd eMQTTAgentSuccess (mqtt_in w)).
  - exists w1. auto.
  - destruct (BlinkLed_frame pdFALSE w1) as (w2 & E & D & L & _).
    exists w2. rewrite E. unfold same_devices in *. intuition congruence.
  - destruct (BlinkLed_frame pdFALSE w1) as (w2 & E & D & L & _).
    exists w2. rewrite E. unfold same_devices in *. intuition congruence.
  - destruct (BlinkLed_frame pdFALSE w1) as (w2 & E & D & L & _).
    exists w2. rewrite E. cbn. unfold same_devices in *. intuition congruence.
Qed.

Lemma prvPublishTopic_disconnected (t : TOPIC) (fmt : string) (args : list Arg)
    (w : World) :
  xMQTTHandle (sys w) = None ->
  prvPublishTopic t fmt args w = Normal tt w.
Proof.
  intros Hh. unfold prvPublishTopic, bind, get_sys. now rewrite Hh.
Qed.

Lemma prvPublishTopic_returns (t : TOPIC) (fmt : string) (args : list Arg)
    (w : World) :
  xMQTTHandle (sys w) = None \/
  (exists ti, GetTopicInfo_loop (pTopicInfo w) t = Some ti) ->
  exists w', prvPublishTopic t fmt args w = Normal tt w' /\ same_devices w w'.
Proof.
  intros [Hn|[ti Ht]].
  - exists w. rewrite prvPublishTopic_disconnected by assumption.
    unfold same_devices. intuition reflexivity.
  - destruct (xMQTTHandle (sys w)) as [h|] eqn:Hh.
    + destruct (prvPublishTopic_connected t fmt args w h ti Hh Ht)
        as (w' & E & D & _).
      exists w'. auto.
    + exists w. rewrite prvPublishTopic_disconnected by assumption.
      unfold same_devices. intuition reflexivity.
Qed.


Lemma MAY_DIE_passes {A} (code : M A) (w w1 : World) (a : A) :
  code w = Normal a w1 -> rc (sys w1) = XST_SUCCESS ->
  MAY_DIE code w = Normal a w1.
Proof.
  intros E Hrc. unfold MAY_DIE.
  rewrite (bind_Normal _ _ _ _ _ E). unfold bind, get_sys.
  rewrite Hrc. reflexivity.
Qed.

Lemma MAY_DIE_dies {A} (code : M A) (w w1 : World) (a : A) :
  code w = Normal a w1 -> rc (sys w1) <> XST_SUCCESS -> can_report w1 ->
  exists w2, MAY_DIE code w = Goto_L_DIE w2 /\ same_devices w1 w2.
Proof.
  intros E Hrc Hc. unfold MAY_DIE.
  rewrite (bind_Normal _ _ _ _ _ E). unfold bind at 1, get_sys.
  replace (rc (sys w1) =? XST_SUCCESS) with false
    by (symmetry; now apply Z.eqb_neq).
  cbv [negb].
  destruct (prvPublishTopic_returns (eTopic (sys w1)) (pcErr (sys w1))
              [ArgInt (rc (sys w1))] w1 Hc) as (w2 & Ep & D).
  exists w2. rewrite (bind_Normal _ _ _ _ _ Ep). auto.
Qed.

Lemma WriteIicRegs_returns (addr xCount : Z) (pbBuf : list Z) (w : World) :
  can_report w -> (2 < xCount -> pbBuf <> []) ->
  exists code w',
    WriteIicRegs addr xCount pbBuf w
      = Normal (code, buffer_after_write xCount pbBuf) w' /\
    iic_log w' = iic_log w ++
      [IicSend addr (firstn (Z.to_nat xCount)
                       (buffer_after_write xCount pbBuf)) XIIC_STOP].
Proof.
  intros Hc Hne. unfold WriteIicRegs.
  rewrite Z.gtb_ltb.
  set (buf' := buffer_after_write xCount pbBuf).
  assert (E0 : (if 2 <? xCount then match pbBuf with [] => crash BufferOverrun | b0 :: rest => ret (Z.lor b0 0x80 :: rest) end else ret pbBuf) w = Normal buf' w).
  { unfold buf', buffer_after_write. destruct (Z.ltb_spec 2 xCount); [|reflexivity].
    destruct pbBuf; [now destruct Hne|reflexivity]. }
  rewrite (bind_Normal _ _ _ _ _ E0).
  set (code := bind (XIic_Send addr buf' xCount XIIC_STOP) _).
  destruct (code w) as [a w1| |] eqn:Ec.
  2,3: (unfold code, bind, XIic_Send, when in Ec; destruct (negb _) in Ec; discriminate).
  assert (Hl : iic_log w1 = iic_log w ++ [IicSend addr (firstn (Z.to_nat xCount) buf') XIIC_STOP] /\ can_report w1).
  { unfold code, bind, XIic_Send, when in Ec. destruct (negb _) in Ec; inversion Ec; subst w1; cbn; auto. }
  destruct Hl as [Hl Hc1].
  destruct (Z.eq_dec (rc (sys w1)) XST_SUCCESS) as [Hz|Hnz].
  - assert (Em := MAY_DIE_passes code w w1 a Ec Hz).
    unfold bind at 1. unfold L_DIE at 1. rewrite Em.
    eexists. eexists. split; [reflexivity|assumption].
  - destruct (MAY_DIE_dies code w w1 a Ec Hnz Hc1) as (w2 & Em & D).
    unfold bind at 1. unfold L_DIE at 1. rewrite Em.
    eexists. eexists. split; [reflexivity|].
    destruct D as (_ & _ & _ & D & _). congruence.
Qed.

Lemma published_app (w w' : World) (p : Publication) :
  mqtt_log w' = mqtt_log w ++ [p] ->
  published w' = published w ++ [(tiTopic (pubInfo p), pubFmt p, pubArgs p)].
Proof.
  intros E. unfold published. rewrite E, map_app. reflexivity.
Qed.

(** Every identity but the sentinel's has its entry in the table, under
    its own identity and with a name. *)
Lemma topic_table_lookup (t : TOPIC) :
  t <> TOPIC_LAST ->
  exists name,
    GetTopicInfo_loop topic_table t
    = Some (mkTopicInfo t (Some name) (strlen name)).
Proof.
  intros Ht. destruct t; try contradiction;
    match goal with
    | |- exists name, ?l = _ =>
        let v := eval vm_compute in l in
        match v with
        | Some (mkTopicInfo _ (Some ?n) _) =>
            exists n; vm_compute; reflexivity
        end
    end.
Qed.

Lemma GetTopicInfo_known (t : TOPIC) (w : World) :
  pTopicInfo w = topic_table -> t <> TOPIC_LAST ->
  exists name,
    GetTopicInfo t w = Normal (Some (mkTopicInfo t (Some name) (strlen name))) w.
Proof.
  intros Hw Ht. destruct (topic_table_lookup t Ht) as [name E].
  exists name. unfold GetTopicInfo. rewrite Hw, E. reflexivity.
Qed.

(** The scan never stops at the sentinel's identity. *)
Lemma GetTopicInfo_loop_sentinel (pTI : list TopicInfo) :
  GetTopicInfo_loop pTI TOPIC_LAST = None.
Proof.
  induction pTI as [|ti rest IH]; [reflexivity|].
  cbn [GetTopicInfo_loop].
  destruct (TOPIC_eqb TOPIC_LAST (tiTopic ti)) eqn:E; [reflexivity|].
  replace (TOPIC_eqb (tiTopic ti) TOPIC_LAST) with false; [exact IH|].
  unfold TOPIC_eqb in *. now rewrite Z.eqb_sym.
Qed.

Lemma prvPublishTopic_publishes (t : TOPIC) (fmt : string) (args : list Arg)
    (w : World) (h : Z) :
  xMQTTHandle (sys w) = Some h -> pTopicInfo w = topic_table ->
  t <> TOPIC_LAST ->
  exists w', prvPublishTopic t fmt args w = Normal tt w' /\
             same_devices w w' /\
             published w' = published w ++ [(t, fmt, args)].
Proof.
  intros Hh Hw Ht. destruct (topic_table_lookup t Ht) as [name E].
  rewrite <- Hw in E.
  destruct (prvPublishTopic_connected t fmt args w h _ Hh E) as (w' & Ep & D & L).
  exists w'. repeat split; try assumption; try apply D.
  now rewrite (published_app w w' _ L).
Qed.

Lemma MAY_DIE_reports {A} (code : M A) (w w1 : World) (a : A) (h : Z) :
  code w = Normal a w1 -> rc (sys w1) <> XST_SUCCESS ->
  xMQTTHandle (sys w1) = Some h -> pTopicInfo w1 = topic_table ->
  eTopic (sys w1) <> TOPIC_LAST ->
  exists w2, MAY_DIE code w = Goto_L_DIE w2 /\ same_devices w1 w2 /\
    published w2 = published w1 ++
      [(eTopic (sys w1), pcErr (sys w1), [ArgInt (rc (sys w1))])].
Proof.
  intros E Hrc Hh Hw Ht. unfold MAY_DIE.
  rewrite (bind_Normal _ _ _ _ _ E). unfold bind at 1, get_sys.
  replace (rc (sys w1) =? XST_SUCCESS) with false
    by (symmetry; now apply Z.eqb_neq).
  cbv [negb].
  destruct (prvPublishTopic_publishes (eTopic (sys w1)) (pcErr (sys w1))
              [ArgInt (rc (sys w1))] w1 h Hh Hw Ht) as (w2 & Ep & D & P).
  exists w2. rewrite (bind_Normal _ _ _ _ _ Ep). auto.
Qed.


Lemma mask_bit_test (r k : Z) :
  0 <= k -> negb (Z.land r (2 ^ k) =? 0) = Z.testbit r k.
Proof.
  intros Hk. rewrite land_pow2 by lia.
  assert (0 < 2 ^ k) by (apply Z.pow_pos_nonneg; lia).
  destruct (Z.testbit r k); [|reflexivity].
  replace (2 ^ k =? 0) with false by (symmetry; apply Z.eqb_neq; lia).
  reflexivity.
Qed.

(** What [SamplePLTempSensor] publishes after a transfer that succeeded,
    by the bits of the receive array. *)
Lemma SamplePLTempSensor_report_publishes (r0 r1 r2 r3 : Z) (w : World)
    (h : Z) :
  rc (sys w) = XST_SUCCESS ->
  xMQTTHandle (sys w) = Some h -> pTopicInfo w = topic_table ->
  exists w',
    SamplePLTempSensor_report [r0; r1; r2; r3] w = Normal tt w' /\
    same_devices w w' /\
    published w' = published w ++
      (if Z.testbit r3 0 then [(TOPIC_THERMOCOUPLE_STATUS, "Open Circuit", [])]
       else if Z.testbit r3 1 then
         [(TOPIC_THERMOCOUPLE_STATUS, "Short to GND", [])]
       else if Z.testbit r3 2 then
         [(TOPIC_THERMOCOUPLE_STATUS, "Short to VCC", [])]
       else if Z.testbit r1 0 then [(TOPIC_THERMOCOUPLE_STATUS, "Fault", [])]
       else
         [(TOPIC_THERMOCOUPLE_BOARD_TEMPERATURE, "%.1f C",
           [ArgFloat (F_div (F_of_int (internal_sqTemporaryValue [r0; r1; r2; r3]))
                            (F_lit (16 # 1)))]);
          (TOPIC_THERMOCOUPLE_TEMPERATURE, "%.1f C",
           [ArgFloat (F_div (F_of_int (thermocouple_sqTemporaryValue [r0; r1; r2; r3]))
                            (F_lit (4 # 1)))])]).
Proof.
  intros Hrc Hh Hw.
  unfold SamplePLTempSensor_report, bind at 1, get_sys.
  rewrite Hrc. cbn [nth XST_SUCCESS Z.eqb negb].
  rewrite (mask_bit_test r3 0 (Z.le_refl 0) : negb (Z.land r3 0x1 =? 0) = _).
  rewrite (mask_bit_test r3 1 Z.le_0_1 : negb (Z.land r3 0x2 =? 0) = _).
  rewrite (mask_bit_test r3 2 Z.le_0_2 : negb (Z.land r3 0x4 =? 0) = _).
  rewrite (mask_bit_test r1 0 (Z.le_refl 0) : negb (Z.land r1 0x01 =? 0) = _).
  destruct (Z.testbit r3 0);
    [apply prvPublishTopic_publishes with (h := h); (assumption || discriminate)|].
  destruct (Z.testbit r3 1);
    [apply prvPublishTopic_publishes with (h := h); (assumption || discriminate)|].
  destruct (Z.testbit r3 2);
    [apply prvPublishTopic_publishes with (h := h); (assumption || discriminate)|].
  destruct (Z.testbit r1 0);
    [apply prvPublishTopic_publishes with (h := h); (assumption || discriminate)|].
  match goal with
  | |- context [bind (prvPublishTopic ?t ?f ?a) _] =>
      destruct (prvPublishTopic_publishes t f a w h Hh Hw) as (w1 & E1 & D1 & P1);
        [discriminate|]
  end.
  rewrite (bind_Normal _ _ _ _ _ E1).
  assert (Hh1 : xMQTTHandle (sys w1) = Some h)
    by (destruct D1 as (D1 & _); now rewrite D1).
  assert (Hw1 : pTopicInfo w1 = topic_table)
    by (destruct D1 as (_ & D1 & _); now rewrite D1).
  match goal with
  | |- context [prvPublishTopic ?t ?f ?a w1] =>
      destruct (prvPublishTopic_publishes t f a w1 h Hh1 Hw1) as (w2 & E2 & D2 & P2);
        [discriminate|]
  end.
  exists w2. split; [exact E2|]. split.
  - unfold same_devices in *. intuition congruence.
  - rewrite P2, P1, <- app_assoc. reflexivity.
Qed.

Lemma byte_top_bit (r : Z) : (Z.land r 0x80 =? 0x80) = Z.testbit r 7.
Proof.
  change 0x80 with (2 ^ 7). rewrite land_pow2 by lia.
  now destruct (Z.testbit r 7).
Qed.

(** The two thermocouple fields as the code builds them. *)
Lemma internal_sqTemporaryValue_built (r0 r1 r2 r3 : Z) :
  byte_range r2 -> byte_range r3 ->
  internal_sqTemporaryValue [r0; r1; r2; r3]
  = if Z.testbit r2 7
    then s32_or_mask (Z.lor (Z.shiftl r2 4) (Z.shiftr r3 4)) 0xFFFFF800
    else Z.lor (Z.shiftl r2 4) (Z.shiftr r3 4).
Proof.
  unfold byte_range. intros H2 H3.
  unfold internal_sqTemporaryValue. cbn [nth].
  rewrite (to_s32_small r2), (to_s32_small r3) by lia.
  rewrite (to_s32_small (Z.shiftl r2 4)) by (rewrite Z.shiftl_mul_pow2; lia).
  rewrite byte_top_bit. reflexivity.
Qed.

Lemma thermocouple_sqTemporaryValue_built (r0 r1 r2 r3 : Z) :
  byte_range r0 -> byte_range r1 ->
  thermocouple_sqTemporaryValue [r0; r1; r2; r3]
  = if Z.testbit r0 7
    then s32_or_mask (Z.lor (Z.shiftl r0 6) (Z.shiftr r1 2)) 0xFFFFE000
    else Z.lor (Z.shiftl r0 6) (Z.shiftr r1 2).
Proof.
  unfold byte_range. intros H0 H1.
  unfold thermocouple_sqTemporaryValue. cbn [nth].
  rewrite (to_s32_small r0), (to_s32_small r1) by lia.
  rewrite (to_s32_small (Z.shiftl r0 6)) by (rewrite Z.shiftl_mul_pow2; lia).
  rewrite byte_top_bit. reflexivity.
Qed.

(** A one-byte register read on a bus that answers both phases in full
    returns success and the byte, whatever the register. *)
Lemma ReadIicReg_delivers (addr reg b : Z) (buf : list Z)
    (rest : list IicReply) (w : World) :
  rc (sys w) = XST_SUCCESS ->
  iic_in w = reg_read b ++ rest ->
  exists w1,
    ReadIicReg addr reg buf w = Normal (XST_SUCCESS, [b]) w1 /\
    sys w1 = sys w /\ pTopicInfo w1 = pTopicInfo w /\
    mqtt_log w1 = mqtt_log w /\
    iic_in w1 = rest /\
    iic_log w1 = iic_log w ++
      [IicSend addr [reg] XIIC_REPEATED_START; IicRecv addr 1 XIIC_STOP].
Proof.
  intros Hrc Hin.
  destruct w as [s tt0 ii il ib mi ml si sl gl hz nw].
  cbn in Hrc, Hin. subst ii.
  unfold ReadIicReg, ReadIicRegs, L_DIE, MAY_DIE, bind, XIic_Send, XIic_Recv,
    when, get_sys, modify_sys, ret.
  cbn. rewrite Hrc. cbn. rewrite Hrc. cbn. rewrite Hrc.
  eexists. split; [reflexivity|]. cbn.
  rewrite <- app_assoc. repeat split; reflexivity.
Qed.

(** An identity byte other than 0xBD and other
    than 0 ends [StartBarometer] after the identity read: the mismatch goes
    out on the barometer's status topic with the byte read as its argument,
    the byte is the result code, and no other bus transfer takes place. *)
Lemma StartBarometer_identity_mismatch (b hdl : Z) (rest : list IicReply)
    (w : World) :
  b <> 0xBD -> b <> 0 ->
  rc (sys w) = XST_SUCCESS ->
  xMQTTHandle (sys w) = Some hdl -> pTopicInfo w = topic_table ->
  iic_in w = reg_read b ++ rest ->
  exists w',
    StartBarometer w = Normal tt w' /\
    published w' = published w ++
      [(TOPIC_BAROMETER_STATUS, "BAROMETER_WHO_AM_I = %08x != BD", [ArgInt b])] /\
    rc (sys w') = b /\
    iic_in w' = rest /\
    iic_log w' = iic_log w ++
      [IicSend BAROMETER_SLAVE_ADDRESS [BAROMETER_REG_WHO_AM_I]
         XIIC_REPEATED_START;
       IicRecv BAROMETER_SLAVE_ADDRESS 1 XIIC_STOP].
Proof.
  intros Hb Hb0 Hrc Hc Ht Hin.
  unfold StartBarometer, L_DIE.
  rewrite (bind_Normal (MS_TO_TICKS 1) _ w w _ eq_refl).
  rewrite (bind_Normal (modify_sys _) _ w _ tt eq_refl).
  set (w0 := with_sys (set_eTopic TOPIC_BAROMETER_STATUS) w).
  destruct (ReadIicReg_delivers BAROMETER_SLAVE_ADDRESS BAROMETER_REG_WHO_AM_I
              b [uninitialised] rest w0 Hrc Hin)
    as (w1 & E1 & S1 & T1 & M1 & I1 & L1).
  set (w2 := with_sys (set_pcErr "ReadIicReg(WHO_AM_I) -> %08x") w1).
  match goal with
  | |- context [bind (MAY_DIE ?c) _] =>
      assert (Ec : c w0 = Normal b w2)
        by (rewrite (bind_Normal _ _ _ _ _ E1); reflexivity);
      assert (Em : MAY_DIE c w0 = Normal b w2)
        by (apply (MAY_DIE_passes c w0 w2 b Ec); cbn; rewrite S1; exact Hrc)
  end.
  rewrite (bind_Normal _ _ _ _ _ Em).
  set (w3 := with_sys (set_pcErr "BAROMETER_WHO_AM_I = %08x != BD")
               (with_sys (set_rc b) w2)).
  match goal with
  | |- context [bind (MAY_DIE ?c) _] =>
      assert (Ec2 : c w2 = Normal tt w3)
  end.
  { replace (0xBD =? b) with false by (symmetry; apply Z.eqb_neq; congruence).
    reflexivity. }
  match goal with
  | |- context [bind (MAY_DIE ?c) _] =>
      destruct (MAY_DIE_reports c w2 w3 tt hdl Ec2) as (w4 & E4 & D4 & P4)
  end.
  { exact Hb0. }
  { cbn. rewrite S1. exact Hc. }
  { cbn. rewrite T1. exact Ht. }
  { cbn. rewrite S1. cbn. discriminate. }
  rewrite (bind_Goto _ _ _ _ E4).
  exists w4. split; [reflexivity|].
  destruct D4 as (D4s & _ & D4i & D4l & _).
  rewrite P4, D4s, D4i, D4l. cbn.
  unfold published. cbn. rewrite M1, S1, L1.
  repeat split; try reflexivity; assumption.
Qed.

(** The same for the hygrometer and 0xBC. *)
Lemma StartHygrometer_identity_mismatch (b hdl : Z) (rest : list IicReply)
    (w : World) :
  b <> 0xBC -> b <> 0 ->
  rc (sys w) = XST_SUCCESS ->
  xMQTTHandle (sys w) = Some hdl -> pTopicInfo w = topic_table ->
  iic_in w = reg_read b ++ rest ->
  exists w',
    StartHygrometer w = Normal tt w' /\
    published w' = published w ++
      [(TOPIC_HYGROMETER_STATUS, "HYGROMETER_WHO_AM_I = %08x != BC", [ArgInt b])] /\
    rc (sys w') = b /\
    iic_in w' = rest /\
    iic_log w' = iic_log w ++
      [IicSend HYGROMETER_SLAVE_ADDRESS [HYGROMETER_REG_WHO_AM_I]
         XIIC_REPEATED_START;
       IicRecv HYGROMETER_SLAVE_ADDRESS 1 XIIC_STOP].
Proof.
  intros Hb Hb0 Hrc Hc Ht Hin.
  unfold StartHygrometer, L_DIE.
  rewrite (bind_Normal (MS_TO_TICKS 1) _ w w _ eq_refl).
  rewrite (bind_Normal (modify_sys _) _ w _ tt eq_refl).
  set (w0 := with_sys (set_eTopic TOPIC_HYGROMETER_STATUS) w).
  destruct (ReadIicReg_delivers HYGROMETER_SLAVE_ADDRESS HYGROMETER_REG_WHO_AM_I
              b [uninitialised] rest w0 Hrc Hin)
    as (w1 & E1 & S1 & T1 & M1 & I1 & L1).
  set (w2 := with_sys (set_pcErr "ReadIicReg(HYGROMETER_WHO_AM_I) -> %08x") w1).
  match goal with
  | |- context [bind (MAY_DIE ?c) _] =>
      assert (Ec : c w0 = Normal b w2)
        by (rewrite (bind_Normal _ _ _ _ _ E1); reflexivity);
      assert (Em : MAY_DIE c w0 = Normal b w2)
        by (apply (MAY_DIE_passes c w0 w2 b Ec); cbn; rewrite S1; exact Hrc)
  end.
  rewrite (bind_Normal _ _ _ _ _ Em).
  set (w3 := with_sys (set_pcErr "HYGROMETER_WHO_AM_I = %08x != BC")
               (with_sys (set_rc b) w2)).
  match goal with
  | |- context [bind (MAY_DIE ?c) _] =>
      assert (Ec2 : c w2 = Normal tt w3)
  end.
  { replace (0xBC =? b) with false by (symmetry; apply Z.eqb_neq; congruence).
    reflexivity. }
  match goal with
  | |- context [bind (MAY_DIE ?c) _] =>
      destruct (MAY_DIE_reports c w2 w3 tt hdl Ec2) as (w4 & E4 & D4 & P4)
  end.
  { exact Hb0. }
  { cbn. rewrite S1. exact Hc. }
  { cbn. rewrite T1. exact Ht. }
  { cbn. rewrite S1. cbn. discriminate. }
  rewrite (bind_Goto _ _ _ _ E4).
  exists w4. split; [reflexivity|].
  destruct D4 as (D4s & _ & D4i & D4l & _).
  rewrite P4, D4s, D4i, D4l. cbn.
  unfold published. cbn. rewrite M1, S1, L1.
  repeat split; try reflexivity; assumption.
Qed.

(** The identity bytes of the design document's scenario: 0xBD lets the
    start go on to the software reset and through to the end, 0xBE ends it
    after the identity read with 0xBE in the report. *)
Example barometer_identity_scenario :
  (let r := StartBarometer
              (world_of (reg_read 0xBD ++ [sent 2] ++ reg_read 0x00
                         ++ [sent 2] ++ reg_read 0x00 ++ [sent 2]) []) in
   published (world_after r)
     = [(TOPIC_BAROMETER_STATUS, "Barometer started", [])] /\
   nth 2 (iic_log (world_after r)) (IicRecv 0 0 XIIC_STOP)
     = IicSend BAROMETER_SLAVE_ADDRESS
         [BAROMETER_REG_CTRL_REG2; BAROMETER_BFLD_SWRESET] XIIC_STOP) /\
  (let r := StartBarometer (world_of (reg_read 0xBE ++ [sent 2]) []) in
   published (world_after r)
     = [(TOPIC_BAROMETER_STATUS, "BAROMETER_WHO_AM_I = %08x != BD",
         [ArgInt 0xBE])] /\
   iic_in (world_after r) = [sent 2]).
Proof.
  split; vm_compute; repeat split; reflexivity.
Qed.

(** The bound of the software-reset poll: a bit that
    never clears is polled 100 times, not 101, before the time-out goes
    out; a bit that clears in the 99th poll lets the start go on. *)
Example swreset_poll_bound :
  (let r := StartBarometer
              (world_of (reg_read 0xBD ++ [sent 2] ++ polls 100 0x04
                         ++ reg_read 0x00) []) in
   published (world_after r)
     = [(TOPIC_BAROMETER_STATUS, "Barometer swreset timeout",
         [ArgInt XST_FAILURE])] /\
   iic_in (world_after r) = reg_read 0x00) /\
  (let r := StartBarometer
              (world_of (reg_read 0xBD ++ [sent 2] ++ polls 98 0x04
                         ++ reg_read 0x00 ++ [sent 2] ++ reg_read 0x00
                         ++ [sent 2]) []) in
   published (world_after r)
     = [(TOPIC_BAROMETER_STATUS, "Barometer started", [])] /\
   iic_in (world_after r) = []).
Proof.
  split; vm_compute; repeat split; reflexivity.
Qed.

(** However long the samples take, the
    wake time after [n] periods is the first one plus [n] periods. *)
Lemma sampling_rounds_wake_time (n fuel : nat) (p t0 t : Z) (w w' : World) :
  sampling_rounds n fuel p t0 w = Normal t w' ->
  t = t0 + Z.of_nat n * p.
Proof.
  revert t0 w. induction n as [|n IH]; intros t0 w H.
  - cbn in H. inversion H. lia.
  - cbn [sampling_rounds] in H. unfold bind at 1 in H.
    unfold vTaskDelayUntil at 1 in H.
    unfold bind at 1 in H.
    destruct (SampleBarometer _) as [? w1| |]; try discriminate.
    unfold bind at 1 in H.
    destruct (SamplePLTempSensor fuel w1) as [? w2| |]; try discriminate.
    unfold bind at 1 in H.
    destruct (SampleHygrometer w2) as [? w3| |]; try discriminate.
    apply IH in H. lia.
Qed.

(* ================================================================== *)
(** * What every operation leaves alone *)
(* ================================================================== *)

Lemma steady_refl (w : World) : steady w w.
Proof. split; reflexivity. Qed.

Lemma steady_trans (w1 w2 w3 : World) :
  steady w1 w2 -> steady w2 w3 -> steady w1 w3.
Proof. unfold steady. intros [A B] [C D]. split; congruence. Qed.

Lemma keeps_ret {A} (a : A) : keeps (ret a).
Proof. intros w. apply steady_refl. Qed.

Lemma keeps_bind {A B} (c : M A) (k : A -> M B) :
  keeps c -> (forall a, keeps (k a)) -> keeps (bind c k).
Proof.
  intros Hc Hk w. unfold bind. specialize (Hc w).
  destruct (c w) as [a w1|w1|f w1]; cbn in *; try exact Hc.
  apply (steady_trans w w1 _ Hc). apply Hk.
Qed.

Lemma keeps_when (b : bool) (c : M unit) : keeps c -> keeps (when b c).
Proof. intros H. destruct b; [exact H|apply keeps_ret]. Qed.

Lemma keeps_L_DIE (c : M unit) : keeps c -> keeps (L_DIE c).
Proof.
  intros H w. unfold L_DIE. specialize (H w).
  destruct (c w); exact H.
Qed.

Lemma keeps_cases {A} (b : bool) (c1 c2 : M A) :
  keeps c1 -> keeps c2 -> keeps (if b then c1 else c2).
Proof. destruct b; auto. Qed.

(** A step that writes the world through one of the setters that leave
    the handle and the table alone. *)
Lemma keeps_step {A} (c : M A) :
  (forall w, exists a w', c w = Normal a w' /\ steady w w') -> keeps c.
Proof.
  intros H w. destruct (H w) as (a & w' & E & S). now rewrite E.
Qed.

Ltac keeps_by_computation :=
  apply keeps_step; intros ?w; eexists; eexists; split;
  [reflexivity|split; reflexivity].

Lemma keeps_get_sys : keeps get_sys.
Proof. keeps_by_computation. Qed.

Lemma keeps_set_rc (v : Z) : keeps (modify_sys (set_rc v)).
Proof. keeps_by_computation. Qed.

Lemma keeps_set_pcErr (v : string) : keeps (modify_sys (set_pcErr v)).
Proof. keeps_by_computation. Qed.

Lemma keeps_set_eTopic (v : TOPIC) : keeps (modify_sys (set_eTopic v)).
Proof. keeps_by_computation. Qed.

Lemma keeps_set_calibration (v : list Z) :
  keeps (modify_sys (set_calibration v)).
Proof. keeps_by_computation. Qed.

Lemma keeps_MS_TO_TICKS (xMs : Z) : keeps (MS_TO_TICKS xMs).
Proof. keeps_by_computation. Qed.

Lemma keeps_vTaskDelay (xTicks : Z) : keeps (vTaskDelay xTicks).
Proof. keeps_by_computation. Qed.

Lemma keeps_XGpioPs_WritePin (pin level : Z) :
  keeps (XGpioPs_WritePin pin level).
Proof. keeps_by_computation. Qed.

Lemma keeps_XIic_Send (a : Z) (b : list Z) (n : Z) (o : IicOption) :
  keeps (XIic_Send a b n o).
Proof. keeps_by_computation. Qed.

Lemma keeps_XIic_Recv (a n : Z) (o : IicOption) : keeps (XIic_Recv a n o).
Proof. keeps_by_computation. Qed.

Lemma keeps_XSpi_WriteReg (r : SpiReg) (v : Z) : keeps (XSpi_WriteReg r v).
Proof. keeps_by_computation. Qed.

Lemma keeps_XSpi_ReadReg (r : SpiReg) : keeps (XSpi_ReadReg r).
Proof. keeps_by_computation. Qed.

Lemma keeps_MQTT_AGENT_Publish (p : Publication) :
  keeps (MQTT_AGENT_Publish p).
Proof. keeps_by_computation. Qed.

Lemma keeps_crash {A} (f : Fault) : keeps (@crash A f).
Proof. intros w. apply steady_refl. Qed.

Lemma keeps_goto_L_DIE {A} : keeps (@goto_L_DIE A).
Proof. intros w. apply steady_refl. Qed.

Lemma keeps_configASSERT (x : Z) : keeps (configASSERT x).
Proof.
  unfold configASSERT. apply keeps_cases; [apply keeps_crash|apply keeps_ret].
Qed.

Lemma keeps_GetTopicInfo (t : TOPIC) : keeps (GetTopicInfo t).
Proof.
  intros w. unfold GetTopicInfo.
  destruct (GetTopicInfo_loop (pTopicInfo w) t); apply steady_refl.
Qed.

Create HintDb keeps.
#[export] Hint Resolve keeps_ret keeps_when keeps_L_DIE keeps_cases
  keeps_get_sys keeps_set_rc keeps_set_pcErr keeps_set_eTopic
  keeps_set_calibration keeps_MS_TO_TICKS keeps_vTaskDelay
  keeps_XGpioPs_WritePin keeps_XIic_Send keeps_XIic_Recv keeps_XSpi_WriteReg
  keeps_XSpi_ReadReg keeps_MQTT_AGENT_Publish keeps_crash keeps_goto_L_DIE
  keeps_configASSERT keeps_GetTopicInfo : keeps.

(** Takes a computation apart along its binds and closes the leaves with
    the lemmas of the database. *)
Ltac keeps_all :=
  repeat first
    [ solve [auto with keeps]
    | apply keeps_bind; [|intros ?]
    | apply keeps_when
    | apply keeps_L_DIE
    | apply keeps_cases
    | match goal with |- keeps (match ?x with _ => _ end) => destruct x end ].

Lemma keeps_BlinkLed_loop (n : nat) (t : Z) : keeps (BlinkLed_loop n t).
Proof. induction n; cbn [BlinkLed_loop]; keeps_all. Qed.

Lemma keeps_BlinkLed (xCount xFinalOn : Z) : keeps (BlinkLed xCount xFinalOn).
Proof.
  unfold BlinkLed. pose proof keeps_BlinkLed_loop. keeps_all.
Qed.

Lemma keeps_prvPublishTopic (t : TOPIC) (fmt : string) (args : list Arg) :
  keeps (prvPublishTopic t fmt args).
Proof.
  unfold prvPublishTopic. pose proof keeps_BlinkLed. keeps_all.
Qed.
#[export] Hint Resolve keeps_prvPublishTopic : keeps.







Lemma keeps_XSpi_fill_tx (n : nat) (tx : list Z) : keeps (XSpi_fill_tx n tx).
Proof.
  revert tx. induction n; intros tx; cbn [XSpi_fill_tx]; keeps_all.
Qed.

Lemma keeps_XSpi_wait_tx_empty (fuel : nat) : keeps (XSpi_wait_tx_empty fuel).
Proof. induction fuel; cbn [XSpi_wait_tx_empty]; keeps_all. Qed.

Lemma keeps_XSpi_wait_occupancy (fuel : nat) (n : Z) :
  keeps (XSpi_wait_occupancy fuel n).
Proof. induction fuel; cbn [XSpi_wait_occupancy]; keeps_all. Qed.

Lemma keeps_XSpi_drain_rx (fuel : nat) (rx : list Z) (n : nat) :
  keeps (XSpi_drain_rx fuel rx n).
Proof.
  revert rx n. induction fuel; intros rx n; cbn [XSpi_drain_rx]; keeps_all.
Qed.

Lemma keeps_XSpi_LowLevelExecute (fuel : nat) (ch n : Z) (tx rx : list Z) :
  keeps (XSpi_LowLevelExecute fuel ch n tx rx).
Proof.
  unfold XSpi_LowLevelExecute.
  pose proof keeps_XSpi_fill_tx. pose proof keeps_XSpi_wait_tx_empty.
  pose proof keeps_XSpi_wait_occupancy. pose proof keeps_XSpi_drain_rx.
  keeps_all.
Qed.

Lemma keeps_SamplePLTempSensor_transfer (fuel : nat) :
  keeps (SamplePLTempSensor_transfer fuel).
Proof.
  unfold SamplePLTempSensor_transfer. pose proof keeps_XSpi_LowLevelExecute.
  keeps_all.
Qed.

Lemma kept {A} (c : M A) (w w' : World) (a : A) :
  keeps c -> c w = Normal a w' -> steady w w'.
Proof. intros H E. specialize (H w). now rewrite E in H. Qed.

(* ================================================================== *)
(** * The claims *)
(* ================================================================== *)

(** C1 (the code departs from the claim).  A boot bit that stays set
    through every poll is not treated as an error.  The barometer's 100
    polls, and the hygrometer's 1000, are used up, the result code stays at
    success, no boot time-out goes out, and the start runs on through the
    calibration read and the power-up write to the "started" report: the
    whole script is consumed and the only publication is that report. *)
Theorem boot_timeout_is_not_reported :
  (let r := StartBarometer (world_of barometer_boot_stuck []) in
   returned r = true /\
   rc (sys (world_after r)) = XST_SUCCESS /\
   published (world_after r)
     = [(TOPIC_BAROMETER_STATUS, "Barometer started", [])] /\
   iic_in (world_after r) = [] /\
   last (iic_log (world_after r)) (IicRecv 0 0 XIIC_STOP)
     = IicSend BAROMETER_SLAVE_ADDRESS
         [BAROMETER_REG_CTRL_REG1; BAROMETER_BFLD_PD] XIIC_STOP) /\
  (let r := StartHygrometer (world_of hygrometer_boot_stuck []) in
   returned r = true /\
   rc (sys (world_after r)) = XST_SUCCESS /\
   published (world_after r)
     = [(TOPIC_HYGROMETER_STATUS, "Hygrometer started", [])] /\
   iic_in (world_after r) = [] /\
   pbHygrometerCalibration (sys (world_after r)) = hygrometer_calibration /\
   last (iic_log (world_after r)) (IicRecv 0 0 XIIC_STOP)
     = IicSend HYGROMETER_SLAVE_ADDRESS
         [HYGROMETER_REG_CTRL_REG1; HYGROMETER_BFLD_PD] XIIC_STOP).
Proof.
  split; vm_compute; repeat split; reflexivity.
Qed.

(** C2 (the code departs from the claim).  A status bit that clears in the
    last permitted round is reported as a time-out.  The barometer's
    software-reset bit reads as cleared in the 100th poll: the start
    publishes the swreset time-out, ends with the failure code, and leaves
    the replies for boot and power-up unused.  The one-shot bit reads as
    cleared in the 50th poll of a sample: the sample publishes the one-shot
    time-out and no measurement, and never reads the block.  The two
    data-ready bits read as set in the 50th read of the block: the sample
    has the block in its buffer, publishes the data-ready time-out and no
    measurement. *)
Theorem bit_cleared_in_the_last_round_times_out :
  (let r := StartBarometer (world_of barometer_swreset_last_round []) in
   returned r = true /\
   iic_buf (world_after r) = [0x00] /\
   published (world_after r)
     = [(TOPIC_BAROMETER_STATUS, "Barometer swreset timeout",
         [ArgInt XST_FAILURE])] /\
   rc (sys (world_after r)) = XST_FAILURE /\
   iic_in (world_after r) = [sent 2] ++ reg_read 0x00 ++ [sent 2]) /\
  (let r := SampleBarometer (world_of barometer_one_shot_last_round []) in
   returned r = true /\
   iic_buf (world_after r) = [0x00] /\
   published (world_after r)
     = [(TOPIC_BAROMETER_STATUS,
         "Timed out waiting for BAROMETER_BFLD_ONE_SHOT",
         [ArgInt XST_FAILURE])] /\
   rc (sys (world_after r)) = XST_FAILURE /\
   iic_in (world_after r)
     = block_read [0x03; 0x00; 0xF0; 0xFF; 0x20; 0xFE]) /\
  (let r := SampleBarometer (world_of barometer_data_ready_last_round []) in
   returned r = true /\
   iic_buf (world_after r) = [0x03; 0x00; 0xF0; 0xFF; 0x20; 0xFE] /\
   published (world_after r)
     = [(TOPIC_BAROMETER_STATUS, "Timed out waiting for P_DA and T_DA",
         [ArgInt XST_FAILURE])] /\
   rc (sys (world_after r)) = XST_FAILURE /\
   iic_in (world_after r) = []).
Proof.
  repeat apply conj; vm_compute; reflexivity.
Qed.

(** C3 (the code departs from the claim).  The identity byte 0 differs
    from 0xBD and from 0xBC, and neither start stops at it: the byte read
    becomes the result code, and 0 is the code for success.  Both starts go
    on through reset, boot and power-up and report "started". *)
Theorem identity_zero_passes_the_check :
  (let r := StartBarometer (world_of barometer_identity_zero []) in
   returned r = true /\
   rc (sys (world_after r)) = XST_SUCCESS /\
   published (world_after r)
     = [(TOPIC_BAROMETER_STATUS, "Barometer started", [])] /\
   iic_in (world_after r) = [] /\
   nth 2 (iic_log (world_after r)) (IicRecv 0 0 XIIC_STOP)
     = IicSend BAROMETER_SLAVE_ADDRESS
         [BAROMETER_REG_CTRL_REG2; BAROMETER_BFLD_SWRESET] XIIC_STOP) /\
  (let r := StartHygrometer (world_of hygrometer_identity_zero []) in
   returned r = true /\
   rc (sys (world_after r)) = XST_SUCCESS /\
   published (world_after r)
     = [(TOPIC_HYGROMETER_STATUS, "Hygrometer started", [])] /\
   iic_in (world_after r) = [] /\
   nth 2 (iic_log (world_after r)) (IicRecv 0 0 XIIC_STOP)
     = IicSend HYGROMETER_SLAVE_ADDRESS
         [HYGROMETER_REG_CTRL_REG2; HYGROMETER_BFLD_BOOT] XIIC_STOP).
Proof.
  split; vm_compute; repeat split; reflexivity.
Qed.

(** C4 (the code departs from the claim).  An identity that the table does
    not hold does not stop the program at the assertion: the condition of
    [configASSERT( pdTRUE )] is true, so [GetTopicInfo] returns the null
    pointer for the sentinel's identity in every world, and
    [prvPublishTopic] goes on to read the name through it. *)
Theorem unknown_identity_passes_the_assertion :
  (forall w : World, GetTopicInfo TOPIC_LAST w = Normal None w) /\
  prvPublishTopic TOPIC_LAST "System started" [] (world_of [] [])
  = Crash NullDereference (world_of [] []).
Proof.
  split.
  - intros w. unfold GetTopicInfo. rewrite GetTopicInfo_loop_sentinel.
    reflexivity.
  - vm_compute. reflexivity.
Qed.



(** C6.  After a 4-byte transfer that succeeded, [SamplePLTempSensor]
    looks at the open-circuit bit (byte 3 bit 0), then the short-to-ground
    bit (byte 3 bit 1), then the short-to-supply bit (byte 3 bit 2), then
    the fault bit (byte 1 bit 0).  The first one set decides the single
    text that goes out on the status topic, and no temperature is
    published; the two temperatures are published when none is set, and
    only then. *)
Theorem thermocouple_fault_bits_in_order (fuel : nat) (w w1 : World)
    (hdl r0 r1 r2 r3 : Z) :
  SamplePLTempSensor_transfer fuel w = Normal [r0; r1; r2; r3] w1 ->
  rc (sys w1) = XST_SUCCESS ->
  xMQTTHandle (sys w) = Some hdl -> pTopicInfo w = topic_table ->
  exists w2,
    SamplePLTempSensor fuel w = Normal tt w2 /\
    published w2 = published w1 ++
      (if Z.testbit r3 0 then
         [(TOPIC_THERMOCOUPLE_STATUS, "Open Circuit", [])]
       else if Z.testbit r3 1 then
         [(TOPIC_THERMOCOUPLE_STATUS, "Short to GND", [])]
       else if Z.testbit r3 2 then
         [(TOPIC_THERMOCOUPLE_STATUS, "Short to VCC", [])]
       else if Z.testbit r1 0 then
         [(TOPIC_THERMOCOUPLE_STATUS, "Fault", [])]
       else
         [(TOPIC_THERMOCOUPLE_BOARD_TEMPERATURE, "%.1f C",
           [ArgFloat
              (F_div (F_of_int (internal_sqTemporaryValue [r0; r1; r2; r3]))
                     (F_lit (16 # 1)))]);
          (TOPIC_THERMOCOUPLE_TEMPERATURE, "%.1f C",
           [ArgFloat
              (F_div (F_of_int (thermocouple_sqTemporaryValue [r0; r1; r2; r3]))
                     (F_lit (4 # 1)))])]).
Proof.
  intros Et Hrc Hc0 Ht0.
  destruct (kept _ w w1 _ (keeps_SamplePLTempSensor_transfer fuel) Et)
    as [Kh Kt].
  assert (Hc : xMQTTHandle (sys w1) = Some hdl) by congruence.
  assert (Ht : pTopicInfo w1 = topic_table) by congruence.
  unfold SamplePLTempSensor. rewrite (bind_Normal _ _ _ _ _ Et).
  destruct (SamplePLTempSensor_report_publishes r0 r1 r2 r3 w1 hdl Hrc Hc Ht)
    as (w2 & E & _ & P).
  exists w2. split; assumption.
Qed.

(** The theorem at the receive bytes 01 91 19 07, which have all four
    fault bits set: the open circuit is what goes out. *)
Lemma thermocouple_fault_bits_in_order_witness :
  exists w2,
    SamplePLTempSensor 5 (world_of [] (spi_transfer 0x01 0x91 0x19 0x07))
    = Normal tt w2 /\
    published w2 = [(TOPIC_THERMOCOUPLE_STATUS, "Open Circuit", [])].
Proof.
  pose (w := world_of [] (spi_transfer 0x01 0x91 0x19 0x07)).
  pose (r := SamplePLTempSensor_transfer 5 w).
  assert (Et : r = Normal [0x01; 0x91; 0x19; 0x07] (world_after r))
    by (vm_compute; reflexivity).
  assert (Hrc : rc (sys (world_after r)) = XST_SUCCESS)
    by (vm_compute; reflexivity).
  assert (Hc : xMQTTHandle (sys w) = Some 1) by reflexivity.
  assert (Ht : pTopicInfo w = topic_table) by reflexivity.
  destruct (thermocouple_fault_bits_in_order 5 w (world_after r) 1
              0x01 0x91 0x19 0x07 Et Hrc Hc Ht) as (w2 & E & P).
  exists w2. split; [exact E|]. rewrite P. vm_compute. reflexivity.
Defined.

(** C7, the claim as worded, fails.  The thermocouple field has two
    fractional bits (its denominator is 4), and the code shifts its most
    significant byte left by 6: for the receive bytes 01 00 00 00 the code
    builds 64, the wording 4. *)
Lemma thermocouple_shift_is_not_the_fractional_width :
  thermocouple_sqTemporaryValue [0x01; 0x00; 0x00; 0x00] = 64 /\
  spec_thermocouple [0x01; 0x00; 0x00; 0x00] = 4 /\
  thermocouple_sqTemporaryValue [0x01; 0x00; 0x00; 0x00]
  <> spec_thermocouple [0x01; 0x00; 0x00; 0x00].
Proof.
  repeat split; try (vm_compute; reflexivity).
  vm_compute. discriminate.
Qed.

(** C7, amended.  Each thermocouple field is the most significant byte
    shifted left by the number of field bits that the next byte holds (4
    for the internal junction, 6 for the thermocouple), OR the next byte
    shifted right past its other bits (by 4, by 2), OR the mask
    (0xFFFFF800, 0xFFFFE000) exactly when bit 7 of the most significant
    byte is set; that is the 12-bit, respectively 14-bit, pattern read in
    two's complement.  With no fault bit set the two are published divided
    by 16 and by 4.  The bytes 00 00 64 00 give 1600 for the internal
    junction, and 1600/16 is 100. *)
Theorem thermocouple_fields_reconstructed (w : World) (hdl r0 r1 r2 r3 : Z) :
  byte_range r0 -> byte_range r1 -> byte_range r2 -> byte_range r3 ->
  rc (sys w) = XST_SUCCESS ->
  xMQTTHandle (sys w) = Some hdl -> pTopicInfo w = topic_table ->
  Z.testbit r3 0 = false -> Z.testbit r3 1 = false ->
  Z.testbit r3 2 = false -> Z.testbit r1 0 = false ->
  let internal := Z.lor (Z.shiftl r2 4) (Z.shiftr r3 4) in
  let thermocouple := Z.lor (Z.shiftl r0 6) (Z.shiftr r1 2) in
  internal_sqTemporaryValue [r0; r1; r2; r3]
    = (if Z.testbit r2 7 then s32_or_mask internal 0xFFFFF800 else internal) /\
  internal_sqTemporaryValue [r0; r1; r2; r3] = sign_extend 12 internal /\
  thermocouple_sqTemporaryValue [r0; r1; r2; r3]
    = (if Z.testbit r0 7 then s32_or_mask thermocouple 0xFFFFE000
       else thermocouple) /\
  thermocouple_sqTemporaryValue [r0; r1; r2; r3]
    = sign_extend 14 thermocouple /\
  (exists w',
     SamplePLTempSensor_report [r0; r1; r2; r3] w = Normal tt w' /\
     published w' = published w ++
       [(TOPIC_THERMOCOUPLE_BOARD_TEMPERATURE, "%.1f C",
         [ArgFloat (F_div (F_of_int (sign_extend 12 internal))
                          (F_lit (16 # 1)))]);
        (TOPIC_THERMOCOUPLE_TEMPERATURE, "%.1f C",
         [ArgFloat (F_div (F_of_int (sign_extend 14 thermocouple))
                          (F_lit (4 # 1)))])]) /\
  internal_sqTemporaryValue [0x00; 0x00; 0x64; 0x00] = 1600 /\
  (ideal (F_div (F_of_int 1600) (F_lit (16 # 1))) == 100 # 1)%Q.
Proof.
  intros H0 H1 H2 H3 Hrc Hc Ht B0 B1 B2 B3 internal thermocouple.
  repeat split.
  - apply internal_sqTemporaryValue_built; assumption.
  - apply internal_spec; assumption.
  - apply thermocouple_sqTemporaryValue_built; assumption.
  - apply thermocouple_spec; assumption.
  - destruct (SamplePLTempSensor_report_publishes r0 r1 r2 r3 w hdl Hrc Hc Ht)
      as (w' & E & _ & P).
    exists w'. split; [exact E|].
    rewrite P, B0, B1, B2, B3.
    rewrite (internal_spec r0 r1 r2 r3 H2 H3).
    rewrite (thermocouple_spec r0 r1 r2 r3 H0 H1). reflexivity.
Qed.

(** The theorem at the receive bytes FF FC FF F0: both fields are -1. *)
Lemma thermocouple_fields_reconstructed_witness :
  internal_sqTemporaryValue [0xFF; 0xFC; 0xFF; 0xF0] = sign_extend 12 0xFFF /\
  thermocouple_sqTemporaryValue [0xFF; 0xFC; 0xFF; 0xF0]
  = sign_extend 14 0x3FFF.
Proof.
  destruct (thermocouple_fields_reconstructed (world_of [] []) 1
              0xFF 0xFC 0xFF 0xF0
              ltac:(unfold byte_range; lia) ltac:(unfold byte_range; lia)
              ltac:(unfold byte_range; lia) ltac:(unfold byte_range; lia)
              ltac:(reflexivity) ltac:(reflexivity) ltac:(reflexivity)
              ltac:(reflexivity) ltac:(reflexivity) ltac:(reflexivity)
              ltac:(reflexivity))
    as (_ & Hi & _ & Ht & _).
  split; [exact Hi|exact Ht].
Defined.

(** C8 (the code departs from the claim).  A failure of one sensor's
    sample stops the sample of the next sensor on the IIC bus, because the
    result code it leaves is still in the handle when that sample makes its
    first test.  In one period in which the SPI transfer delivers three of
    its four bytes, the hygrometer's one-shot write goes through and the
    sample then leaves with two error reports and no measurement, its
    replies unused.  In two periods in which the hygrometer's one-shot
    write of the first is cut short, the barometer's sample of the second
    leaves the same way. *)
Theorem failed_sample_stops_the_next_sensor :
  (let r := prvMQTTConnectAndPublishTask_loop 1 5
              (world_of (barometer_sample_script ++ hygrometer_sample_script)
                        (spi_transfer_short 0x00 0x00 0x64)) in
   returned r = true /\
   published (world_after r)
     = [(TOPIC_BAROMETER_PRESSURE, "%.2f hPa",
         [ArgFloat (F_div (F_of_int (-4096)) (F_lit (4096 # 1)))]);
        (TOPIC_BAROMETER_TEMPERATURE, "%.2f C",
         [ArgFloat (F_add (F_lit (85 # 2))
                          (F_div (F_of_int (-480)) (F_dbl (480 # 1))))]);
        (TOPIC_THERMOCOUPLE_STATUS, "SPI Transaction failure", []);
        (TOPIC_HYGROMETER_STATUS,
         "ReadIicRegs(6@BAROMETER_REG_STATUS_REG) -> %08x",
         [ArgInt XST_FAILURE]);
        (TOPIC_HYGROMETER_STATUS,
         "WriteIicReg(HYGROMETER_REG_CTRL_REG2::HYGROMETER_BFLD_ONE_SHOT) -> %08x",
         [ArgInt XST_FAILURE])] /\
   last (iic_log (world_after r)) (IicRecv 0 0 XIIC_STOP)
     = IicSend HYGROMETER_SLAVE_ADDRESS
         [HYGROMETER_REG_CTRL_REG2; HYGROMETER_BFLD_ONE_SHOT] XIIC_STOP /\
   iic_in (world_after r)
     = reg_read 0x00 ++ block_read [0x03; 0x10; 0x20; 0x30; 0x40]) /\
  (let r := prvMQTTConnectAndPublishTask_loop 2 5
              (world_of (barometer_sample_script ++ [sent 1]
                         ++ [sent 2] ++ hygrometer_sample_script)
                        (spi_transfer 0x00 0x00 0x64 0x00
                         ++ spi_transfer 0x00 0x00 0x64 0x00)) in
   returned r = true /\
   skipn 6 (published (world_after r))
     = [(TOPIC_BAROMETER_STATUS,
         "WriteIicReg(HYGROMETER_REG_CTRL_REG2::HYGROMETER_BFLD_ONE_SHOT) -> %08x",
         [ArgInt 1]);
        (TOPIC_BAROMETER_STATUS,
         "WriteIicReg(BAROMETER_REG_CTRL_REG2::BAROMETER_BFLD_ONE_SHOT) -> %08x",
         [ArgInt 1]);
        (TOPIC_THERMOCOUPLE_BOARD_TEMPERATURE, "%.1f C",
         [ArgFloat (F_div (F_of_int 1600) (F_lit (16 # 1)))]);
        (TOPIC_THERMOCOUPLE_TEMPERATURE, "%.1f C",
         [ArgFloat (F_div (F_of_int 0) (F_lit (4 # 1)))]);
        (TOPIC_HYGROMETER_RELATIVE_HUMIDITY, "%.2f %%rH",
         [ArgFloat (F_lit (100 # 1))]);
        (TOPIC_HYGROMETER_HUMIDITY_SENSOR_TEMPERATURE, "%.2f C",
         [ArgFloat (F_lit (1000 # 1))])] /\
   iic_in (world_after r) = []).
Proof.
  split; vm_compute; repeat split; reflexivity.
Qed.

(** C9.  Stopping a sensor driver, started or not, returns, leaves every
    device log and script as it was, and changes the system handle in one
    field only: [eTopic] becomes the status topic of that sensor. *)
Theorem stop_sets_the_status_topic_only (d : Sensor) (w : World) :
  exists w',
    stop_of d w = Normal tt w' /\
    eTopic (sys w') = status_topic d /\
    rc (sys w') = rc (sys w) /\
    pcErr (sys w') = pcErr (sys w) /\
    pbHygrometerCalibration (sys w') = pbHygrometerCalibration (sys w) /\
    iic_BaseAddress (sys w') = iic_BaseAddress (sys w) /\
    iic_IsReady (sys w') = iic_IsReady (sys w) /\
    gpio_IsReady (sys w') = gpio_IsReady (sys w) /\
    xMQTTHandle (sys w') = xMQTTHandle (sys w) /\
    iic_log w' = iic_log w /\ iic_in w' = iic_in w /\
    spi_log w' = spi_log w /\ spi_in w' = spi_in w /\
    mqtt_log w' = mqtt_log w /\ gpio_log w' = gpio_log w.
Proof.
  exists (with_sys (set_eTopic (status_topic d)) w).
  destruct d; cbn; repeat split; reflexivity.
Qed.

(** C10.  [WriteIicRegs] with a count above 2 returns with the first byte
    of the caller's buffer OR-ed with 0x80, bit 7 set, the other bytes as
    they were, and it is the changed buffer that went to the bus; with a
    count of 2 or less the buffer comes back as it was given. *)
Theorem WriteIicRegs_marks_the_first_byte (addr xCount b0 : Z)
    (rest : list Z) (w : World) :
  can_report w ->
  exists code w',
    WriteIicRegs addr xCount (b0 :: rest) w
    = Normal (code, if 2 <? xCount then Z.lor b0 0x80 :: rest
                    else b0 :: rest) w' /\
    (2 < xCount ->
       Z.testbit (Z.lor b0 0x80) 7 = true /\
       iic_log w' = iic_log w ++
         [IicSend addr (firstn (Z.to_nat xCount) (Z.lor b0 0x80 :: rest))
            XIIC_STOP]).
Proof.
  intros Hc.
  destruct (WriteIicRegs_returns addr xCount (b0 :: rest) w Hc)
    as (code & w' & E & Hl); [discriminate|].
  exists code, w'. unfold buffer_after_write in *. split; [exact E|].
  intros H. replace (2 <? xCount) with true in Hl
    by (symmetry; apply Z.ltb_lt; exact H).
  split; [|exact Hl].
  rewrite Z.lor_spec. change (Z.testbit 0x80 7) with true.
  apply orb_true_r.
Qed.

(** The theorem at a three-byte write to register 0x20: the buffer comes
    back with 0xA0 in front. *)
Lemma WriteIicRegs_marks_the_first_byte_witness :
  can_report (world_of [sent 3] []) /\
  exists code w',
    WriteIicRegs BAROMETER_SLAVE_ADDRESS 3 [0x20; 0x01; 0x02]
      (world_of [sent 3] [])
    = Normal (code, [0xA0; 0x01; 0x02]) w'.
Proof.
  assert (H : can_report (world_of [sent 3] [])).
  { right. eexists. vm_compute. reflexivity. }
  split; [exact H|].
  destruct (WriteIicRegs_marks_the_first_byte BAROMETER_SLAVE_ADDRESS 3 0x20
              [0x01; 0x02] (world_of [sent 3] []) H) as (code & w' & E & _).
  exists code, w'. exact E.
Defined.

(* ================================================================== *)
(** * Relations that the operations keep *)
(* ================================================================== *)

Section Preservation.

Variable R : World -> World -> Prop.
Hypothesis R_refl : forall w, R w w.
Hypothesis R_trans : forall w1 w2 w3, R w1 w2 -> R w2 w3 -> R w1 w3.

Lemma preserves_ret {A} (a : A) : preserves R (ret a).
Proof. intros w. apply R_refl. Qed.

Lemma preserves_crash {A} (f : Fault) : preserves R (@crash A f).
Proof. intros w. apply R_refl. Qed.

Lemma preserves_goto_L_DIE {A} : preserves R (@goto_L_DIE A).
Proof. intros w. apply R_refl. Qed.

Lemma preserves_get_sys : preserves R get_sys.
Proof. intros w. apply R_refl. Qed.

Lemma preserves_MS_TO_TICKS (xMs : Z) : preserves R (MS_TO_TICKS xMs).
Proof. intros w. apply R_refl. Qed.

Lemma preserves_bind {A B} (c : M A) (k : A -> M B) :
  preserves R c -> (forall a, preserves R (k a)) -> preserves R (bind c k).
Proof.
  intros Hc Hk w. unfold bind. specialize (Hc w).
  destruct (c w) as [a w1|w1|f w1]; cbn in *; try exact Hc.
  apply (R_trans w w1 _ Hc). apply Hk.
Qed.

Lemma preserves_when (b : bool) (c : M unit) :
  preserves R c -> preserves R (when b c).
Proof. intros H. destruct b; [exact H|apply preserves_ret]. Qed.

Lemma preserves_cases {A} (b : bool) (c1 c2 : M A) :
  preserves R c1 -> preserves R c2 -> preserves R (if b then c1 else c2).
Proof. destruct b; auto. Qed.

Lemma preserves_L_DIE (c : M unit) : preserves R c -> preserves R (L_DIE c).
Proof.
  intros H w. unfold L_DIE. specialize (H w). destruct (c w); exact H.
Qed.

Lemma preserves_configASSERT (x : Z) : preserves R (configASSERT x).
Proof.
  unfold configASSERT.
  apply preserves_cases; [apply preserves_crash|apply preserves_ret].
Qed.

Lemma preserves_for_countdown {L} (n : nat) (body : L -> M (bool * L))
    (l : L) :
  (forall l, preserves R (body l)) -> preserves R (for_countdown n body l).
Proof.
  intros H. revert l.
  induction n; intros l; cbn [for_countdown]; [apply preserves_ret|].
  apply preserves_bind; [apply H|intros r].
  apply preserves_cases; [apply preserves_ret|apply IHn].
Qed.

(** The publisher, for a relation that allows what it does to the
    broker, the status indicator and the clock. *)
Section Publisher.

Hypothesis R_mqtt : forall i l w, R w (with_mqtt i l w).
Hypothesis R_gpio : forall l w, R w (with_gpio l w).
Hypothesis R_now' : forall t w, R w (with_now t w).

Lemma preserves_BlinkLed_loop (n : nat) (t : Z) :
  preserves R (BlinkLed_loop n t).
Proof.
  induction n; cbn [BlinkLed_loop]; [apply preserves_ret|].
  apply preserves_bind; [intros w; apply R_gpio|intros _].
  apply preserves_bind; [intros w; apply R_now'|intros _].
  apply preserves_bind; [intros w; apply R_gpio|intros _].
  apply preserves_bind; [intros w; apply R_now'|intros _].
  exact IHn.
Qed.

Lemma preserves_BlinkLed (xCount xFinalOn : Z) :
  preserves R (BlinkLed xCount xFinalOn).
Proof.
  unfold BlinkLed.
  apply preserves_bind; [apply preserves_MS_TO_TICKS|intros t].
  apply preserves_bind; [apply preserves_get_sys|intros s].
  apply preserves_cases; [apply preserves_ret|].
  apply preserves_bind; [apply preserves_BlinkLed_loop|intros _].
  apply preserves_when. intros w. apply R_gpio.
Qed.

Lemma preserves_prvPublishTopic (t : TOPIC) (fmt : string)
    (args : list Arg) :
  preserves R (prvPublishTopic t fmt args).
Proof.
  unfold prvPublishTopic.
  apply preserves_bind; [apply preserves_get_sys|intros s].
  destruct (xMQTTHandle s); [|apply preserves_ret].
  apply preserves_bind.
  { intros w. unfold GetTopicInfo.
    destruct (GetTopicInfo_loop (pTopicInfo w) t); apply R_refl. }
  intros [ti|]; [|apply preserves_crash].
  apply preserves_bind; [intros w; apply R_mqtt|intros x].
  destruct x; try apply preserves_ret; try apply preserves_BlinkLed.
  apply preserves_bind; [apply preserves_BlinkLed|intros _].
  apply preserves_configASSERT.
Qed.

End Publisher.

(** [MAY_DIE] keeps what its code and the publisher keep. *)
Lemma preserves_MAY_DIE_by_publisher :
  (forall t f a, preserves R (prvPublishTopic t f a)) ->
  forall A (code : M A), preserves R code -> preserves R (MAY_DIE code).
Proof.
  intros Hp A code Hc. unfold MAY_DIE, StopHere.
  apply preserves_bind; [exact Hc|intros a].
  apply preserves_bind; [apply preserves_get_sys|intros s].
  apply preserves_cases; [|apply preserves_ret].
  apply preserves_bind; [apply Hp|intros _].
  apply preserves_bind; [apply preserves_ret|intros _].
  apply preserves_goto_L_DIE.
Qed.

(** The sampling loop keeps what its three samples and the clock keep. *)
Lemma preserves_sampling_rounds (n fuel : nat) (p t0 : Z) :
  (forall t w, R w (with_now t w)) ->
  preserves R SampleBarometer ->
  preserves R (SamplePLTempSensor fuel) ->
  preserves R SampleHygrometer ->
  preserves R (sampling_rounds n fuel p t0).
Proof.
  intros Hn Hb Ht Hh. revert t0.
  induction n; intros t0; cbn [sampling_rounds]; [apply preserves_ret|].
  apply preserves_bind; [intros w; apply Hn|intros t].
  apply preserves_bind; [exact Hb|intros _].
  apply preserves_bind; [exact Ht|intros _].
  apply preserves_bind; [exact Hh|intros _].
  apply IHn.
Qed.


(** What the relation has to allow for the register layer and the
    drivers above it: the writes of the result code and of the error
    text, the clock, the receive buffer, and the report of [MAY_DIE]. *)
Hypothesis R_set_rc : forall v w, R w (with_sys (set_rc v) w).
Hypothesis R_set_pcErr : forall v w, R w (with_sys (set_pcErr v) w).
Hypothesis R_now : forall t w, R w (with_now t w).
Hypothesis R_iic_buf : forall b w, R w (with_iic_buf b w).
Hypothesis R_MAY_DIE :
  forall A (code : M A), preserves R code -> preserves R (MAY_DIE code).

Lemma preserves_set_rc (v : Z) : preserves R (modify_sys (set_rc v)).
Proof. intros w. apply R_set_rc. Qed.

Lemma preserves_set_pcErr (v : string) :
  preserves R (modify_sys (set_pcErr v)).
Proof. intros w. apply R_set_pcErr. Qed.

Lemma preserves_vTaskDelay (xTicks : Z) : preserves R (vTaskDelay xTicks).
Proof. intros w. apply R_now. Qed.

Lemma preserves_failure (v : Z) (s : string) :
  preserves R (modify_sys (set_rc v) ;; modify_sys (set_pcErr s)).
Proof.
  apply preserves_bind; [apply preserves_set_rc|intros _].
  apply preserves_set_pcErr.
Qed.

Section OneDevice.

(** The IIC transfers to one address. *)
Variable addr : Z.
Hypothesis R_send :
  forall b n o, preserves R (XIic_Send addr b n o).
Hypothesis R_recv : forall n o, preserves R (XIic_Recv addr n o).

Lemma preserves_ReadIicRegs (n r : Z) (buf : list Z) :
  preserves R (ReadIicRegs addr n r buf).
Proof.
  unfold ReadIicRegs.
  apply preserves_bind; [intros w; apply R_iic_buf|intros _].
  apply preserves_bind; [|intros _ w; apply R_refl].
  apply preserves_L_DIE.
  apply preserves_bind; [|intros _]; apply R_MAY_DIE.
  - apply preserves_bind; [apply R_send|intros x].
    apply preserves_when, preserves_failure.
  - apply preserves_bind; [apply R_recv|intros x].
    apply preserves_when, preserves_failure.
Qed.

Lemma preserves_ReadIicReg (r : Z) (buf : list Z) :
  preserves R (ReadIicReg addr r buf).
Proof. apply preserves_ReadIicRegs. Qed.

Lemma preserves_WriteIicRegs (n : Z) (buf : list Z) :
  preserves R (WriteIicRegs addr n buf).
Proof.
  unfold WriteIicRegs.
  apply preserves_bind.
  { apply preserves_cases; [|apply preserves_ret].
    destruct buf; [apply preserves_crash|apply preserves_ret]. }
  intros buf'.
  apply preserves_bind; [|intros _ w; apply R_refl].
  apply preserves_L_DIE, R_MAY_DIE.
  apply preserves_bind; [apply R_send|intros x].
  apply preserves_when, preserves_failure.
Qed.

Lemma preserves_WriteIicReg (r v : Z) :
  preserves R (WriteIicReg addr r v).
Proof.
  unfold WriteIicReg.
  apply preserves_bind; [apply preserves_WriteIicRegs|intros x].
  apply preserves_ret.
Qed.

(** A step of the shape that every start and sample is made of: a
    register write or read, then the error text. *)
Lemma preserves_write_step (r v : Z) (s : string) :
  preserves R (MAY_DIE (WriteIicReg addr r v ;; modify_sys (set_pcErr s))).
Proof.
  apply R_MAY_DIE.
  apply preserves_bind; [apply preserves_WriteIicReg|intros _].
  apply preserves_set_pcErr.
Qed.

Lemma preserves_read_step (r : Z) (b : Z) (s : string) :
  preserves R
    (MAY_DIE (x <- ReadIicReg addr r [b] ;;
              modify_sys (set_pcErr s) ;;
              ret (nth 0 (snd x) 0))).
Proof.
  apply R_MAY_DIE.
  apply preserves_bind; [apply preserves_ReadIicReg|intros x].
  apply preserves_bind; [apply preserves_set_pcErr|intros _].
  apply preserves_ret.
Qed.

Lemma preserves_block_step (n r : Z) (buf : list Z) (s : string) :
  preserves R
    (MAY_DIE (x <- ReadIicRegs addr n r buf ;;
              modify_sys (set_pcErr s) ;;
              ret (snd x))).
Proof.
  apply R_MAY_DIE.
  apply preserves_bind; [apply preserves_ReadIicRegs|intros x].
  apply preserves_bind; [apply preserves_set_pcErr|intros _].
  apply preserves_ret.
Qed.

(** A poll of one register for a bit, and of a block for a mask. *)
Lemma preserves_poll (n : nat) (r mask xOneMs : Z) (s : string) (b : Z) :
  preserves R
    (for_countdown n (fun b =>
       b <- MAY_DIE (x <- ReadIicReg addr r [b] ;;
                     modify_sys (set_pcErr s) ;;
                     ret (nth 0 (snd x) 0)) ;;
       if 0 =? Z.land b mask then ret (true, b)
       else vTaskDelay xOneMs ;; ret (false, b)) b).
Proof.
  apply preserves_for_countdown. intros b'.
  apply preserves_bind; [apply preserves_read_step|intros b''].
  apply preserves_cases; [apply preserves_ret|].
  apply preserves_bind; [apply preserves_vTaskDelay|intros _].
  apply preserves_ret.
Qed.

Lemma preserves_block_poll (n : nat) (k r mask xOneMs : Z) (s : string)
    (buf : list Z) :
  preserves R
    (for_countdown n (fun pbBuf =>
       pbBuf <- MAY_DIE (x <- ReadIicRegs addr k r pbBuf ;;
                         modify_sys (set_pcErr s) ;;
                         ret (snd x)) ;;
       if mask =? Z.land (nth 0 pbBuf 0) mask then ret (true, pbBuf)
       else vTaskDelay xOneMs ;; ret (false, pbBuf)) buf).
Proof.
  apply preserves_for_countdown. intros b'.
  apply preserves_bind; [apply preserves_block_step|intros b''].
  apply preserves_cases; [apply preserves_ret|].
  apply preserves_bind; [apply preserves_vTaskDelay|intros _].
  apply preserves_ret.
Qed.

Lemma preserves_timeout_test (t : Z) (s : string) :
  preserves R
    (MAY_DIE (when (t <=? 0)
       (modify_sys (set_rc XST_FAILURE) ;; modify_sys (set_pcErr s)))).
Proof. apply R_MAY_DIE, preserves_when, preserves_failure. Qed.

End OneDevice.


Section Drivers.

(** The publications that the relation lets a driver make, the topics
    that it lets a driver report on, and what else it has to allow for
    the drivers. *)
Variable allowed : TOPIC -> string -> list Arg -> Prop.
Variable status : TOPIC -> Prop.
Hypothesis R_publish :
  forall t f a, allowed t f a -> preserves R (prvPublishTopic t f a).
Hypothesis R_set_eTopic :
  forall t w, status t -> R w (with_sys (set_eTopic t) w).

Ltac walk :=
  repeat match goal with
  | |- preserves _ (L_DIE _) => apply preserves_L_DIE
  | |- preserves _ (MAY_DIE _) => apply R_MAY_DIE
  | |- preserves _ (bind _ _) => apply preserves_bind; [|intros ?]
  | |- preserves _ (when _ _) => apply preserves_when
  | |- preserves _ (if _ then _ else _) => apply preserves_cases
  | |- preserves _ (for_countdown _ _ _) =>
      apply preserves_for_countdown; intros ?
  | |- preserves _ (ret _) => apply preserves_ret
  | |- preserves _ (crash _) => apply preserves_crash
  | |- preserves _ (MS_TO_TICKS _) => apply preserves_MS_TO_TICKS
  | |- preserves _ get_sys => apply preserves_get_sys
  | |- preserves _ (vTaskDelay _) => apply preserves_vTaskDelay
  | |- preserves _ (modify_sys (set_rc _)) => apply preserves_set_rc
  | |- preserves _ (modify_sys (set_pcErr _)) => apply preserves_set_pcErr
  | |- preserves _ (modify_sys (set_eTopic _)) =>
      intros ?w; apply R_set_eTopic; assumption
  | |- preserves _ (prvPublishTopic _ _ _) => apply R_publish; solve [auto]
  | |- preserves _ (WriteIicReg _ _ _) =>
      apply preserves_WriteIicReg; assumption
  | |- preserves _ (ReadIicReg _ _ _) =>
      apply preserves_ReadIicReg; assumption
  | |- preserves _ (ReadIicRegs _ _ _ _) =>
      apply preserves_ReadIicRegs; assumption
  end.

Section BarometerDriver.

Hypothesis R_send :
  forall b n o, preserves R (XIic_Send BAROMETER_SLAVE_ADDRESS b n o).
Hypothesis R_recv :
  forall n o, preserves R (XIic_Recv BAROMETER_SLAVE_ADDRESS n o).
Hypothesis status_ok : status TOPIC_BAROMETER_STATUS.

Lemma preserves_StopBarometer : preserves R StopBarometer.
Proof. unfold StopBarometer. walk. Qed.

Lemma preserves_SampleBarometer_acquire :
  preserves R SampleBarometer_acquire.
Proof. unfold SampleBarometer_acquire. walk. Qed.

Lemma preserves_StartBarometer :
  allowed TOPIC_BAROMETER_STATUS "Barometer started" [] ->
  preserves R StartBarometer.
Proof. intros Hs. unfold StartBarometer. walk. Qed.

Lemma preserves_SampleBarometer :
  (forall pbBuf,
     allowed TOPIC_BAROMETER_PRESSURE "%.2f hPa"
       [ArgFloat (F_div (F_of_int (barometer_pressure_sqTmp pbBuf))
                        (F_lit (4096 # 1)))]) ->
  (forall pbBuf,
     allowed TOPIC_BAROMETER_TEMPERATURE "%.2f C"
       [ArgFloat
          (F_add (F_lit (85 # 2))
             (F_div (F_of_int (barometer_temperature_sqTmp pbBuf))
                    (F_dbl (480 # 1))))]) ->
  preserves R SampleBarometer.
Proof.
  intros Hp Ht.
  unfold SampleBarometer, SampleBarometer_publish.
  pose proof preserves_SampleBarometer_acquire. walk. assumption.
Qed.

End BarometerDriver.

Section HygrometerDriver.

Hypothesis R_send :
  forall b n o, preserves R (XIic_Send HYGROMETER_SLAVE_ADDRESS b n o).
Hypothesis R_recv :
  forall n o, preserves R (XIic_Recv HYGROMETER_SLAVE_ADDRESS n o).
Hypothesis status_ok : status TOPIC_HYGROMETER_STATUS.

Lemma preserves_StopHygrometer : preserves R StopHygrometer.
Proof. unfold StopHygrometer. walk. Qed.

Lemma preserves_SampleHygrometer :
  allowed TOPIC_HYGROMETER_RELATIVE_HUMIDITY "%.2f %%rH"
    [ArgFloat (F_lit (100 # 1))] ->
  allowed TOPIC_HYGROMETER_HUMIDITY_SENSOR_TEMPERATURE "%.2f C"
    [ArgFloat (F_lit (1000 # 1))] ->
  preserves R SampleHygrometer.
Proof. intros Hh Ht. unfold SampleHygrometer. walk. Qed.

Hypothesis R_set_calibration :
  forall v w, R w (with_sys (set_calibration v) w).

Lemma preserves_StartHygrometer :
  allowed TOPIC_HYGROMETER_STATUS "Hygrometer started" [] ->
  preserves R StartHygrometer.
Proof.
  intros Hs. unfold StartHygrometer. walk.
  intros w. apply R_set_calibration.
Qed.

End HygrometerDriver.

Section ThermocoupleDriver.

Hypothesis R_spi : forall i l w, R w (with_spi i l w).
Hypothesis status_ok : status TOPIC_THERMOCOUPLE_STATUS.

Lemma preserves_XSpi_WriteReg (r : SpiReg) (v : Z) :
  preserves R (XSpi_WriteReg r v).
Proof. intros w. apply R_spi. Qed.

Lemma preserves_XSpi_ReadReg (r : SpiReg) : preserves R (XSpi_ReadReg r).
Proof. intros w. apply R_spi. Qed.

Ltac spi :=
  repeat match goal with
  | |- preserves _ (XSpi_WriteReg _ _) => apply preserves_XSpi_WriteReg
  | |- preserves _ (XSpi_ReadReg _) => apply preserves_XSpi_ReadReg
  | |- preserves _ (match ?x with _ => _ end) => destruct x
  | _ => progress walk
  end.

Lemma preserves_StopPLTempSensor : preserves R StopPLTempSensor.
Proof. unfold StopPLTempSensor. spi. Qed.

Lemma preserves_StartPLTempSensor :
  allowed TOPIC_THERMOCOUPLE_STATUS "PL Thermocouple started" [] ->
  preserves R StartPLTempSensor.
Proof. intros Hs. unfold StartPLTempSensor. spi. Qed.

Lemma preserves_XSpi_fill_tx (n : nat) (tx : list Z) :
  preserves R (XSpi_fill_tx n tx).
Proof.
  revert tx. induction n; intros tx; cbn [XSpi_fill_tx]; spi.
  apply IHn.
Qed.

Lemma preserves_XSpi_wait_tx_empty (fuel : nat) :
  preserves R (XSpi_wait_tx_empty fuel).
Proof. induction fuel; cbn [XSpi_wait_tx_empty]; spi. exact IHfuel. Qed.

Lemma preserves_XSpi_wait_occupancy (fuel : nat) (n : Z) :
  preserves R (XSpi_wait_occupancy fuel n).
Proof.
  induction fuel; cbn [XSpi_wait_occupancy]; spi. exact IHfuel.
Qed.

Lemma preserves_XSpi_drain_rx (fuel : nat) (rx : list Z) (n : nat) :
  preserves R (XSpi_drain_rx fuel rx n).
Proof.
  revert rx n.
  induction fuel; intros rx n; cbn [XSpi_drain_rx]; spi. apply IHfuel.
Qed.

Lemma preserves_XSpi_LowLevelExecute (fuel : nat) (ch n : Z)
    (tx rx : list Z) :
  preserves R (XSpi_LowLevelExecute fuel ch n tx rx).
Proof.
  unfold XSpi_LowLevelExecute.
  pose proof preserves_XSpi_fill_tx. pose proof preserves_XSpi_wait_tx_empty.
  pose proof preserves_XSpi_wait_occupancy.
  pose proof preserves_XSpi_drain_rx.
  spi; auto.
Qed.

Lemma preserves_SamplePLTempSensor_transfer (fuel : nat) :
  preserves R (SamplePLTempSensor_transfer fuel).
Proof.
  unfold SamplePLTempSensor_transfer. spi.
  apply preserves_XSpi_LowLevelExecute.
Qed.

Lemma preserves_SamplePLTempSensor (fuel : nat) :
  (forall f,
     In f ["SPI Transaction failure"; "Open Circuit"; "Short to GND";
           "Short to VCC"; "Fault"] ->
     allowed TOPIC_THERMOCOUPLE_STATUS f []) ->
  (forall rx,
     allowed TOPIC_THERMOCOUPLE_BOARD_TEMPERATURE "%.1f C"
       [ArgFloat (F_div (F_of_int (internal_sqTemporaryValue rx))
                        (F_lit (16 # 1)))]) ->
  (forall rx,
     allowed TOPIC_THERMOCOUPLE_TEMPERATURE "%.1f C"
       [ArgFloat (F_div (F_of_int (thermocouple_sqTemporaryValue rx))
                        (F_lit (4 # 1)))]) ->
  preserves R (SamplePLTempSensor fuel).
Proof.
  intros Hs Hb Ht.
  assert (forall f, In f _ -> preserves R
            (prvPublishTopic TOPIC_THERMOCOUPLE_STATUS f []))
    as Hs' by (intros f Hf; apply R_publish, Hs, Hf).
  unfold SamplePLTempSensor, SamplePLTempSensor_report.
  apply preserves_bind;
    [apply preserves_SamplePLTempSensor_transfer|intros rx].
  apply preserves_bind; [apply preserves_get_sys|intros s].
  repeat (apply preserves_cases; [apply Hs'; cbn; tauto|]).
  apply preserves_bind; [|intros _]; apply R_publish; auto.
Qed.

End ThermocoupleDriver.

End Drivers.

End Preservation.

(* ================================================================== *)
(** * The relations at work *)
(* ================================================================== *)

(** Closes a fact about one write to the world for a relation that is a
    conjunction of equations between fields. *)
Ltac by_fields :=
  solve [ intros;
          cbv [setup_kept calibration_kept spi_idle iic_idle preserves] in *;
          cbn in *; intuition (try reflexivity; try congruence) ].

Lemma setup_kept_publish (t : TOPIC) (f : string) (a : list Arg) :
  preserves setup_kept (prvPublishTopic t f a).
Proof. apply preserves_prvPublishTopic; by_fields. Qed.

Lemma setup_kept_MAY_DIE A (code : M A) :
  preserves setup_kept code -> preserves setup_kept (MAY_DIE code).
Proof.
  apply preserves_MAY_DIE_by_publisher; try by_fields.
  apply setup_kept_publish.
Qed.

(** Hands an operation to the generic lemma for it and closes what that
    lemma asks about the relation. *)
Ltac by_operation maydie publish :=
  first
    [ apply preserves_StartBarometer with (allowed := fun _ _ _ => True) (status := fun _ => True)
    | apply preserves_StopBarometer with (status := fun _ => True)
    | apply preserves_SampleBarometer with (allowed := fun _ _ _ => True) (status := fun _ => True)
    | apply preserves_StartHygrometer with (allowed := fun _ _ _ => True) (status := fun _ => True)
    | apply preserves_StopHygrometer with (status := fun _ => True)
    | apply preserves_SampleHygrometer with (allowed := fun _ _ _ => True) (status := fun _ => True)
    | apply preserves_StartPLTempSensor with (allowed := fun _ _ _ => True) (status := fun _ => True)
    | apply preserves_StopPLTempSensor with (status := fun _ => True)
    | apply preserves_SamplePLTempSensor with (allowed := fun _ _ _ => True) (status := fun _ => True) ];
  first [ exact I | (intros; exact I) | exact maydie
        | (intros; apply publish) | by_fields ].

Lemma setup_kept_run (fuel : nat) (op : Operation) :
  preserves setup_kept (run fuel op).
Proof.
  destruct op as [[]|[]|[]]; cbn [run stop_of];
    by_operation setup_kept_MAY_DIE setup_kept_publish.
Qed.

Lemma setup_kept_sampling (n fuel : nat) (p t0 : Z) :
  preserves setup_kept (sampling_rounds n fuel p t0).
Proof.
  apply preserves_sampling_rounds; try by_fields.
  - apply (setup_kept_run fuel (Sample Barometer)).
  - apply (setup_kept_run fuel (Sample Thermocouple)).
  - apply (setup_kept_run fuel (Sample Hygrometer)).
Qed.

(** ** Without a broker *)

Lemma quiet_refl (w : World) : quiet w w.
Proof. intros H. auto. Qed.

Lemma quiet_trans (w1 w2 w3 : World) :
  quiet w1 w2 -> quiet w2 w3 -> quiet w1 w3.
Proof.
  intros H12 H23 H. destruct (H12 H) as (H2 & A & B & C).
  destruct (H23 H2) as (H3 & A' & B' & C'). repeat split; congruence.
Qed.

Ltac quiet_field :=
  solve [ unfold preserves, quiet; intros; cbn in *; auto ].

Lemma quiet_publish (t : TOPIC) (f : string) (a : list Arg) :
  preserves quiet (prvPublishTopic t f a).
Proof.
  intros w H. rewrite prvPublishTopic_disconnected by exact H. cbn. auto.
Qed.

Lemma quiet_MAY_DIE A (code : M A) :
  preserves quiet code -> preserves quiet (MAY_DIE code).
Proof.
  apply preserves_MAY_DIE_by_publisher.
  - exact quiet_refl.
  - exact quiet_trans.
  - exact quiet_publish.
Qed.

Ltac by_quiet_operation :=
  first
    [ apply preserves_StartBarometer with (allowed := fun _ _ _ => True) (status := fun _ => True)
    | apply preserves_StopBarometer with (status := fun _ => True)
    | apply preserves_SampleBarometer with (allowed := fun _ _ _ => True) (status := fun _ => True)
    | apply preserves_StartHygrometer with (allowed := fun _ _ _ => True) (status := fun _ => True)
    | apply preserves_StopHygrometer with (status := fun _ => True)
    | apply preserves_SampleHygrometer with (allowed := fun _ _ _ => True) (status := fun _ => True)
    | apply preserves_StartPLTempSensor with (allowed := fun _ _ _ => True) (status := fun _ => True)
    | apply preserves_StopPLTempSensor with (status := fun _ => True)
    | apply preserves_SamplePLTempSensor with (allowed := fun _ _ _ => True) (status := fun _ => True) ];
  first [ exact I | (intros; exact I) | exact quiet_refl | exact quiet_trans
        | exact quiet_MAY_DIE | (intros; apply quiet_publish)
        | quiet_field ].

Lemma quiet_run (fuel : nat) (op : Operation) :
  preserves quiet (run fuel op).
Proof.
  destruct op as [[]|[]|[]]; cbn [run stop_of]; by_quiet_operation.
Qed.

Lemma quiet_sampling (n fuel : nat) (p t0 : Z) :
  preserves quiet (sampling_rounds n fuel p t0).
Proof.
  apply preserves_sampling_rounds;
    try exact quiet_refl; try exact quiet_trans; try quiet_field.
  - apply (quiet_run fuel (Sample Barometer)).
  - apply (quiet_run fuel (Sample Thermocouple)).
  - apply (quiet_run fuel (Sample Hygrometer)).
Qed.

(** ** The calibration block, and the bus of the other kind *)

Lemma calibration_kept_publish (t : TOPIC) (f : string) (a : list Arg) :
  preserves calibration_kept (prvPublishTopic t f a).
Proof. apply preserves_prvPublishTopic; by_fields. Qed.

Lemma calibration_kept_MAY_DIE A (code : M A) :
  preserves calibration_kept code -> preserves calibration_kept (MAY_DIE code).
Proof.
  apply preserves_MAY_DIE_by_publisher; try by_fields.
  apply calibration_kept_publish.
Qed.

Lemma calibration_kept_run (fuel : nat) (op : Operation) :
  op <> Start Hygrometer ->
  preserves calibration_kept (run fuel op).
Proof.
  intros Hop. destruct op as [[]|[]|[]]; cbn [run stop_of];
    try (now destruct Hop);
    by_operation calibration_kept_MAY_DIE calibration_kept_publish.
Qed.

Lemma spi_idle_publish (t : TOPIC) (f : string) (a : list Arg) :
  preserves spi_idle (prvPublishTopic t f a).
Proof. apply preserves_prvPublishTopic; by_fields. Qed.

Lemma spi_idle_MAY_DIE A (code : M A) :
  preserves spi_idle code -> preserves spi_idle (MAY_DIE code).
Proof.
  apply preserves_MAY_DIE_by_publisher; try by_fields.
  apply spi_idle_publish.
Qed.

Lemma spi_idle_run (fuel : nat) (op : Operation) :
  sensor_of op <> Thermocouple ->
  preserves spi_idle (run fuel op).
Proof.
  intros Hop. destruct op as [[]|[]|[]]; cbn [run stop_of];
    try (now destruct Hop);
    by_operation spi_idle_MAY_DIE spi_idle_publish.
Qed.

Lemma iic_idle_publish (t : TOPIC) (f : string) (a : list Arg) :
  preserves iic_idle (prvPublishTopic t f a).
Proof. apply preserves_prvPublishTopic; by_fields. Qed.

Lemma iic_idle_MAY_DIE A (code : M A) :
  preserves iic_idle code -> preserves iic_idle (MAY_DIE code).
Proof.
  apply preserves_MAY_DIE_by_publisher; try by_fields.
  apply iic_idle_publish.
Qed.

Lemma iic_idle_run (fuel : nat) (op : Operation) :
  sensor_of op = Thermocouple ->
  preserves iic_idle (run fuel op).
Proof.
  intros Hop. destruct op as [[]|[]|[]]; cbn [run stop_of];
    try discriminate Hop;
    by_operation iic_idle_MAY_DIE iic_idle_publish.
Qed.

(* ================================================================== *)
(** * The topic table *)
(* ================================================================== *)

Lemma TOPIC_eqb_eq (a b : TOPIC) : TOPIC_eqb a b = true <-> a = b.
Proof.
  split; [|intros ->; apply Z.eqb_refl].
  destruct a, b; intros H; try reflexivity; discriminate H.
Qed.

Lemma TOPIC_eqb_neq (a b : TOPIC) : TOPIC_eqb a b = false <-> a <> b.
Proof.
  rewrite <- TOPIC_eqb_eq. destruct (TOPIC_eqb a b); split; congruence.
Qed.

(** What the scan has found is the first entry under the identity asked
    for, and no sentinel comes before it. *)
Lemma GetTopicInfo_loop_first (pTI : list TopicInfo) (e : TOPIC)
    (ti : TopicInfo) :
  GetTopicInfo_loop pTI e = Some ti ->
  tiTopic ti = e /\ e <> TOPIC_LAST /\
  exists pre post,
    pTI = pre ++ ti :: post /\
    Forall (fun x => tiTopic x <> e /\ tiTopic x <> TOPIC_LAST) pre.
Proof.
  induction pTI as [|x rest IH]; [discriminate|].
  cbn [GetTopicInfo_loop].
  destruct (TOPIC_eqb TOPIC_LAST (tiTopic x)) eqn:El; [discriminate|].
  apply TOPIC_eqb_neq in El.
  destruct (TOPIC_eqb (tiTopic x) e) eqn:Ee.
  - apply TOPIC_eqb_eq in Ee. intros H. inversion H. subst ti.
    repeat split; try congruence.
    exists [], rest. split; [reflexivity|constructor].
  - apply TOPIC_eqb_neq in Ee. intros H.
    destruct (IH H) as (A & B & pre & post & C & D).
    repeat split; try assumption.
    exists (x :: pre), post. split; [now rewrite C|].
    constructor; [split; congruence|assumption].
Qed.

(** An entry under the identity asked for, with no sentinel before it, is
    enough for the scan to find something. *)
Lemma GetTopicInfo_loop_finds (pre post : list TopicInfo) (ti : TopicInfo) :
  tiTopic ti <> TOPIC_LAST ->
  Forall (fun x => tiTopic x <> TOPIC_LAST) pre ->
  exists found, GetTopicInfo_loop (pre ++ ti :: post) (tiTopic ti)
                = Some found.
Proof.
  intros Hl Hpre. induction Hpre as [|x pre Hx _ IH]; cbn [app GetTopicInfo_loop].
  - replace (TOPIC_eqb TOPIC_LAST (tiTopic ti)) with false
      by (symmetry; apply TOPIC_eqb_neq; congruence).
    replace (TOPIC_eqb (tiTopic ti) (tiTopic ti)) with true
      by (symmetry; now apply TOPIC_eqb_eq).
    now exists ti.
  - replace (TOPIC_eqb TOPIC_LAST (tiTopic x)) with false
      by (symmetry; apply TOPIC_eqb_neq; congruence).
    destruct (TOPIC_eqb (tiTopic x) (tiTopic ti)); [now exists x|exact IH].
Qed.

(* ================================================================== *)
(** * The publisher, whatever the broker answers *)
(* ================================================================== *)

Lemma indicator_frame_refl (w : World) : indicator_frame w w.
Proof. unfold indicator_frame. intuition reflexivity. Qed.

Lemma indicator_frame_trans (w1 w2 w3 : World) :
  indicator_frame w1 w2 -> indicator_frame w2 w3 -> indicator_frame w1 w3.
Proof. unfold indicator_frame. intuition congruence. Qed.

Lemma indicator_frame_BlinkLed (xCount xFinalOn : Z) :
  preserves indicator_frame (BlinkLed xCount xFinalOn).
Proof.
  apply preserves_BlinkLed.
  - exact indicator_frame_refl.
  - exact indicator_frame_trans.
  - intros l w. unfold indicator_frame. cbn. intuition reflexivity.
  - intros t w. unfold indicator_frame. cbn. intuition reflexivity.
Qed.

Lemma BlinkLed_returns (xCount xFinalOn : Z) (w : World) :
  exists w', BlinkLed xCount xFinalOn w = Normal tt w'.
Proof.
  unfold BlinkLed, bind, MS_TO_TICKS, get_sys.
  destruct (gpio_IsReady (sys w)); cbn [negb]; [|now eexists].
  set (t := if _ <? 1 then 1 else _). clearbody t.
  assert (H : forall n v, exists v', BlinkLed_loop n t v = Normal tt v').
  { induction n; intros v; cbn [BlinkLed_loop]; [now eexists|].
    unfold bind, XGpioPs_WritePin, vTaskDelay. apply IHn. }
  destruct (H (Z.to_nat xCount) w) as [v' E]. rewrite E.
  unfold when. destruct (negb (xFinalOn =? 0)); now eexists.
Qed.

(** The three ways a call of the publisher can go. *)
Lemma prvPublishTopic_cases (t : TOPIC) (fmt : string) (args : list Arg)
    (w : World) :
  (xMQTTHandle (sys w) = None /\ prvPublishTopic t fmt args w = Normal tt w) \/
  (xMQTTHandle (sys w) <> None /\
   GetTopicInfo_loop (pTopicInfo w) t = None /\
   prvPublishTopic t fmt args w = Crash NullDereference w) \/
  (exists ti w',
     xMQTTHandle (sys w) <> None /\
     GetTopicInfo_loop (pTopicInfo w) t = Some ti /\
     prvPublishTopic t fmt args w = Normal tt w' /\
     indicator_frame
       (with_mqtt (tl (mqtt_in w))
          (mqtt_log w ++ [mkPublication ti fmt args]) w) w').
Proof.
  destruct (xMQTTHandle (sys w)) as [h|] eqn:Hh.
  2:{ left. split; [reflexivity|].
      now apply prvPublishTopic_disconnected. }
  right.
  destruct (GetTopicInfo_loop (pTopicInfo w) t) as [ti|] eqn:Ht.
  2:{ left. repeat split; try discriminate.
      unfold prvPublishTopic, bind, get_sys. rewrite Hh.
      unfold GetTopicInfo. rewrite Ht. reflexivity. }
  right. exists ti.
  unfold prvPublishTopic, bind, get_sys. rewrite Hh.
  unfold GetTopicInfo. rewrite Ht.
  unfold MQTT_AGENT_Publish.
  set (w1 := with_mqtt _ _ w).
  pose proof (indicator_frame_BlinkLed 1 pdFALSE w1) as F.
  destruct (BlinkLed_returns 1 pdFALSE w1) as [w2 E].
  rewrite E in F. cbn [world_after] in F.
  destruct (hd eMQTTAgentSuccess (mqtt_in w)).
  - exists w1.
    refine (conj _ (conj eq_refl (conj eq_refl (indicator_frame_refl w1)))).
    discriminate.
  - exists w2. refine (conj _ (conj eq_refl (conj E F))). discriminate.
  - exists w2. refine (conj _ (conj eq_refl (conj E F))). discriminate.
  - exists w2. rewrite E.
    refine (conj _ (conj eq_refl (conj eq_refl F))). discriminate.
Qed.

(** ** Each driver on its own address *)

Lemma addressed_refl (a : Z) (w : World) : addressed a w w.
Proof. exists []. split; [now rewrite app_nil_r|constructor]. Qed.

Lemma addressed_trans (a : Z) (w1 w2 w3 : World) :
  addressed a w1 w2 -> addressed a w2 w3 -> addressed a w1 w3.
Proof.
  intros (o1 & E1 & F1) (o2 & E2 & F2). exists (o1 ++ o2). split.
  - now rewrite E2, E1, app_assoc.
  - apply Forall_app. split; assumption.
Qed.

(** A write to the world that leaves the IIC log alone. *)
Ltac addressed_field :=
  solve [ unfold preserves; intros; exists []; split;
          [cbn; now rewrite app_nil_r|constructor] ].

Lemma addressed_send (a : Z) (b : list Z) (n : Z) (o : IicOption) :
  preserves (addressed a) (XIic_Send a b n o).
Proof.
  intros w. eexists. split; [reflexivity|]. repeat constructor.
Qed.

Lemma addressed_recv (a n : Z) (o : IicOption) :
  preserves (addressed a) (XIic_Recv a n o).
Proof.
  intros w. eexists. split; [reflexivity|]. repeat constructor.
Qed.

Lemma addressed_publish (a : Z) (t : TOPIC) (f : string) (args : list Arg) :
  preserves (addressed a) (prvPublishTopic t f args).
Proof.
  apply preserves_prvPublishTopic;
    first [ exact (addressed_refl a) | exact (addressed_trans a)
          | addressed_field ].
Qed.

Lemma addressed_MAY_DIE (a : Z) A (code : M A) :
  preserves (addressed a) code -> preserves (addressed a) (MAY_DIE code).
Proof.
  apply preserves_MAY_DIE_by_publisher.
  - exact (addressed_refl a).
  - exact (addressed_trans a).
  - exact (addressed_publish a).
Qed.

Ltac by_addressed_operation a :=
  first
    [ apply preserves_StartBarometer with (allowed := fun _ _ _ => True) (status := fun _ => True)
    | apply preserves_StopBarometer with (status := fun _ => True)
    | apply preserves_SampleBarometer with (allowed := fun _ _ _ => True) (status := fun _ => True)
    | apply preserves_StartHygrometer with (allowed := fun _ _ _ => True) (status := fun _ => True)
    | apply preserves_StopHygrometer with (status := fun _ => True)
    | apply preserves_SampleHygrometer with (allowed := fun _ _ _ => True) (status := fun _ => True) ];
  first [ exact I | (intros; exact I)
        | exact (addressed_refl a) | exact (addressed_trans a)
        | exact (addressed_MAY_DIE a)
        | (intros; apply addressed_publish)
        | (intros; apply addressed_send)
        | (intros; apply addressed_recv)
        | addressed_field ].

Lemma addressed_barometer (fuel : nat) (op : Operation) :
  sensor_of op = Barometer ->
  preserves (addressed BAROMETER_SLAVE_ADDRESS) (run fuel op).
Proof.
  intros Hop. destruct op as [[]|[]|[]]; cbn [run stop_of];
    try discriminate Hop; by_addressed_operation BAROMETER_SLAVE_ADDRESS.
Qed.

Lemma addressed_hygrometer (fuel : nat) (op : Operation) :
  sensor_of op = Hygrometer ->
  preserves (addressed HYGROMETER_SLAVE_ADDRESS) (run fuel op).
Proof.
  intros Hop. destruct op as [[]|[]|[]]; cbn [run stop_of];
    try discriminate Hop; by_addressed_operation HYGROMETER_SLAVE_ADDRESS.
Qed.

(** ** What each driver publishes *)

Section Reports.

Variable T : TOPIC.
Variable allowed : TOPIC -> string -> list Arg -> Prop.
Hypothesis T_allowed :
  forall f code, code <> XST_SUCCESS -> allowed T f [ArgInt code].

Lemma reports_within_refl (w : World) : reports_within T allowed w w.
Proof.
  exists []. split; [now rewrite app_nil_r|].
  intros H. split; [exact H|constructor].
Qed.

Lemma reports_within_trans (w1 w2 w3 : World) :
  reports_within T allowed w1 w2 -> reports_within T allowed w2 w3 ->
  reports_within T allowed w1 w3.
Proof.
  intros (p1 & E1 & F1) (p2 & E2 & F2). exists (p1 ++ p2). split.
  - now rewrite E2, E1, app_assoc.
  - intros H. destruct (F1 H) as [H2 A1]. destruct (F2 H2) as [H3 A2].
    split; [exact H3|]. apply Forall_app. split; assumption.
Qed.

(** A publication that is allowed as soon as the reporting topic is
    [T]. *)
Lemma reports_within_publish_on (t : TOPIC) (f : string) (a : list Arg)
    (w : World) :
  (eTopic (sys w) = T -> allowed t f a) ->
  reports_within T allowed w (world_after (prvPublishTopic t f a w)).
Proof.
  intros Ht.
  destruct (prvPublishTopic_cases t f a w)
    as [[_ E]|[(_ & _ & E)|(ti & w' & _ & Hl & E & F)]];
    rewrite E; cbn [world_after]; try apply reports_within_refl.
  destruct F as (Fs & _ & _ & _ & _ & _ & _ & _ & Fm & _).
  cbn in Fs, Fm.
  exists [mkPublication ti f a]. split; [exact Fm|].
  intros H. rewrite Fs. split; [exact H|].
  constructor; [|constructor]. cbn.
  destruct (GetTopicInfo_loop_first _ _ _ Hl) as [-> _]. auto.
Qed.

Lemma reports_within_publish (t : TOPIC) (f : string) (a : list Arg) :
  allowed t f a ->
  preserves (reports_within T allowed) (prvPublishTopic t f a).
Proof. intros H w. apply reports_within_publish_on. auto. Qed.

Lemma reports_within_MAY_DIE A (code : M A) :
  preserves (reports_within T allowed) code ->
  preserves (reports_within T allowed) (MAY_DIE code).
Proof.
  intros Hc. unfold MAY_DIE.
  apply (preserves_bind _ reports_within_trans); [exact Hc|].
  intros a w. unfold bind at 1, get_sys.
  destruct (rc (sys w) =? XST_SUCCESS) eqn:Hrc; cbn [negb];
    [apply reports_within_refl|].
  apply Z.eqb_neq in Hrc.
  assert (P : reports_within T allowed w
                (world_after (prvPublishTopic (eTopic (sys w))
                   (pcErr (sys w)) [ArgInt (rc (sys w))] w))).
  { apply reports_within_publish_on. intros ->. apply T_allowed, Hrc. }
  unfold bind, StopHere, ret, goto_L_DIE.
  destruct (prvPublishTopic _ _ _ w); exact P.
Qed.

End Reports.

Lemma publication_of_error (d : Sensor) (f : string) (code : Z) :
  code <> XST_SUCCESS -> publication_of d (status_topic d) f [ArgInt code].
Proof. intros H. left. split; [reflexivity|]. exists code. auto. Qed.

Lemma publication_of_status (d : Sensor) (f : string) :
  In f (status_texts d) -> publication_of d (status_topic d) f [].
Proof. intros H. right. left. auto. Qed.

Ltac reports_field :=
  solve [ unfold preserves; intros; exists []; split;
          [cbn; now rewrite app_nil_r|];
          cbn; intros ?H; split; [first [exact H|assumption]|constructor] ].

Ltac by_reports_operation d :=
  first
    [ apply preserves_StartBarometer
        with (allowed := publication_of d) (status := fun t => t = status_topic d)
    | apply preserves_StopBarometer with (status := fun t => t = status_topic d)
    | apply preserves_SampleBarometer
        with (allowed := publication_of d) (status := fun t => t = status_topic d)
    | apply preserves_StartHygrometer
        with (allowed := publication_of d) (status := fun t => t = status_topic d)
    | apply preserves_StopHygrometer with (status := fun t => t = status_topic d)
    | apply preserves_SampleHygrometer
        with (allowed := publication_of d) (status := fun t => t = status_topic d)
    | apply preserves_StartPLTempSensor
        with (allowed := publication_of d) (status := fun t => t = status_topic d)
    | apply preserves_StopPLTempSensor with (status := fun t => t = status_topic d)
    | apply preserves_SamplePLTempSensor
        with (allowed := publication_of d) (status := fun t => t = status_topic d) ];
  first [ exact (reports_within_refl (status_topic d) (publication_of d))
        | exact (reports_within_trans (status_topic d) (publication_of d))
        | exact (reports_within_MAY_DIE (status_topic d) (publication_of d)
                   (publication_of_error d))
        | exact (reports_within_publish (status_topic d) (publication_of d))
        | reflexivity
        | (apply (publication_of_status d); cbn; tauto)
        | (intros ?f ?H; apply (publication_of_status d); cbn in *; tauto)
        | (intros ?raw; right; right; cbn; eauto 8)
        | (right; right; cbn; eauto 8)
        | reports_field ].

Lemma reports_within_run (fuel : nat) (op : Operation) :
  preserves (reports_within (status_topic (sensor_of op))
               (publication_of (sensor_of op))) (run fuel op).
Proof.
  destruct op as [[]|[]|[]]; cbn [run stop_of sensor_of].
  - by_reports_operation Barometer.
  - by_reports_operation Thermocouple.
  - by_reports_operation Hygrometer.
  - by_reports_operation Barometer.
  - by_reports_operation Thermocouple.
  - by_reports_operation Hygrometer.
  - by_reports_operation Barometer.
  - by_reports_operation Thermocouple.
  - by_reports_operation Hygrometer.
Qed.

(** Every operation begins by setting the reporting topic. *)
Lemma run_sets_topic_first (fuel : nat) (op : Operation) (w : World) :
  run fuel op w
  = run fuel op (with_sys (set_eTopic (status_topic (sensor_of op))) w).
Proof.
  destruct op as [[]|[]|[]]; reflexivity.
Qed.

(* ================================================================== *)
(** * Single steps on an arbitrary world *)
(* ================================================================== *)

Lemma L_DIE_Goto (body : M unit) (w w1 : World) :
  body w = Goto_L_DIE w1 -> L_DIE body w = Normal tt w1.
Proof. intros E. unfold L_DIE. now rewrite E. Qed.

Lemma L_DIE_Normal (body : M unit) (w w1 : World) (u : unit) :
  body w = Normal u w1 -> L_DIE body w = Normal tt w1.
Proof. intros E. unfold L_DIE. now rewrite E. Qed.

Lemma MS_TO_TICKS_1 (w : World) : MS_TO_TICKS 1 w = Normal (one_ms w) w.
Proof.
  unfold MS_TO_TICKS, one_ms. f_equal.
  destruct (Z.ltb_spec (pdMS_TO_TICKS (configTICK_RATE_HZ w) 1) 1); lia.
Qed.

Lemma BlinkLed_loop_flashes (n : nat) (t : Z) (w : World) :
  BlinkLed_loop n t w
  = Normal tt
      (with_now (now w + 2 * Z.of_nat n * t)
         (with_gpio (gpio_log w ++ flashes n) w)).
Proof.
  revert w. induction n as [|n IH]; intros w.
  - cbn [BlinkLed_loop flashes]. unfold ret. destruct w. cbn.
    now rewrite app_nil_r, Z.add_0_r.
  - cbn [BlinkLed_loop flashes]. unfold bind, XGpioPs_WritePin, vTaskDelay.
    rewrite IH. destruct w as [s tt0 ii il ib mi ml si sl gl hz nw].
    cbv [with_now with_gpio sys pTopicInfo iic_in iic_log iic_buf mqtt_in
         mqtt_log spi_in spi_log gpio_log configTICK_RATE_HZ now].
    f_equal. f_equal.
    + rewrite <- !app_assoc. reflexivity.
    + lia.
Qed.

(** The one flash after a publication that the broker did not accept. *)
Lemma BlinkLed_once (w : World) :
  exists w',
    BlinkLed 1 pdFALSE w = Normal tt w' /\
    indicator_frame w w' /\
    gpio_log w' = gpio_log w ++
      (if gpio_IsReady (sys w) then flashes 1 else []).
Proof.
  unfold BlinkLed, bind, MS_TO_TICKS, get_sys.
  destruct (gpio_IsReady (sys w)); cbn [negb].
  - change (Z.to_nat 1) with 1%nat. rewrite BlinkLed_loop_flashes.
    eexists. split; [reflexivity|].
    split; [unfold indicator_frame; cbn; intuition reflexivity|].
    cbn. rewrite ?app_nil_r. reflexivity.
  - exists w. split; [reflexivity|]. split; [apply indicator_frame_refl|].
    now rewrite app_nil_r.
Qed.

(** The entry as [InitTopicInfo] leaves it. *)
Lemma InitTopicInfo_loop_returns (pTI pre : list TopicInfo) :
  before_sentinel pTI = Some pre -> Forall named pre ->
  fst (InitTopicInfo_loop pTI) = None /\
  InitTopicInfo_loop (snd (InitTopicInfo_loop pTI))
  = (None, snd (InitTopicInfo_loop pTI)) /\
  forall e,
    GetTopicInfo_loop (snd (InitTopicInfo_loop pTI)) e
    = match GetTopicInfo_loop pTI e with
      | Some ti =>
          match pbName ti with
          | Some s => Some (mkTopicInfo (tiTopic ti) (Some s)
                              (strlen s mod 2 ^ 16))
          | None => None
          end
      | None => None
      end.
Proof.
  revert pre. induction pTI as [|x rest IH]; intros pre Hb Hn;
    [discriminate|].
  cbn [before_sentinel] in Hb. cbn [InitTopicInfo_loop GetTopicInfo_loop].
  destruct (TOPIC_eqb TOPIC_LAST (tiTopic x)) eqn:El.
  - cbn [fst snd InitTopicInfo_loop GetTopicInfo_loop]. rewrite El.
    repeat split.
  - destruct (before_sentinel rest) as [pre'|] eqn:Hr; [|discriminate].
    cbn [option_map] in Hb. injection Hb as <-.
    apply Forall_cons_iff in Hn as [Hx Hn].
    destruct (IH pre' eq_refl Hn) as (F & I & G).
    destruct (pbName x) as [name|] eqn:Ex; [|now elim Hx].
    destruct (InitTopicInfo_loop rest) as [f rest'] eqn:Er.
    cbn [fst snd] in *. subst f.
    split; [reflexivity|]. split.
    + cbn [InitTopicInfo_loop tiTopic pbName]. rewrite El, I. reflexivity.
    + intros e. cbn [GetTopicInfo_loop tiTopic]. rewrite El.
      destruct (TOPIC_eqb (tiTopic x) e); [now rewrite Ex|apply G].
Qed.

(** A null name before the sentinel ends the loop at [strlen]. *)
Lemma InitTopicInfo_loop_null_name (pTI pre : list TopicInfo) :
  before_sentinel pTI = Some pre -> ~ Forall named pre ->
  fst (InitTopicInfo_loop pTI) = Some NullDereference.
Proof.
  revert pre. induction pTI as [|x rest IH]; intros pre Hb Hn;
    [discriminate|].
  cbn [before_sentinel] in Hb. cbn [InitTopicInfo_loop].
  destruct (TOPIC_eqb TOPIC_LAST (tiTopic x)) eqn:El.
  - injection Hb as <-. elim Hn. constructor.
  - destruct (before_sentinel rest) as [pre'|] eqn:Hr; [|discriminate].
    cbn [option_map] in Hb. injection Hb as <-.
    destruct (pbName x) as [name|] eqn:Ex; [|reflexivity].
    destruct (InitTopicInfo_loop rest) as [f rest'] eqn:Er.
    cbn [fst] in *. apply (IH pre' eq_refl). intros H. apply Hn. constructor; [|exact H].
    unfold named. now rewrite Ex.
Qed.

(** Without a sentinel the loop ends in a fault: at the first null name,
    or past the end of the table. *)
Lemma InitTopicInfo_loop_no_sentinel (pTI : list TopicInfo) :
  before_sentinel pTI = None ->
  (Forall named pTI -> fst (InitTopicInfo_loop pTI) = Some BufferOverrun) /\
  (~ Forall named pTI -> fst (InitTopicInfo_loop pTI) = Some NullDereference).
Proof.
  induction pTI as [|x rest IH]; intros Hb.
  - split; [reflexivity|]. intros H. elim H. constructor.
  - cbn [before_sentinel] in Hb. cbn [InitTopicInfo_loop].
    destruct (TOPIC_eqb TOPIC_LAST (tiTopic x)) eqn:El; [discriminate|].
    destruct (before_sentinel rest) as [pre'|] eqn:Hr; [discriminate|].
    destruct (IH eq_refl) as [IHa IHb].
    destruct (pbName x) as [name|] eqn:Ex.
    + destruct (InitTopicInfo_loop rest) as [f rest'] eqn:Er.
      cbn [fst] in *. split.
      * intros H. apply Forall_cons_iff in H as [_ H]. now apply IHa.
      * intros H. apply IHb. intros H'. apply H. constructor; [|exact H'].
        unfold named. now rewrite Ex.
    + split; [|reflexivity].
      intros H. apply Forall_cons_iff in H as [H _]. now elim H.
Qed.

(** A pattern of [n] bits read in two's complement is within the range of
    an [n]-bit integer and has the pattern as its low [n] bits. *)
Lemma sign_extend_range (n x : Z) :
  0 < n -> 0 <= x < 2 ^ n ->
  - 2 ^ (n - 1) <= sign_extend n x < 2 ^ (n - 1) /\
  sign_extend n x mod 2 ^ n = x.
Proof.
  intros Hn Hx. unfold sign_extend.
  assert (Hp : 2 ^ n = 2 * 2 ^ (n - 1)).
  { replace n with (Z.succ (n - 1)) at 1 by lia. apply Z.pow_succ_r. lia. }
  rewrite (testbit_top x (n - 1)) by (replace (n - 1 + 1) with n; lia).
  destruct (Z.leb_spec (2 ^ (n - 1)) x) as [H|H].
  - split; [lia|].
    replace (x - 2 ^ n) with (x + (-1) * 2 ^ n) by lia.
    rewrite Z_mod_plus_full. apply Z.mod_small. lia.
  - split; [lia|]. apply Z.mod_small. lia.
Qed.

(** ** The register layer and the poll loops *)

Lemma ReadIicRegs_reads (addr n reg : Z) (buf d : list Z)
    (rest : list IicReply) (w : World) :
  rc (sys w) = XST_SUCCESS ->
  iic_in w = sent 1 :: mkIicReply n d :: rest ->
  ReadIicRegs addr n reg buf w
  = Normal (XST_SUCCESS, d)
      (with_iic_buf d
         (with_iic rest
            (iic_log w ++ [IicSend addr [first_register n reg]
                             XIIC_REPEATED_START;
                           IicRecv addr n XIIC_STOP]) w)).
Proof.
  intros Hrc Hin.
  destruct w as [s tt0 ii il ib mi ml si sl gl hz nw].
  cbn in Hrc, Hin. subst ii.
  unfold ReadIicRegs. fold (first_register n reg).
  unfold L_DIE, MAY_DIE, bind, XIic_Send, XIic_Recv,
    when, get_sys, modify_sys, ret.
  repeat first [ rewrite Hrc | rewrite Z.eqb_refl
               | progress change (1 =? 1) with true
               | progress change (0 =? 0) with true
               | progress cbn -[first_register Z.eqb] ].
  rewrite <- app_assoc. reflexivity.
Qed.

Lemma WriteIicReg_writes (addr reg v : Z) (rest : list IicReply) (w : World) :
  rc (sys w) = XST_SUCCESS ->
  iic_in w = sent 2 :: rest ->
  WriteIicReg addr reg v w
  = Normal XST_SUCCESS
      (with_iic rest (iic_log w ++ [IicSend addr [reg; v] XIIC_STOP]) w).
Proof.
  intros Hrc Hin.
  destruct w as [s tt0 ii il ib mi ml si sl gl hz nw].
  cbn in Hrc, Hin. subst ii.
  unfold WriteIicReg, WriteIicRegs, L_DIE, MAY_DIE, bind, XIic_Send,
    when, get_sys, modify_sys, ret.
  cbn. rewrite Hrc. cbn. rewrite Hrc. reflexivity.
Qed.

Section Polls.

Variables (addr reg : Z) (text : string) (mask xOneMs : Z).

Let body := register_poll addr reg text mask xOneMs.

Lemma register_poll_again (b v : Z) (rest : list IicReply) (w : World) :
  rc (sys w) = XST_SUCCESS ->
  iic_in w = reg_read v ++ rest ->
  Z.land v mask <> 0 ->
  body b w
  = Normal (false, v)
      (with_now (now w + xOneMs)
         (with_sys (set_pcErr text)
            (with_iic_buf [v]
               (with_iic rest
                  (iic_log w ++ register_reads addr reg 1) w)))).
Proof.
  intros Hrc Hin Hv. unfold body, register_poll.
  assert (E : (r <- ReadIicReg addr reg [b] ;;
               modify_sys (set_pcErr text) ;; ret (nth 0 (snd r) 0)) w
              = Normal v
                  (with_sys (set_pcErr text)
                     (with_iic_buf [v]
                        (with_iic rest
                           (iic_log w ++ register_reads addr reg 1) w)))).
  { unfold ReadIicReg.
    rewrite (bind_Normal _ _ _ _ _
               (ReadIicRegs_reads addr 1 reg [b] [v] rest w Hrc Hin)).
    reflexivity. }
  rewrite (bind_Normal _ _ _ _ _ (MAY_DIE_passes _ _ _ _ E Hrc)).
  replace (0 =? Z.land v mask) with false
    by (symmetry; apply Z.eqb_neq; congruence).
  reflexivity.
Qed.

Lemma register_poll_done (b v : Z) (rest : list IicReply) (w : World) :
  rc (sys w) = XST_SUCCESS ->
  iic_in w = reg_read v ++ rest ->
  Z.land v mask = 0 ->
  body b w
  = Normal (true, v)
      (with_sys (set_pcErr text)
         (with_iic_buf [v]
            (with_iic rest
               (iic_log w ++ register_reads addr reg 1) w))).
Proof.
  intros Hrc Hin Hv. unfold body, register_poll.
  assert (E : (r <- ReadIicReg addr reg [b] ;;
               modify_sys (set_pcErr text) ;; ret (nth 0 (snd r) 0)) w
              = Normal v
                  (with_sys (set_pcErr text)
                     (with_iic_buf [v]
                        (with_iic rest
                           (iic_log w ++ register_reads addr reg 1) w)))).
  { unfold ReadIicReg.
    rewrite (bind_Normal _ _ _ _ _
               (ReadIicRegs_reads addr 1 reg [b] [v] rest w Hrc Hin)).
    reflexivity. }
  rewrite (bind_Normal _ _ _ _ _ (MAY_DIE_passes _ _ _ _ E Hrc)).
  rewrite Hv. reflexivity.
Qed.

Lemma register_reads_app (j k : nat) :
  register_reads addr reg j ++ register_reads addr reg k
  = register_reads addr reg (j + k).
Proof. induction j; cbn; [reflexivity|now rewrite IHj]. Qed.

(** [k] polls that find a bit of the mask set. *)
Lemma register_poll_rounds (k : nat) (b v : Z) (rest : list IicReply)
    (w : World) :
  rc (sys w) = XST_SUCCESS ->
  iic_in w = polls k v ++ rest ->
  Z.land v mask <> 0 ->
  exists b' w',
    rounds body k b w b' w' /\
    bus_frame w w' /\
    iic_in w' = rest /\
    iic_log w' = iic_log w ++ register_reads addr reg k /\
    now w' = now w + Z.of_nat k * xOneMs.
Proof.
  intros Hrc Hin Hv. revert b w Hrc Hin.
  induction k as [|k IH]; intros b w Hrc Hin.
  - exists b, w. split; [constructor|].
    cbn in Hin. cbn. rewrite app_nil_r.
    repeat split; try assumption; lia.
  - cbn [polls] in Hin. rewrite <- app_assoc in Hin.
    pose proof (register_poll_again b v _ w Hrc Hin Hv) as E.
    set (w1 := with_now _ _) in E.
    destruct (IH v w1) as (b' & w' & R & F & Hi & Hl & Hn);
      [exact Hrc|reflexivity|].
    exists b', w'. split; [econstructor; eassumption|].
    destruct F as (F1 & F2 & F3 & F4 & F5 & F6 & F7 & F8 & F9 & F10 & F11).
    split; [repeat split; assumption|].
    split; [exact Hi|]. split.
    + rewrite Hl. cbn [iic_log w1 with_now with_sys with_iic_buf with_iic].
      rewrite <- app_assoc, register_reads_app. reflexivity.
    + rewrite Hn. cbn [now w1 with_now]. lia.
Qed.

(** The loop when the bits read as cleared in poll [k + 1] of [n]. *)
Lemma register_poll_loop (n k : nat) (b v c : Z) (rest : list IicReply)
    (w : World) :
  rc (sys w) = XST_SUCCESS ->
  iic_in w = polls k v ++ reg_read c ++ rest ->
  Z.land v mask <> 0 -> Z.land c mask = 0 ->
  (k < n)%nat ->
  exists w',
    for_countdown n body b w
    = Normal (Z.of_nat n - Z.of_nat k - 1, c) w' /\
    bus_frame w w' /\
    iic_in w' = rest /\
    iic_log w' = iic_log w ++ register_reads addr reg (S k) /\
    now w' = now w + Z.of_nat k * xOneMs.
Proof.
  intros Hrc Hin Hv Hc Hk.
  destruct (register_poll_rounds k b v _ w Hrc Hin Hv)
    as (b' & w1 & R & F & Hi & Hl & Hn).
  destruct F as (F1 & F2 & F3 & F4 & F5 & F6 & F7 & F8 & F9 & F10 & F11).
  assert (Hrc1 : rc (sys w1) = XST_SUCCESS) by congruence.
  pose proof (register_poll_done b' c rest w1 Hrc1 Hi Hc) as E.
  set (w2 := with_sys _ _) in E.
  exists w2. split; [exact (for_countdown_break body k n b b' c w w1 w2 R E Hk)|].
  split; [repeat split; assumption|].
  split; [reflexivity|]. split.
  - cbn [iic_log w2 with_now with_sys with_iic_buf with_iic].
    rewrite Hl, <- app_assoc, register_reads_app.
    replace (k + 1)%nat with (S k) by lia. reflexivity.
  - exact Hn.
Qed.

End Polls.

Section BlockPolls.

Variables (addr n reg : Z) (text : string) (mask xOneMs : Z).
Hypothesis several : (n >? 1) = true.

Let body := block_poll addr n reg text mask xOneMs.

Lemma block_reads_app (j k : nat) :
  block_reads addr n reg j ++ block_reads addr n reg k
  = block_reads addr n reg (j + k).
Proof. induction j; cbn; [reflexivity|now rewrite IHj]. Qed.

Lemma block_poll_read (buf d : list Z) (rest : list IicReply) (w : World) :
  rc (sys w) = XST_SUCCESS ->
  iic_in w = sent 1 :: mkIicReply n d :: rest ->
  MAY_DIE (r <- ReadIicRegs addr n reg buf ;;
           modify_sys (set_pcErr text) ;; ret (snd r)) w
  = Normal d
      (with_sys (set_pcErr text)
         (with_iic_buf d
            (with_iic rest (iic_log w ++ block_reads addr n reg 1) w))).
Proof.
  intros Hrc Hin.
  apply MAY_DIE_passes; [|exact Hrc].
  rewrite (bind_Normal _ _ _ _ _
             (ReadIicRegs_reads addr n reg buf d rest w Hrc Hin)).
  unfold first_register. rewrite several. reflexivity.
Qed.

Lemma block_poll_again (buf d : list Z) (rest : list IicReply)
    (w : World) :
  rc (sys w) = XST_SUCCESS ->
  iic_in w = sent 1 :: mkIicReply n d :: rest ->
  Z.land (nth 0 d 0) mask <> mask ->
  body buf w
  = Normal (false, d)
      (with_now (now w + xOneMs)
         (with_sys (set_pcErr text)
            (with_iic_buf d
               (with_iic rest
                  (iic_log w ++ block_reads addr n reg 1) w)))).
Proof.
  intros Hrc Hin Hd. unfold body, block_poll.
  rewrite (bind_Normal _ _ _ _ _ (block_poll_read buf d rest w Hrc Hin)).
  replace (mask =? Z.land (nth 0 d 0) mask) with false
    by (symmetry; apply Z.eqb_neq; congruence).
  reflexivity.
Qed.

Lemma block_poll_done (buf d : list Z) (rest : list IicReply) (w : World) :
  rc (sys w) = XST_SUCCESS ->
  iic_in w = sent 1 :: mkIicReply n d :: rest ->
  Z.land (nth 0 d 0) mask = mask ->
  body buf w
  = Normal (true, d)
      (with_sys (set_pcErr text)
         (with_iic_buf d
            (with_iic rest
               (iic_log w ++ block_reads addr n reg 1) w))).
Proof.
  intros Hrc Hin Hd. unfold body, block_poll.
  rewrite (bind_Normal _ _ _ _ _ (block_poll_read buf d rest w Hrc Hin)).
  rewrite Hd, Z.eqb_refl. reflexivity.
Qed.

(** [k] reads of the block that find a bit of the mask cleared. *)
Lemma block_poll_rounds (k : nat) (buf d : list Z) (rest : list IicReply)
    (w : World) :
  rc (sys w) = XST_SUCCESS ->
  Z.of_nat (List.length d) = n ->
  iic_in w = block_polls k d ++ rest ->
  Z.land (nth 0 d 0) mask <> mask ->
  exists buf' w',
    rounds body k buf w buf' w' /\
    bus_frame w w' /\
    iic_in w' = rest /\
    iic_log w' = iic_log w ++ block_reads addr n reg k /\
    now w' = now w + Z.of_nat k * xOneMs.
Proof.
  intros Hrc Hlen Hin Hd. revert buf w Hrc Hin.
  induction k as [|k IH]; intros buf w Hrc Hin.
  - exists buf, w. split; [constructor|].
    cbn in Hin. cbn. rewrite app_nil_r.
    repeat split; try assumption; lia.
  - cbn [block_polls] in Hin. rewrite <- app_assoc in Hin.
    unfold block_read in Hin. rewrite Hlen in Hin. cbn [app] in Hin.
    pose proof (block_poll_again buf d _ w Hrc Hin Hd) as E.
    set (w1 := with_now _ _) in E.
    destruct (IH d w1) as (b' & w' & R & F & Hi & Hl & Hn);
      [exact Hrc|reflexivity|].
    exists b', w'. split; [econstructor; eassumption|].
    destruct F as (F1 & F2 & F3 & F4 & F5 & F6 & F7 & F8 & F9 & F10 & F11).
    split; [repeat split; assumption|].
    split; [exact Hi|]. split.
    + rewrite Hl. cbn [iic_log w1 with_now with_sys with_iic_buf with_iic].
      rewrite <- app_assoc, block_reads_app. reflexivity.
    + rewrite Hn. cbn [now w1 with_now]. lia.
Qed.

(** The loop when read [k + 1] of [n'] finds the bits of the mask set. *)
Lemma block_poll_loop (n' k : nat) (buf d ready : list Z)
    (rest : list IicReply) (w : World) :
  rc (sys w) = XST_SUCCESS ->
  Z.of_nat (List.length d) = n -> Z.of_nat (List.length ready) = n ->
  iic_in w = block_polls k d ++ block_read ready ++ rest ->
  Z.land (nth 0 d 0) mask <> mask ->
  Z.land (nth 0 ready 0) mask = mask ->
  (k < n')%nat ->
  exists w',
    for_countdown n' body buf w
    = Normal (Z.of_nat n' - Z.of_nat k - 1, ready) w' /\
    bus_frame w w' /\
    iic_in w' = rest /\
    iic_log w' = iic_log w ++ block_reads addr n reg (S k) /\
    now w' = now w + Z.of_nat k * xOneMs.
Proof.
  intros Hrc Hld Hlr Hin Hd Hr Hk.
  destruct (block_poll_rounds k buf d _ w Hrc Hld Hin Hd)
    as (b' & w1 & R & F & Hi & Hl & Hn).
  destruct F as (F1 & F2 & F3 & F4 & F5 & F6 & F7 & F8 & F9 & F10 & F11).
  assert (Hrc1 : rc (sys w1) = XST_SUCCESS) by congruence.
  unfold block_read in Hi. rewrite Hlr in Hi. cbn [app] in Hi.
  pose proof (block_poll_done b' ready rest w1 Hrc1 Hi Hr) as E.
  set (w2 := with_sys _ _) in E.
  exists w2.
  split; [exact (for_countdown_break body k n' buf b' ready w w1 w2 R E Hk)|].
  split; [repeat split; assumption|].
  split; [reflexivity|]. split.
  - cbn [iic_log w2 with_now with_sys with_iic_buf with_iic].
    rewrite Hl, <- app_assoc, block_reads_app.
    replace (k + 1)%nat with (S k) by lia. reflexivity.
  - exact Hn.
Qed.

End BlockPolls.

Lemma read_step (addr reg v b : Z) (text : string) (rest : list IicReply)
    (w : World) :
  rc (sys w) = XST_SUCCESS ->
  iic_in w = reg_read v ++ rest ->
  MAY_DIE (r <- ReadIicReg addr reg [b] ;;
           modify_sys (set_pcErr text) ;; ret (nth 0 (snd r) 0)) w
  = Normal v
      (with_sys (set_pcErr text)
         (with_iic_buf [v]
            (with_iic rest (iic_log w ++ register_reads addr reg 1) w))).
Proof.
  intros Hrc Hin. apply MAY_DIE_passes; [|exact Hrc].
  unfold ReadIicReg.
  rewrite (bind_Normal _ _ _ _ _
             (ReadIicRegs_reads addr 1 reg [b] [v] rest w Hrc Hin)).
  reflexivity.
Qed.

Lemma write_step (addr reg v : Z) (text : string) (rest : list IicReply)
    (w : World) :
  rc (sys w) = XST_SUCCESS ->
  iic_in w = sent 2 :: rest ->
  MAY_DIE (WriteIicReg addr reg v ;; modify_sys (set_pcErr text)) w
  = Normal tt
      (with_sys (set_pcErr text)
         (with_iic rest (iic_log w ++ [IicSend addr [reg; v] XIIC_STOP]) w)).
Proof.
  intros Hrc Hin. apply MAY_DIE_passes; [|exact Hrc].
  rewrite (bind_Normal _ _ _ _ _ (WriteIicReg_writes addr reg v rest w Hrc Hin)).
  reflexivity.
Qed.

(** A register write that is entered with a result code left by an
    earlier failure: the transfer goes out, the old code is reported with
    the old text and returned. *)
Lemma WriteIicReg_with_a_stale_code (addr reg v h : Z)
    (rest : list IicReply) (w : World) :
  rc (sys w) <> XST_SUCCESS ->
  xMQTTHandle (sys w) = Some h -> pTopicInfo w = topic_table ->
  eTopic (sys w) <> TOPIC_LAST ->
  iic_in w = sent 2 :: rest ->
  exists w',
    WriteIicReg addr reg v w = Normal (rc (sys w)) w' /\
    sys w' = sys w /\ pTopicInfo w' = pTopicInfo w /\
    iic_in w' = rest /\
    iic_log w' = iic_log w ++ [IicSend addr [reg; v] XIIC_STOP] /\
    published w' = published w ++
      [(eTopic (sys w), pcErr (sys w), [ArgInt (rc (sys w))])].
Proof.
  intros Hrc Hh Ht He Hin.
  unfold WriteIicReg. unfold bind at 1. unfold WriteIicRegs.
  change (2 >? 2) with false. cbv iota.
  unfold bind at 1. unfold ret at 1. unfold bind at 1.
  set (c := bind (XIic_Send addr [reg; v] 2 XIIC_STOP) _).
  pose (w1 := with_iic rest (iic_log w ++ [IicSend addr [reg; v] XIIC_STOP]) w).
  assert (E1 : c w = Normal tt w1).
  { unfold c, bind, XIic_Send, when. rewrite Hin. reflexivity. }
  destruct (MAY_DIE_reports c w w1 tt h E1 Hrc Hh Ht He)
    as (w2 & E2 & D & P).
  exists w2.
  rewrite (L_DIE_Goto _ w w2 E2).
  destruct D as (Ds & Dt & Di & Dl & _).
  cbn. rewrite Ds, Dt, Di, Dl. repeat split. exact P.
Qed.

(** ** The SPI transfer *)

Lemma with_spi_with_spi (i i' : list Z) (l l' : list SpiOp) (w : World) :
  with_spi i l (with_spi i' l' w) = with_spi i l w.
Proof. reflexivity. Qed.

(** The wait for the transmit FIFO: [busy] are the status words that show
    it not empty, [s] is the first that shows it empty. *)
Lemma XSpi_wait_tx_empty_ends (busy : list Z) (s : Z) (rest : list Z)
    (fuel : nat) (w : World) :
  Forall (fun v => Z.land (to_u32 v) XSP_SR_TX_EMPTY_MASK = 0) busy ->
  Z.land (to_u32 s) XSP_SR_TX_EMPTY_MASK <> 0 ->
  (List.length busy < fuel)%nat ->
  spi_in w = busy ++ s :: rest ->
  XSpi_wait_tx_empty fuel w
  = Normal tt
      (with_spi rest
         (spi_log w ++ repeat (SpiRead XSP_SR_OFFSET) (S (List.length busy)))
         w).
Proof.
  intros Hb Hs. revert fuel w.
  induction Hb as [|v busy Hv _ IH]; intros fuel w Hf Hin;
    (destruct fuel as [|fuel]; [cbn in Hf; lia|]);
    cbn [XSpi_wait_tx_empty]; unfold bind, XSpi_ReadReg; rewrite Hin;
    cbn [app hd tl List.length].
  - apply Z.eqb_neq in Hs. rewrite Hs. reflexivity.
  - rewrite Hv. cbn [Z.eqb].
    rewrite (IH fuel) with (w := with_spi (busy ++ s :: rest)
                                   (spi_log w ++ [SpiRead XSP_SR_OFFSET]) w);
      [|cbn in Hf; lia|reflexivity].
    cbn [spi_log with_spi]. rewrite with_spi_with_spi, <- app_assoc.
    reflexivity.
Qed.

(** The wait for the receive FIFO occupancy. *)
Lemma XSpi_wait_occupancy_ends (other : list Z) (n : Z) (rest : list Z)
    (fuel : nat) (w : World) :
  Forall (fun v => to_u32 v <> to_u32 n) other ->
  (List.length other < fuel)%nat ->
  spi_in w = other ++ n :: rest ->
  XSpi_wait_occupancy fuel n w
  = Normal tt
      (with_spi rest
         (spi_log w ++ repeat (SpiRead XSP_RFO_OFFSET) (S (List.length other)))
         w).
Proof.
  intros Ho. revert fuel w.
  induction Ho as [|v other Hv _ IH]; intros fuel w Hf Hin;
    (destruct fuel as [|fuel]; [cbn in Hf; lia|]);
    cbn [XSpi_wait_occupancy]; unfold bind, XSpi_ReadReg; rewrite Hin;
    cbn [app hd tl List.length].
  - rewrite Z.eqb_refl. reflexivity.
  - replace (to_u32 n =? to_u32 v) with false
      by (symmetry; apply Z.eqb_neq; congruence).
    cbn [negb].
    rewrite (IH fuel) with (w := with_spi (other ++ n :: rest)
                                   (spi_log w ++ [SpiRead XSP_RFO_OFFSET]) w);
      [|cbn in Hf; lia|reflexivity].
    cbn [spi_log with_spi]. rewrite with_spi_with_spi, <- app_assoc.
    reflexivity.
Qed.

Lemma store_inside (l : list Z) (i : nat) (v : Z) :
  (i < List.length l)%nat ->
  store l i v = Some (firstn i l ++ v :: skipn (S i) l).
Proof.
  revert i. induction l as [|x l IH]; intros i Hi; [cbn in Hi; lia|].
  destruct i as [|i]; [reflexivity|].
  cbn [store]. rewrite IH by (cbn in Hi; lia). reflexivity.
Qed.

Lemma store_outside (l : list Z) (i : nat) (v : Z) :
  (List.length l <= i)%nat -> store l i v = None.
Proof.
  revert i. induction l as [|x l IH]; intros i Hi; [reflexivity|].
  destruct i as [|i]; [cbn in Hi; lia|].
  cbn [store]. rewrite IH by (cbn in Hi; lia). reflexivity.
Qed.

Lemma store_length (l l' : list Z) (i : nat) (v : Z) :
  store l i v = Some l' -> List.length l' = List.length l.
Proof.
  revert i l'. induction l as [|x l IH]; intros i l' H; [discriminate|].
  destruct i as [|i]; cbn [store] in H.
  - inversion H. reflexivity.
  - destruct (store l i v) eqn:E; [|discriminate]. inversion H.
    cbn. f_equal. eapply IH, E.
Qed.

(** The array after the words were stored from position [k] on. *)
Lemma firstn_store (l : list Z) (k : nat) (v : Z) (words : list Z) :
  (k < List.length l)%nat ->
  firstn (S k) (firstn k l ++ v :: skipn (S k) l) ++ words
  = firstn k l ++ v :: words.
Proof.
  intros Hk.
  assert (Hl : List.length (firstn k l) = k) by (rewrite length_firstn; lia).
  rewrite firstn_app, Hl.
  replace (S k - k)%nat with 1%nat by lia.
  rewrite firstn_all2 by lia. cbn [firstn]. now rewrite <- app_assoc.
Qed.

Lemma skipn_store (l : list Z) (k n : nat) (v : Z) :
  (k < List.length l)%nat ->
  skipn (S k + n) (firstn k l ++ v :: skipn (S k) l) = skipn (k + S n) l.
Proof.
  intros Hk.
  assert (Hl : List.length (firstn k l) = k) by (rewrite length_firstn; lia).
  rewrite skipn_app, Hl.
  rewrite skipn_all2 by lia.
  replace (S k + n - k)%nat with (S n) by lia.
  change (skipn (S n) (v :: skipn (S k) l)) with (skipn n (skipn (S k) l)).
  cbn [app]. rewrite skipn_skipn. f_equal. lia.
Qed.

Lemma XSpi_drain_rx_drains (words : list Z) (rest : list Z) (fuel : nat)
    (rx : list Z) (k : nat) (w : World) :
  (List.length words < fuel)%nat ->
  (k + List.length words <= List.length rx)%nat ->
  spi_in w = fifo words ++ rest ->
  XSpi_drain_rx fuel rx k w
  = Normal (firstn k rx ++ map to_u32 words
              ++ skipn (k + List.length words) rx,
            (k + List.length words)%nat)
      (with_spi rest (spi_log w ++ fifo_reads (List.length words)) w).
Proof.
  revert fuel rx k w.
  induction words as [|v words IH]; intros fuel rx k w Hf Hk Hin;
    (destruct fuel as [|fuel]; [cbn in Hf; lia|]);
    cbn [XSpi_drain_rx]; unfold bind at 1, XSpi_ReadReg at 1; rewrite Hin;
    cbn [fifo app hd tl List.length map fifo_reads].
  - change (Z.land (to_u32 XSP_SR_RX_EMPTY_MASK) XSP_SR_RX_EMPTY_MASK =? 0)
      with false. cbv iota. unfold ret.
    rewrite Nat.add_0_r, firstn_skipn. reflexivity.
  - change (Z.land (to_u32 0) XSP_SR_RX_EMPTY_MASK =? 0) with true.
    cbv iota. unfold bind at 1, XSpi_ReadReg at 1.
    cbn [spi_in spi_log with_spi hd tl List.length] in *.
    rewrite store_inside by lia.
    rewrite (IH fuel);
      [|lia|rewrite length_app, length_firstn; cbn [List.length];
            rewrite length_skipn; lia|reflexivity].
    cbn [spi_log with_spi]. rewrite with_spi_with_spi.
    rewrite firstn_store, skipn_store by lia.
    rewrite <- !app_assoc. cbn [app].
    replace (S k + List.length words)%nat with (k + S (List.length words))%nat
      by lia.
    reflexivity.
Qed.

Lemma XSpi_drain_rx_overruns (words : list Z) (rest : list Z) (fuel : nat)
    (rx : list Z) (k : nat) (w : World) :
  (List.length words < fuel)%nat ->
  (List.length rx < k + List.length words)%nat ->
  (k <= List.length rx)%nat ->
  spi_in w = fifo words ++ rest ->
  exists w', XSpi_drain_rx fuel rx k w = Crash BufferOverrun w'.
Proof.
  revert fuel rx k w.
  induction words as [|v words IH]; intros fuel rx k w Hf Hk Hk' Hin;
    [cbn in Hk; lia|].
  destruct fuel as [|fuel]; [cbn in Hf; lia|].
  cbn [XSpi_drain_rx]; unfold bind at 1, XSpi_ReadReg at 1; rewrite Hin.
  cbn [fifo app hd tl List.length].
  change (Z.land (to_u32 0) XSP_SR_RX_EMPTY_MASK =? 0) with true.
  cbv iota. unfold bind at 1, XSpi_ReadReg at 1.
  cbn [spi_in spi_log with_spi hd tl List.length] in *.
  destruct (Nat.eq_dec k (List.length rx)) as [Ek|Ek].
  - rewrite store_outside by lia. eexists. reflexivity.
  - rewrite store_inside by lia.
    apply IH; [lia| | |reflexivity];
      rewrite length_app, length_firstn; cbn [List.length];
      rewrite length_skipn; lia.
Qed.

Ltac world_step :=
  cbv [bind ret modify_sys MS_TO_TICKS vTaskDelay XSpi_WriteReg XSpi_fill_tx
       with_spi with_sys with_now with_mqtt with_gpio with_iic with_iic_buf
       with_topics
       sys pTopicInfo iic_in iic_log iic_buf mqtt_in mqtt_log spi_in spi_log
       gpio_log configTICK_RATE_HZ now].

(** The transfer of [SamplePLTempSensor] up to the point where the receive
    FIFO is drained. *)
Lemma SamplePLTempSensor_transfer_drain (busy other tail : list Z)
    (fuel : nat) (w : World) :
  Forall (fun v => Z.land (to_u32 v) XSP_SR_TX_EMPTY_MASK = 0) busy ->
  Forall (fun v => to_u32 v <> 3) other ->
  (List.length busy < fuel)%nat -> (List.length other < fuel)%nat ->
  spi_in w = busy ++ XSP_SR_TX_EMPTY_MASK :: other ++ 3 :: tail ->
  exists w1,
    SamplePLTempSensor_transfer fuel w
    = (r <- XSpi_drain_rx fuel
              [0xFFFFFFFF; 0xFFFFFFFF; 0xFFFFFFFF; 0xFFFFFFFF] 0 ;;
       XSpi_WriteReg XSP_CR_OFFSET MAX31855_CR_INIT_MODE ;;
       XSpi_WriteReg XSP_SSR_OFFSET PL_SPI_CHANNEL_SEL_NONE ;;
       (if negb (4 =? Z.of_nat (snd r)) then modify_sys (set_rc XST_FAILURE)
        else modify_sys (set_rc XST_SUCCESS)) ;;
       ret (fst r)) w1 /\
    spi_in w1 = tail /\
    spi_log w1 = spi_log w ++
      [SpiWrite XSP_DTR_OFFSET 0; SpiWrite XSP_DTR_OFFSET 0;
       SpiWrite XSP_DTR_OFFSET 0; SpiWrite XSP_DTR_OFFSET 0;
       SpiWrite XSP_SSR_OFFSET PL_SPI_CHANNEL_SEL_0;
       SpiWrite XSP_CR_OFFSET MAX31855_CR_UNINHIBIT_MODE]
      ++ repeat (SpiRead XSP_SR_OFFSET) (S (List.length busy))
      ++ repeat (SpiRead XSP_RFO_OFFSET) (S (List.length other)) /\
    sys w1 = set_eTopic TOPIC_THERMOCOUPLE_STATUS (sys w) /\
    pTopicInfo w1 = pTopicInfo w /\
    mqtt_log w1 = mqtt_log w /\ mqtt_in w1 = mqtt_in w /\
    iic_log w1 = iic_log w /\ iic_in w1 = iic_in w.
Proof.
  intros Hb Ho Hfb Hfo Hin.
  destruct w as [s tt0 ii il ib mi ml si sl gl hz nw].
  cbn [spi_in spi_log] in *. subst si.
  unfold SamplePLTempSensor_transfer, XSpi_LowLevelExecute.
  change (Z.to_nat 4) with 4%nat.
  world_step.
  rewrite (XSpi_wait_tx_empty_ends busy XSP_SR_TX_EMPTY_MASK
             (other ++ 3 :: tail) fuel _ Hb ltac:(vm_compute; discriminate)
             Hfb) by reflexivity.
  world_step.
  rewrite (XSpi_wait_occupancy_ends other 3 tail fuel _ Ho Hfo)
    by reflexivity.
  world_step.
  eexists. split; [reflexivity|].
  cbn. rewrite <- !app_assoc. repeat split.
Qed.

(** The transfer of [SamplePLTempSensor] on a FIFO that holds up to four
    words. *)
Lemma SamplePLTempSensor_transfer_ends
    (busy other words rest : list Z) (fuel : nat) (w : World) :
  Forall (fun v => Z.land (to_u32 v) XSP_SR_TX_EMPTY_MASK = 0) busy ->
  Forall (fun v => to_u32 v <> 3) other ->
  (List.length busy < fuel)%nat -> (List.length other < fuel)%nat ->
  (List.length words < fuel)%nat ->
  (List.length words <= 4)%nat ->
  spi_in w = spi_answers busy other words ++ rest ->
  exists w',
    SamplePLTempSensor_transfer fuel w
    = Normal (map to_u32 words ++
              skipn (List.length words)
                [0xFFFFFFFF; 0xFFFFFFFF; 0xFFFFFFFF; 0xFFFFFFFF]) w' /\
    sys w' =
      set_rc (if (List.length words =? 4)%nat then XST_SUCCESS
              else XST_FAILURE)
        (set_eTopic TOPIC_THERMOCOUPLE_STATUS (sys w)) /\
    spi_in w' = rest /\
    spi_log w' = spi_log w ++
      spi_transfer_log (S (List.length busy)) (S (List.length other))
        (List.length words) /\
    pTopicInfo w' = pTopicInfo w /\
    mqtt_log w' = mqtt_log w /\ iic_log w' = iic_log w.
Proof.
  intros Hb Ho Hfb Hfo Hfw Hw Hin.
  destruct (SamplePLTempSensor_transfer_drain busy other (fifo words ++ rest)
              fuel w Hb Ho Hfb Hfo)
    as (w1 & E & Hi & Hl & Hs & Ht & Hm & _ & Hiic & _).
  { rewrite Hin. unfold spi_answers. rewrite <- !app_assoc. cbn [app].
    rewrite <- !app_assoc. reflexivity. }
  rewrite E. clear E.
  rewrite (bind_Normal _ _ _ _ _
             (XSpi_drain_rx_drains words rest fuel
                [0xFFFFFFFF; 0xFFFFFFFF; 0xFFFFFFFF; 0xFFFFFFFF] 0 w1 Hfw
                Hw Hi)).
  cbn [fst snd Nat.add firstn app].
  assert (Hc : negb (4 =? Z.of_nat (List.length words))
               = negb (List.length words =? 4)%nat).
  { f_equal. destruct (Nat.eqb_spec (List.length words) 4) as [->|N];
      [reflexivity|apply Z.eqb_neq; lia]. }
  rewrite Hc. unfold bind, XSpi_WriteReg, modify_sys, ret.
  destruct (List.length words =? 4)%nat; cbn [negb];
    (eexists; split; [reflexivity|]);
    cbn; rewrite Hl, Hm, Hiic, Hs, Ht;
    unfold spi_transfer_log; rewrite <- !app_assoc; repeat split.
Qed.

(** The wait for the transmit FIFO has no bound. *)
Lemma XSpi_wait_tx_empty_hangs (fuel : nat) (w : World) :
  Forall (fun v => Z.land (to_u32 v) XSP_SR_TX_EMPTY_MASK = 0) (spi_in w) ->
  exists w', XSpi_wait_tx_empty fuel w = Crash Hang w' /\
             mqtt_log w' = mqtt_log w.
Proof.
  revert w. induction fuel as [|fuel IH]; intros w H.
  - eexists. split; reflexivity.
  - cbn [XSpi_wait_tx_empty]. unfold bind, XSpi_ReadReg.
    assert (Hh : Z.land (to_u32 (hd 0 (spi_in w))) XSP_SR_TX_EMPTY_MASK = 0).
    { destruct H; [reflexivity|assumption]. }
    rewrite Hh. cbn [Z.eqb].
    destruct (IH (with_spi (tl (spi_in w))
                    (spi_log w ++ [SpiRead XSP_SR_OFFSET]) w)) as (w' & E & L).
    { cbn [spi_in with_spi]. destruct H; [constructor|assumption]. }
    exists w'. split; [exact E|exact L].
Qed.

(* ================================================================== *)
(** * What never faults *)
(* ================================================================== *)

Lemma knows_all_topics_lookup (pTI : list TopicInfo) (t : TOPIC) :
  knows_all_topics pTI = true -> t <> TOPIC_LAST ->
  exists ti, GetTopicInfo_loop pTI t = Some ti.
Proof.
  unfold knows_all_topics, all_topics. cbn [forallb]. intros H Ht.
  repeat (apply andb_prop in H; destruct H as [?H H]).
  destruct t; try contradiction;
    match goal with
    | H : match GetTopicInfo_loop pTI ?x with _ => _ end = true
      |- exists ti, GetTopicInfo_loop pTI ?x = Some ti =>
        destruct (GetTopicInfo_loop pTI x) as [ti|];
        [now exists ti|discriminate H]
    end.
Qed.

Lemma never_faults_ret {A} (a : A) : never_faults (ret a).
Proof. intros w H. exact H. Qed.

Lemma never_faults_goto_L_DIE {A} : never_faults (@goto_L_DIE A).
Proof. intros w H. exact H. Qed.

Lemma never_faults_bind {A B} (c : M A) (k : A -> M B) :
  never_faults c -> (forall a, never_faults (k a)) ->
  never_faults (bind c k).
Proof.
  intros Hc Hk w H. unfold bind. specialize (Hc w H).
  destruct (c w) as [a w1|w1|f w1]; [apply Hk, Hc|exact Hc|exact Hc].
Qed.

Lemma never_faults_when (b : bool) (c : M unit) :
  never_faults c -> never_faults (when b c).
Proof. intros H. destruct b; [exact H|apply never_faults_ret]. Qed.

Lemma never_faults_cases {A} (b : bool) (c1 c2 : M A) :
  never_faults c1 -> never_faults c2 ->
  never_faults (if b then c1 else c2).
Proof. destruct b; auto. Qed.

Lemma never_faults_L_DIE (c : M unit) :
  never_faults c -> never_faults (L_DIE c).
Proof.
  intros Hc w H. unfold L_DIE. specialize (Hc w H).
  destruct (c w); exact Hc.
Qed.

Lemma never_faults_for_countdown {L} (n : nat) (body : L -> M (bool * L))
    (l : L) :
  (forall l, never_faults (body l)) -> never_faults (for_countdown n body l).
Proof.
  intros H. revert l.
  induction n; intros l; cbn [for_countdown]; [apply never_faults_ret|].
  apply never_faults_bind; [apply H|intros r].
  apply never_faults_cases; [apply never_faults_ret|apply IHn].
Qed.

(** A step that returns and leaves the broker handle, the table and the
    reporting topic alone. *)
Ltac plain_step :=
  solve [ intros w [H E]; split; [exact H|exact E] ].

Lemma never_faults_get_sys : never_faults get_sys.
Proof. plain_step. Qed.

Lemma never_faults_MS_TO_TICKS (xMs : Z) : never_faults (MS_TO_TICKS xMs).
Proof. plain_step. Qed.

Lemma never_faults_vTaskDelay (t : Z) : never_faults (vTaskDelay t).
Proof. plain_step. Qed.

Lemma never_faults_set_rc (v : Z) : never_faults (modify_sys (set_rc v)).
Proof. plain_step. Qed.

Lemma never_faults_set_pcErr (v : string) :
  never_faults (modify_sys (set_pcErr v)).
Proof. plain_step. Qed.

Lemma never_faults_set_calibration (v : list Z) :
  never_faults (modify_sys (set_calibration v)).
Proof. plain_step. Qed.

Lemma never_faults_set_eTopic (t : TOPIC) :
  t <> TOPIC_LAST -> never_faults (modify_sys (set_eTopic t)).
Proof. intros Ht w [H E]. split; [exact H|exact Ht]. Qed.

Lemma never_faults_XIic_Send (a : Z) (b : list Z) (n : Z) (o : IicOption) :
  never_faults (XIic_Send a b n o).
Proof. plain_step. Qed.

Lemma never_faults_XIic_Recv (a n : Z) (o : IicOption) :
  never_faults (XIic_Recv a n o).
Proof. plain_step. Qed.

Lemma never_faults_XSpi_WriteReg (r : SpiReg) (v : Z) :
  never_faults (XSpi_WriteReg r v).
Proof. plain_step. Qed.

Lemma never_faults_prvPublishTopic (t : TOPIC) (f : string) (a : list Arg) :
  t <> TOPIC_LAST -> never_faults (prvPublishTopic t f a).
Proof.
  intros Ht w [H E].
  destruct (prvPublishTopic_cases t f a w)
    as [[_ Ep]|[(Hh & Hl & _)|(ti & w' & _ & _ & Ep & F)]].
  - rewrite Ep. split; assumption.
  - destruct H as [H|H]; [contradiction|].
    destruct (knows_all_topics_lookup _ t H Ht) as [ti Hti]. congruence.
  - rewrite Ep. destruct F as (Fs & Ft & _). cbn in Fs, Ft.
    unfold reportable. rewrite Fs, Ft. split; assumption.
Qed.

Lemma never_faults_MAY_DIE {A} (code : M A) :
  never_faults code -> never_faults (MAY_DIE code).
Proof.
  intros Hc w H. unfold MAY_DIE, bind at 1. specialize (Hc w H).
  destruct (code w) as [a w1|w1|f w1]; [|exact Hc|exact Hc].
  unfold bind at 1, get_sys.
  destruct (negb (rc (sys w1) =? XST_SUCCESS)); [|exact Hc].
  pose proof (never_faults_prvPublishTopic (eTopic (sys w1)) (pcErr (sys w1))
                [ArgInt (rc (sys w1))] (proj2 Hc) w1 Hc) as P.
  unfold bind, StopHere, ret, goto_L_DIE.
  destruct (prvPublishTopic _ _ _ w1); exact P.
Qed.

Lemma never_faults_failure (v : Z) (s : string) :
  never_faults (modify_sys (set_rc v) ;; modify_sys (set_pcErr s)).
Proof.
  apply never_faults_bind; [apply never_faults_set_rc|intros _].
  apply never_faults_set_pcErr.
Qed.

Lemma never_faults_ReadIicRegs (addr n r : Z) (buf : list Z) :
  never_faults (ReadIicRegs addr n r buf).
Proof.
  unfold ReadIicRegs.
  apply never_faults_bind; [plain_step|intros _].
  apply never_faults_bind; [|intros _; plain_step].
  apply never_faults_L_DIE.
  apply never_faults_bind; [|intros _]; apply never_faults_MAY_DIE.
  - apply never_faults_bind; [apply never_faults_XIic_Send|intros x].
    apply never_faults_when, never_faults_failure.
  - apply never_faults_bind; [apply never_faults_XIic_Recv|intros x].
    apply never_faults_when, never_faults_failure.
Qed.

(** A write of two bytes: no mark to set in the buffer. *)
Lemma never_faults_WriteIicReg (addr r v : Z) :
  never_faults (WriteIicReg addr r v).
Proof.
  unfold WriteIicReg, WriteIicRegs. change (2 >? 2) with false. cbv iota.
  apply never_faults_bind; [|intros x; apply never_faults_ret].
  apply never_faults_bind; [apply never_faults_ret|intros b].
  apply never_faults_bind; [|intros _; plain_step].
  apply never_faults_L_DIE, never_faults_MAY_DIE.
  apply never_faults_bind; [apply never_faults_XIic_Send|intros x].
  apply never_faults_when, never_faults_failure.
Qed.

Ltac never :=
  repeat match goal with
  | |- never_faults (L_DIE _) => apply never_faults_L_DIE
  | |- never_faults (MAY_DIE _) => apply never_faults_MAY_DIE
  | |- never_faults (bind _ _) => apply never_faults_bind; [|intros ?]
  | |- never_faults (when _ _) => apply never_faults_when
  | |- never_faults (if _ then _ else _) => apply never_faults_cases
  | |- never_faults (for_countdown _ _ _) =>
      apply never_faults_for_countdown; intros ?
  | |- never_faults (ret _) => apply never_faults_ret
  | |- never_faults (MS_TO_TICKS _) => apply never_faults_MS_TO_TICKS
  | |- never_faults get_sys => apply never_faults_get_sys
  | |- never_faults (vTaskDelay _) => apply never_faults_vTaskDelay
  | |- never_faults (modify_sys (set_rc _)) => apply never_faults_set_rc
  | |- never_faults (modify_sys (set_pcErr _)) =>
      apply never_faults_set_pcErr
  | |- never_faults (modify_sys (set_calibration _)) =>
      apply never_faults_set_calibration
  | |- never_faults (modify_sys (set_eTopic _)) =>
      apply never_faults_set_eTopic; discriminate
  | |- never_faults (prvPublishTopic _ _ _) =>
      apply never_faults_prvPublishTopic; discriminate
  | |- never_faults (XSpi_WriteReg _ _) => apply never_faults_XSpi_WriteReg
  | |- never_faults (WriteIicReg _ _ _) => apply never_faults_WriteIicReg
  | |- never_faults (ReadIicReg _ _ _) => apply never_faults_ReadIicRegs
  | |- never_faults (ReadIicRegs _ _ _ _) => apply never_faults_ReadIicRegs
  end.

Lemma never_faults_run (fuel : nat) (op : Operation) :
  op <> Sample Thermocouple -> never_faults (run fuel op).
Proof.
  intros Hop.
  destruct op as [[]|[]|[]]; try contradiction; cbn [run stop_of];
    unfold StartBarometer, StartPLTempSensor, StartHygrometer,
      StopBarometer, StopPLTempSensor, StopHygrometer,
      SampleBarometer, SampleBarometer_acquire, SampleBarometer_publish,
      SampleHygrometer;
    never.
Qed.

Lemma never_faults_L_DIE_returns (body : M unit) (w : World) :
  never_faults (L_DIE body) -> reportable w ->
  exists w', L_DIE body w = Normal tt w' /\ reportable w'.
Proof.
  intros N H. specialize (N w H). unfold L_DIE in *.
  destruct (body w); try contradiction;
    (eexists; split; [reflexivity|exact N]).
Qed.

(** The start of the thermocouple has no label to jump to. *)
Lemma StartPLTempSensor_never_jumps (w w' : World) :
  StartPLTempSensor w <> Goto_L_DIE w'.
Proof.
  unfold StartPLTempSensor.
  unfold bind, MS_TO_TICKS, modify_sys, XSpi_WriteReg, vTaskDelay.
  match goal with
  | |- prvPublishTopic ?t ?f ?a ?v <> _ =>
      destruct (prvPublishTopic_cases t f a v)
        as [[_ Ep]|[(_ & _ & Ep)|(ti & w2 & _ & _ & Ep & _)]];
      rewrite Ep; discriminate
  end.
Qed.

(** The operations other than the thermocouple's sample end at their
    last statement or at their label: they return. *)
Lemma run_returns (fuel : nat) (op : Operation) (w : World) :
  op <> Sample Thermocouple -> reportable w ->
  exists w', run fuel op w = Normal tt w' /\ reportable w'.
Proof.
  intros Hop H. pose proof (never_faults_run fuel op Hop) as N.
  destruct op as [[]|[]|[]]; try contradiction; cbn [run stop_of] in *;
    try (apply never_faults_L_DIE_returns; assumption);
    try (eexists; split; [reflexivity|exact (N w H)]).
  specialize (N w H).
  destruct (StartPLTempSensor w) as [[] w'|w'|f w'] eqn:E;
    [eexists; split; [reflexivity|exact N]| |contradiction].
  destruct (StartPLTempSensor_never_jumps w w' E).
Qed.

Lemma run_ends_on_its_status_topic (fuel : nat) (op : Operation)
    (w : World) :
  eTopic (sys (world_after (run fuel op w))) = status_topic (sensor_of op).
Proof.
  rewrite run_sets_topic_first.
  destruct (reports_within_run fuel op
              (with_sys (set_eTopic (status_topic (sensor_of op))) w))
    as (pubs & _ & F).
  exact (proj1 (F eq_refl)).
Qed.

(** What the start of the thermocouple does to the world. *)
Lemma StartPLTempSensor_effect (h : Z) (w : World) :
  xMQTTHandle (sys w) = Some h -> pTopicInfo w = topic_table ->
  exists w',
    StartPLTempSensor w = Normal tt w' /\
    sys w' = set_eTopic TOPIC_THERMOCOUPLE_STATUS (sys w) /\
    pTopicInfo w' = pTopicInfo w /\
    iic_in w' = iic_in w /\ iic_log w' = iic_log w /\
    spi_in w' = spi_in w /\
    spi_log w' = spi_log w ++
      [SpiWrite XSP_SRR_OFFSET AXI_SPI_RESET_VALUE;
       SpiWrite XSP_CR_OFFSET MAX31855_CR_INIT_MODE;
       SpiWrite XSP_SSR_OFFSET PL_SPI_CHANNEL_SEL_NONE] /\
    published w' = published w ++
      [(TOPIC_THERMOCOUPLE_STATUS, "PL Thermocouple started", [])].
Proof.
  intros Hh Ht. unfold StartPLTempSensor.
  rewrite (bind_Normal _ _ _ _ _ (MS_TO_TICKS_1 w)).
  set (t := one_ms w).
  match goal with
  | |- context [prvPublishTopic ?tp ?f ?a] =>
      pose (w1 := with_now (now w + t + t)
                    (with_spi (spi_in w)
                       (spi_log w ++
                        [SpiWrite XSP_SRR_OFFSET AXI_SPI_RESET_VALUE;
                         SpiWrite XSP_CR_OFFSET MAX31855_CR_INIT_MODE;
                         SpiWrite XSP_SSR_OFFSET PL_SPI_CHANNEL_SEL_NONE])
                       (with_sys (set_eTopic TOPIC_THERMOCOUPLE_STATUS) w)));
      destruct (prvPublishTopic_publishes tp f a w1 h Hh Ht)
        as (w2 & E & D & P); [discriminate|]
  end.
  exists w2. split.
  - destruct w as [s tt0 ii il ib mi ml si sl gl hz nw].
    rewrite <- E. unfold w1, bind, modify_sys, XSpi_WriteReg, vTaskDelay.
    cbv [with_spi with_sys with_now sys pTopicInfo iic_in iic_log iic_buf
         mqtt_in mqtt_log spi_in spi_log gpio_log configTICK_RATE_HZ now].
    rewrite <- !app_assoc. reflexivity.
  - destruct D as (Ds & Dt & Di & Dl & _ & Dsi & Dsl & _).
    rewrite Ds, Dt, Di, Dl, Dsi, Dsl, P. repeat split.
Qed.

(** ** Whole samples *)

Lemma SampleBarometer_ends (k1 k2 : nat)
    (s c h : Z) (early block : list Z) (rest : list IicReply) (w : World) :
  rc (sys w) = XST_SUCCESS ->
  xMQTTHandle (sys w) = Some h -> pTopicInfo w = topic_table ->
  (k1 < 49)%nat -> (k2 < 49)%nat ->
  Z.land s BAROMETER_BFLD_ONE_SHOT <> 0 ->
  Z.land c BAROMETER_BFLD_ONE_SHOT = 0 ->
  List.length early = 6%nat -> List.length block = 6%nat ->
  ~ barometer_data_ready early -> barometer_data_ready block ->
  iic_in w = [sent 2] ++ polls k1 s ++ reg_read c
             ++ block_polls k2 early ++ block_read block ++ rest ->
  exists w',
    SampleBarometer w = Normal tt w' /\
    rc (sys w') = XST_SUCCESS /\
    iic_in w' = rest /\
    iic_log w' = iic_log w ++ barometer_sample_log k1 k2 /\
    published w' = published w ++
      [(TOPIC_BAROMETER_PRESSURE, "%.2f hPa",
        [ArgFloat (F_div (F_of_int (barometer_pressure_sqTmp block))
                         (F_lit (4096 # 1)))]);
       (TOPIC_BAROMETER_TEMPERATURE, "%.2f C",
        [ArgFloat (F_add (F_lit (85 # 2))
                     (F_div (F_of_int (barometer_temperature_sqTmp block))
                            (F_dbl (480 # 1))))])].
Proof.
  intros Hrc Hh Ht Hk1 Hk2 Hs Hc Hle Hlb He Hb Hin.
  unfold SampleBarometer, L_DIE, SampleBarometer_acquire.
  unfold bind at 1.
  rewrite (bind_Normal _ _ _ _ _ (MS_TO_TICKS_1 w)).
  set (t := one_ms w).
  rewrite (bind_Normal (modify_sys _) _ w _ tt eq_refl).
  set (w0 := with_sys (set_eTopic TOPIC_BAROMETER_STATUS) w).
  rewrite (bind_Normal _ _ _ _ _
             (write_step BAROMETER_SLAVE_ADDRESS BAROMETER_REG_CTRL_REG2
                BAROMETER_BFLD_ONE_SHOT _ _ w0 Hrc Hin)).
  set (w2 := with_sys _ (with_iic _ _ w0)).
  destruct (register_poll_loop BAROMETER_SLAVE_ADDRESS BAROMETER_REG_CTRL_REG2
              "ReadIicRegs(6@BAROMETER_REG_STATUS_REG) -> %08x"
              BAROMETER_BFLD_ONE_SHOT t 50 k1 uninitialised s c
              (block_polls k2 early ++ block_read block ++ rest)
              w2 Hrc)
    as (w3 & E3 & F3 & I3 & L3 & N3);
    [reflexivity|exact Hs|exact Hc|lia|].
  unfold register_poll in E3.
  rewrite (bind_Normal _ _ _ _ _ E3). cbn [fst snd].
  replace (Z.of_nat 50 - Z.of_nat k1 - 1 <=? 0) with false
    by (symmetry; apply Z.leb_gt; lia).
  cbn [when].
  destruct F3 as (R3 & T3 & H3 & C3 & P3 & M3 & MI3 & _ & _ & G3 & Z3).
  assert (Hrc3 : rc (sys w3) = XST_SUCCESS) by (rewrite R3; exact Hrc).
  rewrite (bind_Normal _ _ w3 w3 tt)
    by (apply MAY_DIE_passes; [reflexivity|exact Hrc3]).
  destruct (block_poll_loop BAROMETER_SLAVE_ADDRESS 6 BAROMETER_REG_STATUS_REG
              "ReadIicRegs(6@BAROMETER_REG_STATUS_REG) -> %08x"
              (Z.lor BAROMETER_BFLD_P_DA BAROMETER_BFLD_T_DA) t eq_refl
              50 k2 (repeat uninitialised 6) early block rest w3 Hrc3)
    as (w5 & E5 & F5 & I5 & L5 & N5);
    [rewrite Hle; reflexivity|rewrite Hlb; reflexivity|exact I3
    |exact He|exact Hb|lia|].
  unfold block_poll in E5.
  rewrite (bind_Normal _ _ _ _ _ E5). cbn [fst snd].
  replace (Z.of_nat 50 - Z.of_nat k2 - 1 <=? 0) with false
    by (symmetry; apply Z.leb_gt; lia).
  cbn [when].
  destruct F5 as (R5 & T5 & H5 & C5 & P5 & M5 & MI5 & _ & _ & G5 & Z5).
  assert (Hrc5 : rc (sys w5) = XST_SUCCESS) by (rewrite R5; exact Hrc3).
  rewrite (bind_Normal _ _ w5 w5 tt)
    by (apply MAY_DIE_passes; [reflexivity|exact Hrc5]).
  unfold ret at 1. unfold SampleBarometer_publish.
  destruct (prvPublishTopic_publishes TOPIC_BAROMETER_PRESSURE "%.2f hPa"
              [ArgFloat (F_div (F_of_int (barometer_pressure_sqTmp block))
                               (F_lit (4096 # 1)))] w5 h)
    as (w6 & E6 & D6 & P6).
  { rewrite H5, H3. exact Hh. }
  { rewrite P5, P3. exact Ht. }
  { discriminate. }
  rewrite (bind_Normal _ _ _ _ _ E6).
  destruct D6 as (D6s & D6t & D6i & D6l & _).
  destruct (prvPublishTopic_publishes TOPIC_BAROMETER_TEMPERATURE "%.2f C"
              [ArgFloat
                 (F_add (F_lit (85 # 2))
                    (F_div (F_of_int (barometer_temperature_sqTmp block))
                           (F_dbl (480 # 1))))] w6 h)
    as (w7 & E7 & D7 & P7).
  { rewrite D6s, H5, H3. exact Hh. }
  { rewrite D6t, P5, P3. exact Ht. }
  { discriminate. }
  rewrite E7. exists w7. split; [reflexivity|].
  destruct D7 as (D7s & _ & D7i & D7l & _).
  rewrite D7s, D7i, D7l, P7, D6s, D6i, D6l, P6, Hrc5, I5, L5, L3.
  unfold published. rewrite M5, M3. cbn.
  split; [reflexivity|]. split; [reflexivity|].
  split; [unfold barometer_sample_log; rewrite <- !app_assoc; reflexivity|].
  rewrite <- app_assoc. reflexivity.
Qed.

Lemma SampleHygrometer_ends (k1 k2 : nat)
    (s c h : Z) (early block : list Z) (rest : list IicReply) (w : World) :
  rc (sys w) = XST_SUCCESS ->
  xMQTTHandle (sys w) = Some h -> pTopicInfo w = topic_table ->
  Z.of_nat k1 < 9999 -> (k2 < 49)%nat ->
  Z.land s HYGROMETER_BFLD_ONE_SHOT <> 0 ->
  Z.land c HYGROMETER_BFLD_ONE_SHOT = 0 ->
  List.length early = 5%nat -> List.length block = 5%nat ->
  ~ hygrometer_data_ready early -> hygrometer_data_ready block ->
  iic_in w = [sent 2] ++ polls k1 s ++ reg_read c
             ++ block_polls k2 early ++ block_read block ++ rest ->
  exists w',
    SampleHygrometer w = Normal tt w' /\
    rc (sys w') = XST_SUCCESS /\
    iic_in w' = rest /\
    iic_log w' = iic_log w ++ hygrometer_sample_log k1 k2 /\
    published w' = published w ++
      [(TOPIC_HYGROMETER_RELATIVE_HUMIDITY, "%.2f %%rH",
        [ArgFloat (F_lit (100 # 1))]);
       (TOPIC_HYGROMETER_HUMIDITY_SENSOR_TEMPERATURE, "%.2f C",
        [ArgFloat (F_lit (1000 # 1))])].
Proof.
  intros Hrc Hh Ht Hk1 Hk2 Hs Hc Hle Hlb He Hb Hin.
  unfold SampleHygrometer, L_DIE.
  rewrite (bind_Normal _ _ _ _ _ (MS_TO_TICKS_1 w)).
  set (t := one_ms w).
  rewrite (bind_Normal (modify_sys _) _ w _ tt eq_refl).
  set (w0 := with_sys (set_eTopic TOPIC_HYGROMETER_STATUS) w).
  rewrite (bind_Normal _ _ _ _ _
             (write_step HYGROMETER_SLAVE_ADDRESS HYGROMETER_REG_CTRL_REG2
                HYGROMETER_BFLD_ONE_SHOT _ _ w0 Hrc Hin)).
  set (w2 := with_sys _ (with_iic _ _ w0)).
  destruct (register_poll_loop HYGROMETER_SLAVE_ADDRESS HYGROMETER_REG_CTRL_REG2
              "ReadIicRegs(6@HYGROMETER_REG_STATUS_REG) -> %08x"
              HYGROMETER_BFLD_ONE_SHOT t (Z.to_nat 10000) k1 uninitialised s c
              (block_polls k2 early ++ block_read block ++ rest)
              w2 Hrc)
    as (w3 & E3 & F3 & I3 & L3 & N3);
    [reflexivity|exact Hs|exact Hc|lia|].
  unfold register_poll in E3.
  rewrite (bind_Normal _ _ _ _ _ E3). cbn [fst snd].
  replace (Z.of_nat (Z.to_nat 10000) - Z.of_nat k1 - 1 <=? 0) with false
    by (symmetry; apply Z.leb_gt; lia).
  cbn [when].
  destruct F3 as (R3 & T3 & H3 & C3 & P3 & M3 & MI3 & _ & _ & G3 & Z3).
  assert (Hrc3 : rc (sys w3) = XST_SUCCESS) by (rewrite R3; exact Hrc).
  rewrite (bind_Normal _ _ w3 w3 tt)
    by (apply MAY_DIE_passes; [reflexivity|exact Hrc3]).
  destruct (block_poll_loop HYGROMETER_SLAVE_ADDRESS 5 HYGROMETER_REG_STATUS_REG
              "ReadIicRegs(6@HYGROMETER_REG_STATUS_REG) -> %08x"
              (Z.lor HYGROMETER_BFLD_H_DA HYGROMETER_BFLD_T_DA) t eq_refl
              50 k2 (repeat uninitialised 5) early block rest w3 Hrc3)
    as (w5 & E5 & F5 & I5 & L5 & N5);
    [rewrite Hle; reflexivity|rewrite Hlb; reflexivity|exact I3
    |exact He|exact Hb|lia|].
  unfold block_poll in E5.
  rewrite (bind_Normal _ _ _ _ _ E5). cbn [fst snd].
  replace (Z.of_nat 50 - Z.of_nat k2 - 1 <=? 0) with false
    by (symmetry; apply Z.leb_gt; lia).
  cbn [when].
  destruct F5 as (R5 & T5 & H5 & C5 & P5 & M5 & MI5 & _ & _ & G5 & Z5).
  assert (Hrc5 : rc (sys w5) = XST_SUCCESS) by (rewrite R5; exact Hrc3).
  rewrite (bind_Normal _ _ w5 w5 tt)
    by (apply MAY_DIE_passes; [reflexivity|exact Hrc5]).
  destruct (prvPublishTopic_publishes TOPIC_HYGROMETER_RELATIVE_HUMIDITY
              "%.2f %%rH" [ArgFloat (F_lit (100 # 1))] w5 h)
    as (w6 & E6 & D6 & P6).
  { rewrite H5, H3. exact Hh. }
  { rewrite P5, P3. exact Ht. }
  { discriminate. }
  rewrite (bind_Normal _ _ _ _ _ E6).
  destruct D6 as (D6s & D6t & D6i & D6l & _).
  destruct (prvPublishTopic_publishes
              TOPIC_HYGROMETER_HUMIDITY_SENSOR_TEMPERATURE "%.2f C"
              [ArgFloat (F_lit (1000 # 1))] w6 h)
    as (w7 & E7 & D7 & P7).
  { rewrite D6s, H5, H3. exact Hh. }
  { rewrite D6t, P5, P3. exact Ht. }
  { discriminate. }
  rewrite E7. exists w7. split; [reflexivity|].
  destruct D7 as (D7s & _ & D7i & D7l & _).
  rewrite D7s, D7i, D7l, P7, D6s, D6i, D6l, P6, Hrc5, I5, L5, L3.
  unfold published. rewrite M5, M3. cbn.
  split; [reflexivity|]. split; [reflexivity|].
  split; [unfold hygrometer_sample_log; rewrite <- !app_assoc; reflexivity|].
  rewrite <- app_assoc. reflexivity.
Qed.

(** ** The SPI log only grows *)

Lemma spi_grows_refl (w : World) : spi_grows w w.
Proof. exists []. now rewrite app_nil_r. Qed.

Lemma spi_grows_trans (w1 w2 w3 : World) :
  spi_grows w1 w2 -> spi_grows w2 w3 -> spi_grows w1 w3.
Proof.
  intros [l1 E1] [l2 E2]. exists (l1 ++ l2).
  now rewrite E2, E1, app_assoc.
Qed.

Lemma spi_grows_idle {A} (c : M A) :
  preserves spi_idle c -> preserves spi_grows c.
Proof.
  intros H w. destruct (H w) as [E _]. exists []. now rewrite app_nil_r.
Qed.

Lemma spi_grows_XSpi_ReadReg (r : SpiReg) :
  preserves spi_grows (XSpi_ReadReg r).
Proof. intros w. eexists. reflexivity. Qed.

Lemma spi_grows_XSpi_WriteReg (r : SpiReg) (v : Z) :
  preserves spi_grows (XSpi_WriteReg r v).
Proof. intros w. eexists. reflexivity. Qed.

Lemma spi_grows_modify_sys (f : System -> System) :
  preserves spi_grows (modify_sys f).
Proof. intros w. exists []. cbn. now rewrite app_nil_r. Qed.

Ltac grows :=
  repeat match goal with
  | |- preserves spi_grows (bind _ _) =>
      apply (preserves_bind _ spi_grows_trans); [|intros ?]
  | |- preserves spi_grows (if _ then _ else _) =>
      apply preserves_cases
  | |- preserves spi_grows (ret _) => apply (preserves_ret _ spi_grows_refl)
  | |- preserves spi_grows (crash _) =>
      apply (preserves_crash _ spi_grows_refl)
  | |- preserves spi_grows (XSpi_ReadReg _) => apply spi_grows_XSpi_ReadReg
  | |- preserves spi_grows (XSpi_WriteReg _ _) =>
      apply spi_grows_XSpi_WriteReg
  | |- preserves spi_grows (modify_sys _) => apply spi_grows_modify_sys
  | |- preserves spi_grows (prvPublishTopic _ _ _) =>
      apply spi_grows_idle, spi_idle_publish
  | |- preserves spi_grows (match ?x with _ => _ end) => destruct x
  end.

Lemma spi_grows_wait_tx_empty (fuel : nat) :
  preserves spi_grows (XSpi_wait_tx_empty fuel).
Proof. induction fuel; cbn [XSpi_wait_tx_empty]; grows. exact IHfuel. Qed.

Lemma spi_grows_wait_occupancy (fuel : nat) (n : Z) :
  preserves spi_grows (XSpi_wait_occupancy fuel n).
Proof. induction fuel; cbn [XSpi_wait_occupancy]; grows. exact IHfuel. Qed.

Lemma spi_grows_drain_rx (fuel : nat) (rx : list Z) (n : nat) :
  preserves spi_grows (XSpi_drain_rx fuel rx n).
Proof.
  revert rx n. induction fuel; intros rx n; cbn [XSpi_drain_rx]; grows.
  apply IHfuel.
Qed.

(** The transfer of [SamplePLTempSensor] from the wait for the transmit
    FIFO on. *)
Lemma SamplePLTempSensor_transfer_begins (fuel : nat) (w : World) :
  exists w1,
    SamplePLTempSensor_transfer fuel w
    = (XSpi_wait_tx_empty fuel ;;
       XSpi_wait_occupancy fuel (4 - 1) ;;
       r <- XSpi_drain_rx fuel
              [0xFFFFFFFF; 0xFFFFFFFF; 0xFFFFFFFF; 0xFFFFFFFF] 0 ;;
       XSpi_WriteReg XSP_CR_OFFSET MAX31855_CR_INIT_MODE ;;
       XSpi_WriteReg XSP_SSR_OFFSET PL_SPI_CHANNEL_SEL_NONE ;;
       (if negb (4 =? Z.of_nat (snd r)) then modify_sys (set_rc XST_FAILURE)
        else modify_sys (set_rc XST_SUCCESS)) ;;
       ret (fst r)) w1 /\
    spi_log w1 = spi_log w ++ spi_transfer_begins.
Proof.
  destruct w as [s tt0 ii il ib mi ml si sl gl hz nw].
  unfold SamplePLTempSensor_transfer, XSpi_LowLevelExecute.
  change (Z.to_nat 4) with 4%nat.
  world_step.
  eexists. split; [reflexivity|].
  cbn. rewrite <- !app_assoc. reflexivity.
Qed.

Lemma spi_grows_SamplePLTempSensor_report (rx : list Z) :
  preserves spi_grows (SamplePLTempSensor_report rx).
Proof.
  unfold SamplePLTempSensor_report.
  apply (preserves_bind _ spi_grows_trans);
    [intros w; apply spi_grows_refl|intros s].
  grows.
Qed.

(* ================================================================== *)
(** * What holds of every operation of a driver *)
(* ================================================================== *)

(** X1.  Whatever the devices answer and however the run ends, no
    operation of a sensor driver (start, stop or sample) and no number of
    rounds of the sampling loop changes what was set up before the first
    sensor was started: the broker handle, the base address and the ready
    flag of the IIC driver, the ready flag of the GPIO driver, the topic
    table and the tick rate. *)
Theorem drivers_keep_the_setup (fuel : nat) (op : Operation)
    (periods : nat) (xSamplingPeriod xPreviousWakeTime : Z) (w : World) :
  setup_kept w (world_after (run fuel op w)) /\
  setup_kept w
    (world_after
       (sampling_rounds periods fuel xSamplingPeriod xPreviousWakeTime w)).
Proof.
  split; [apply setup_kept_run|apply setup_kept_sampling].
Qed.

(** X2.  Without a broker handle no operation of a sensor driver and no
    number of rounds of the sampling loop calls the broker or flashes the
    status indicator: the log of publications, the broker's pending
    answers and the pin log stay as they were, error reports included. *)
Theorem nothing_goes_out_without_a_broker (fuel : nat) (op : Operation)
    (periods : nat) (xSamplingPeriod xPreviousWakeTime : Z) (w : World) :
  xMQTTHandle (sys w) = None ->
  silent w (world_after (run fuel op w)) /\
  silent w
    (world_after
       (sampling_rounds periods fuel xSamplingPeriod xPreviousWakeTime w)).
Proof.
  intros H. split.
  - exact (proj2 (quiet_run fuel op w H)).
  - exact (proj2 (quiet_sampling periods fuel xSamplingPeriod
                    xPreviousWakeTime w H)).
Qed.

(** The theorem for a start of the barometer whose identity read fails and
    for two sampling rounds, on buses that answer nothing. *)
Lemma nothing_goes_out_without_a_broker_witness :
  silent (offline_world [] [])
    (world_after (run 8 (Start Barometer) (offline_world [] []))) /\
  silent (offline_world [] [])
    (world_after (sampling_rounds 2 8 5000 0 (offline_world [] []))).
Proof.
  apply (nothing_goes_out_without_a_broker 8 (Start Barometer) 2 5000 0
           (offline_world [] [])).
  reflexivity.
Defined.

(** X3.  The calibration block of the hygrometer is written by the start
    of the hygrometer and by nothing else: every other operation of every
    driver leaves it as it was. *)
Theorem calibration_is_written_by_the_hygrometer_start_only (fuel : nat)
    (op : Operation) (w : World) :
  op <> Start Hygrometer ->
  pbHygrometerCalibration (sys (world_after (run fuel op w)))
  = pbHygrometerCalibration (sys w).
Proof.
  intros H. exact (calibration_kept_run fuel op H w).
Qed.

(** The theorem for a sample of the hygrometer on a bus that answers in
    full. *)
Lemma calibration_is_written_by_the_hygrometer_start_only_witness :
  pbHygrometerCalibration
    (sys (world_after (run 8 (Sample Hygrometer)
                         (world_of hygrometer_sample_script []))))
  = repeat 0 16.
Proof.
  apply (calibration_is_written_by_the_hygrometer_start_only 8
           (Sample Hygrometer) (world_of hygrometer_sample_script [])).
  discriminate.
Defined.

(** X4.  Each driver keeps to its own device.  An operation of the
    barometer or of the hygrometer leaves the SPI controller alone, and
    every transfer that it adds to the IIC bus goes to that sensor's slave
    address (0x5D, 0x5F); an operation of the thermocouple leaves the IIC
    bus and the receive buffer behind it alone. *)
Theorem each_driver_keeps_to_its_own_device (fuel : nat) (op : Operation)
    (w : World) :
  own_device (sensor_of op) w (world_after (run fuel op w)).
Proof.
  destruct (sensor_of op) eqn:Hd; cbn [own_device].
  - split.
    + apply spi_idle_run. rewrite Hd. discriminate.
    + apply addressed_barometer, Hd.
  - apply iic_idle_run, Hd.
  - split.
    + apply spi_idle_run. rewrite Hd. discriminate.
    + apply addressed_hygrometer, Hd.
Qed.

(** X5.  Whatever the devices answer, every operation of a driver ends
    with the reporting topic on that sensor's status topic, and all that
    it has published is of that sensor: an error text with a result code
    other than the success code, or one of the sensor's status texts, on
    the sensor's status topic; or a measurement on one of its value topics
    in that topic's format. *)
Theorem each_driver_publishes_its_own (fuel : nat) (op : Operation)
    (w : World) :
  eTopic (sys (world_after (run fuel op w))) = status_topic (sensor_of op) /\
  exists pubs,
    mqtt_log (world_after (run fuel op w)) = mqtt_log w ++ pubs /\
    Forall (fun p => publication_of (sensor_of op)
                       (tiTopic (pubInfo p)) (pubFmt p) (pubArgs p)) pubs.
Proof.
  rewrite run_sets_topic_first.
  destruct (reports_within_run fuel op
              (with_sys (set_eTopic (status_topic (sensor_of op))) w))
    as (pubs & E & F).
  destruct (F eq_refl) as [Ht Hp].
  split; [exact Ht|]. exists pubs. split; [exact E|exact Hp].
Qed.

(** X6.  What the hygrometer driver publishes as measurements does not
    come from the sensor: whatever the device delivers, every publication
    that [SampleHygrometer] adds on the relative-humidity topic carries
    the constant 100 and every one on the humidity-sensor temperature
    topic the constant 1000. *)
Theorem hygrometer_measurements_are_constants (w : World) :
  exists pubs,
    mqtt_log (world_after (SampleHygrometer w)) = mqtt_log w ++ pubs /\
    Forall
      (fun p =>
         (tiTopic (pubInfo p) = TOPIC_HYGROMETER_RELATIVE_HUMIDITY ->
          pubArgs p = [ArgFloat (F_lit (100 # 1))]) /\
         (tiTopic (pubInfo p) = TOPIC_HYGROMETER_HUMIDITY_SENSOR_TEMPERATURE ->
          pubArgs p = [ArgFloat (F_lit (1000 # 1))])) pubs.
Proof.
  pose proof (run_sets_topic_first 0 (Sample Hygrometer) w) as E0.
  cbn [run sensor_of] in E0. rewrite E0.
  destruct (reports_within_run 0 (Sample Hygrometer)
              (with_sys (set_eTopic (status_topic Hygrometer)) w))
    as (pubs & E & F).
  destruct (F eq_refl) as [_ Hp].
  exists pubs. split; [exact E|].
  eapply Forall_impl; [|exact Hp].
  intros p [(Ht & _)|[(Ht & _)|[(Ht & _ & Ha)|(Ht & _ & Ha)]]]; cbn in Ht;
    split; intros Hq; try (rewrite Ht in Hq; discriminate Hq); exact Ha.
Qed.

(* ================================================================== *)
(** * The topic table and the publisher *)
(* ================================================================== *)

(** X7.  The scan of [GetTopicInfo] over any table: what it finds is the
    first entry under the identity asked for, no sentinel precedes that
    entry, and the identity is not the sentinel's; when it finds nothing,
    every entry under that identity lies behind a sentinel. *)
Theorem GetTopicInfo_finds_the_first_entry (pTI : list TopicInfo)
    (e : TOPIC) :
  match GetTopicInfo_loop pTI e with
  | Some ti =>
      tiTopic ti = e /\ e <> TOPIC_LAST /\
      exists pre post,
        pTI = pre ++ ti :: post /\
        Forall (fun x => tiTopic x <> e /\ tiTopic x <> TOPIC_LAST) pre
  | None =>
      forall pre ti post,
        pTI = pre ++ ti :: post -> tiTopic ti = e -> e <> TOPIC_LAST ->
        Exists (fun x => tiTopic x = TOPIC_LAST) pre
  end.
Proof.
  destruct (GetTopicInfo_loop pTI e) as [ti|] eqn:E.
  - apply GetTopicInfo_loop_first, E.
  - intros pre ti post Hp Ht He.
    destruct (Forall_Exists_dec (fun x => tiTopic x <> TOPIC_LAST)
                (fun x => match Z.eq_dec (TOPIC_value (tiTopic x))
                                  (TOPIC_value TOPIC_LAST) with
                          | left Heq =>
                              right (fun Hn => Hn
                                (proj1 (TOPIC_eqb_eq _ _)
                                   (proj2 (Z.eqb_eq _ _) Heq)))
                          | right Hne =>
                              left (fun Heq => Hne (f_equal TOPIC_value Heq))
                          end) pre) as [Hall|Hex].
    + subst e pTI.
      destruct (GetTopicInfo_loop_finds pre post ti He Hall) as [found Hf].
      congruence.
    + apply Exists_exists in Hex. apply Exists_exists.
      destruct Hex as (x & Hin & Hx). exists x. split; [exact Hin|].
      destruct (TOPIC_eqb (tiTopic x) TOPIC_LAST) eqn:El.
      * now apply TOPIC_eqb_eq.
      * apply TOPIC_eqb_neq in El. contradiction.
Qed.

(** X8.  [InitTopicInfo] on a table in which every entry before the
    sentinel has a name returns and touches the name lengths only: a
    lookup that found an entry before finds it afterwards with the same
    identity and name and with the low 16 bits of the length of that name
    in [usNameLen] (the length itself when the name is shorter than 65536
    characters), a lookup that found nothing still finds nothing, and a
    second run of [InitTopicInfo] changes nothing.  On any other table it
    does not return: a null name before the sentinel ends it at [strlen],
    and without a sentinel it ends at the first null name or, when every
    entry has a name, past the end of the table. *)
Theorem InitTopicInfo_gives_every_entry_its_length (e : TOPIC)
    (w : World) :
  let scanned := before_sentinel (pTopicInfo w) in
  (forall pre, scanned = Some pre -> Forall named pre ->
     exists w',
       InitTopicInfo w = Normal tt w' /\
       match GetTopicInfo_loop (pTopicInfo w) e with
       | Some ti =>
           exists name,
             pbName ti = Some name /\
             GetTopicInfo e w'
             = Normal (Some (mkTopicInfo e (Some name)
                               (strlen name mod 2 ^ 16))) w' /\
             (strlen name < 2 ^ 16 -> strlen name mod 2 ^ 16 = strlen name)
       | None => GetTopicInfo_loop (pTopicInfo w') e = None
       end /\
       InitTopicInfo w' = Normal tt w') /\
  (forall pre, scanned = Some pre -> ~ Forall named pre ->
     exists w', InitTopicInfo w = Crash NullDereference w') /\
  (scanned = None ->
     (Forall named (pTopicInfo w) ->
      exists w', InitTopicInfo w = Crash BufferOverrun w') /\
     (~ Forall named (pTopicInfo w) ->
      exists w', InitTopicInfo w = Crash NullDereference w')).
Proof.
  intros scanned. unfold scanned, InitTopicInfo. repeat split.
  - intros pre Hb Hn.
    destruct (InitTopicInfo_loop_returns _ _ Hb Hn) as (F & I & G).
    destruct (InitTopicInfo_loop (pTopicInfo w)) as [f pTI'] eqn:E.
    cbn [fst snd] in *. subst f. eexists. split; [reflexivity|].
    cbn [pTopicInfo with_topics]. split.
    + rewrite G. destruct (GetTopicInfo_loop (pTopicInfo w) e) as [ti|] eqn:El;
        [|reflexivity].
      destruct (GetTopicInfo_loop_first _ _ _ El) as [He Hin].
      destruct (pbName ti) as [name|] eqn:Ex.
      * exists name. split; [reflexivity|]. split.
        -- unfold GetTopicInfo. cbn [pTopicInfo with_topics].
           rewrite G, El, Ex, He. reflexivity.
        -- intros Hlt. apply Z.mod_small. unfold strlen in *. lia.
      * exfalso. revert Hin. clear - Hb Hn Ex El.
        intros _. revert pre Hb Hn El.
        induction (pTopicInfo w) as [|x rest IH]; intros pre Hb Hn El;
          [discriminate|].
        cbn [before_sentinel GetTopicInfo_loop] in Hb, El.
        destruct (TOPIC_eqb TOPIC_LAST (tiTopic x)); [discriminate|].
        destruct (before_sentinel rest) as [pre'|]; [|discriminate].
        injection Hb as <-. apply Forall_cons_iff in Hn as [Hx Hn].
        destruct (TOPIC_eqb (tiTopic x) e).
        -- injection El as ->. now elim Hx.
        -- exact (IH pre' eq_refl Hn El).
    + rewrite I. destruct w; reflexivity.
  - intros pre Hb Hn.
    pose proof (InitTopicInfo_loop_null_name _ _ Hb Hn) as F.
    destruct (InitTopicInfo_loop (pTopicInfo w)) as [f pTI'].
    cbn [fst] in F. subst f. eexists. reflexivity.
  - intros Hn.
    destruct (InitTopicInfo_loop_no_sentinel _ H) as [F _].
    specialize (F Hn).
    destruct (InitTopicInfo_loop (pTopicInfo w)) as [f pTI'].
    cbn [fst] in F. subst f. eexists. reflexivity.
  - intros Hn.
    destruct (InitTopicInfo_loop_no_sentinel _ H) as [_ F].
    specialize (F Hn).
    destruct (InitTopicInfo_loop (pTopicInfo w)) as [f pTI'].
    cbn [fst] in F. subst f. eexists. reflexivity.
Qed.

(** The theorem at the table as the program starts with it: every entry
    before the sentinel has a name, and the system status topic gets the
    length 44 of its name. *)
Lemma InitTopicInfo_gives_every_entry_its_length_witness :
  exists w',
    InitTopicInfo (with_topics pTopicInfo_initial (world_of [] []))
    = Normal tt w' /\
    GetTopicInfo TOPIC_SYSTEM_STATUS w'
    = Normal
        (Some (mkTopicInfo TOPIC_SYSTEM_STATUS
                 (Some "/remote_io_module/sensor_status/System_Error") 44))
        w'.
Proof.
  destruct (InitTopicInfo_gives_every_entry_its_length TOPIC_SYSTEM_STATUS
              (with_topics pTopicInfo_initial (world_of [] [])))
    as (H & _).
  destruct (H (removelast pTopicInfo_initial) eq_refl) as (w' & E & G & _).
  - repeat constructor; discriminate.
  - exists w'. split; [exact E|].
    cbn in G. destruct G as (name & En & G & _).
    injection En as <-. exact G.
Defined.

(** X9.  [BlinkLed] always returns and touches nothing but the pin log
    and the clock.  With the GPIO driver not ready it does nothing at
    all.  Otherwise it writes [xCount] times on and off (no time for a
    count of zero or less), then once more on when [xFinalOn] is not zero,
    and sleeps twice per flash for half a second, which is never less
    than one tick. *)
Theorem BlinkLed_flashes_and_takes_its_time (xCount xFinalOn : Z)
    (w : World) :
  exists w',
    BlinkLed xCount xFinalOn w = Normal tt w' /\
    indicator_frame w w' /\
    1 <= half_second w /\
    (gpio_IsReady (sys w) = false -> gpio_log w' = gpio_log w /\ now w' = now w) /\
    (gpio_IsReady (sys w) = true ->
     gpio_log w' = gpio_log w ++ flashes (Z.to_nat xCount) ++
                   (if xFinalOn =? 0 then [] else [(LED_PIN, 1)]) /\
     now w' = now w + 2 * Z.max 0 xCount * half_second w).
Proof.
  unfold BlinkLed, bind, MS_TO_TICKS, get_sys, half_second.
  assert (Ht : (if pdMS_TO_TICKS (configTICK_RATE_HZ w) 500 <? 1 then 1
                else pdMS_TO_TICKS (configTICK_RATE_HZ w) 500)
               = Z.max 1 (pdMS_TO_TICKS (configTICK_RATE_HZ w) 500)).
  { destruct (Z.ltb_spec (pdMS_TO_TICKS (configTICK_RATE_HZ w) 500) 1); lia. }
  rewrite Ht. set (t := Z.max 1 _).
  destruct (gpio_IsReady (sys w)) eqn:Hg; cbn [negb].
  - rewrite BlinkLed_loop_flashes. unfold when, XGpioPs_WritePin, ret.
    replace (Z.of_nat (Z.to_nat xCount)) with (Z.max 0 xCount) by lia.
    destruct (xFinalOn =? 0); cbn [negb];
      (eexists; split; [reflexivity|]);
      (split; [unfold indicator_frame; cbn; intuition reflexivity|]);
      (split; [lia|]); (split; [discriminate|intros _]);
      cbn -[Z.mul Z.max]; rewrite ?app_nil_r, <- ?app_assoc; split; reflexivity.
  - exists w. split; [reflexivity|]. split; [apply indicator_frame_refl|].
    split; [lia|]. split; [auto|discriminate].
Qed.

(** X10.  The publisher does not hand the broker's answer on.  With a
    broker handle and a topic that the table knows, [prvPublishTopic]
    returns for each of the four answers, has made exactly one call of the
    broker with the entry found, the format and the arguments, has used up
    one answer, and leaves the system handle (result code, error text and
    reporting topic included) as it was; an answer other than success
    shows in one flash of the status indicator, when the GPIO driver is
    ready, and in nothing else. *)
Theorem prvPublishTopic_goes_on_whatever_the_broker_answers (t : TOPIC)
    (fmt : string) (args : list Arg) (h : Z) (ti : TopicInfo) (w : World) :
  xMQTTHandle (sys w) = Some h ->
  GetTopicInfo_loop (pTopicInfo w) t = Some ti ->
  exists w',
    prvPublishTopic t fmt args w = Normal tt w' /\
    sys w' = sys w /\
    mqtt_log w' = mqtt_log w ++ [mkPublication ti fmt args] /\
    mqtt_in w' = tl (mqtt_in w) /\
    gpio_log w' = gpio_log w ++
      match next_answer w with
      | eMQTTAgentSuccess => []
      | _ => if gpio_IsReady (sys w) then flashes 1 else []
      end.
Proof.
  intros Hh Ht.
  unfold prvPublishTopic, bind at 1, get_sys. rewrite Hh.
  unfold bind at 1, GetTopicInfo. rewrite Ht.
  unfold bind at 1, MQTT_AGENT_Publish. fold (next_answer w).
  set (w1 := with_mqtt _ _ w).
  destruct (BlinkLed_once w1) as (w2 & E & F & G).
  destruct F as (Fs & _ & _ & _ & _ & _ & _ & _ & Fl & Fi).
  change (gpio_IsReady (sys w1)) with (gpio_IsReady (sys w)) in G.
  change (gpio_log w1) with (gpio_log w) in G.
  destruct (next_answer w).
  - exists w1. cbn. rewrite app_nil_r. repeat split.
  - exists w2. rewrite Fs, Fl, Fi, G. repeat split. exact E.
  - exists w2. rewrite Fs, Fl, Fi, G. repeat split. exact E.
  - exists w2. unfold bind. rewrite E. rewrite Fs, Fl, Fi, G. repeat split.
Qed.

(** The theorem for a broker that answers with a time-out. *)
Lemma prvPublishTopic_goes_on_whatever_the_broker_answers_witness :
  exists w',
    prvPublishTopic TOPIC_SYSTEM_STATUS "System started" []
      (with_mqtt [eMQTTAgentTimeout] [] (world_of [] []))
    = Normal tt w' /\
    rc (sys w') = XST_SUCCESS /\
    gpio_log w' = [(LED_PIN, 1); (LED_PIN, 0)].
Proof.
  destruct (prvPublishTopic_goes_on_whatever_the_broker_answers
              TOPIC_SYSTEM_STATUS "System started" [] 1
              (mkTopicInfo TOPIC_SYSTEM_STATUS
                 (Some "/remote_io_module/sensor_status/System_Error") 44)
              (with_mqtt [eMQTTAgentTimeout] [] (world_of [] []))
              eq_refl eq_refl)
    as (w' & E & S & _ & _ & G).
  exists w'. split; [exact E|]. split; [now rewrite S|exact G].
Defined.

(* ================================================================== *)
(** * The register layer *)
(* ================================================================== *)

(** X11.  [ReadIicRegs], entered with the success code, a broker and a
    known reporting topic, always returns, and what it returns is the
    result code it leaves behind.  The address phase names the register,
    with bit 7 set for a count above 1.  When that phase does not send
    its one byte, the code is 1, the receive is not attempted and the
    buffer is untouched.  When the receive delivers a count other than
    the one asked for, that count is the code, so a receive that delivers
    nothing ends with the success code and without a report.  A code other
    than success is published on the reporting topic. *)
Theorem ReadIicRegs_outcome (addr n reg h : Z) (buf : list Z) (w : World) :
  rc (sys w) = XST_SUCCESS ->
  xMQTTHandle (sys w) = Some h -> pTopicInfo w = topic_table ->
  eTopic (sys w) <> TOPIC_LAST ->
  let a := hd no_reply (iic_in w) in
  let d := hd no_reply (tl (iic_in w)) in
  let send := IicSend addr [first_register n reg] XIIC_REPEATED_START in
  let recv := IicRecv addr n XIIC_STOP in
  (xfer a <> 1 ->
   exists w',
     ReadIicRegs addr n reg buf w = Normal (1, buf) w' /\
     rc (sys w') = 1 /\
     iic_log w' = iic_log w ++ [send] /\ iic_in w' = tl (iic_in w) /\
     published w' = published w ++
       [(eTopic (sys w), "ReadIicRegs::XIic_Send(Addr) -> %08x",
         [ArgInt 1])]) /\
  (xfer a = 1 -> xfer d <> n ->
   exists w',
     ReadIicRegs addr n reg buf w = Normal (xfer d, data d) w' /\
     rc (sys w') = xfer d /\
     iic_log w' = iic_log w ++ [send; recv] /\
     iic_in w' = tl (tl (iic_in w)) /\
     published w' = published w ++
       (if xfer d =? XST_SUCCESS then []
        else [(eTopic (sys w), "ReadIicRegs::XIic_Recv(Data) -> %08x",
               [ArgInt (xfer d)])])) /\
  (xfer a = 1 -> xfer d = n ->
   exists w',
     ReadIicRegs addr n reg buf w = Normal (XST_SUCCESS, data d) w' /\
     rc (sys w') = XST_SUCCESS /\
     iic_log w' = iic_log w ++ [send; recv] /\
     iic_in w' = tl (tl (iic_in w)) /\
     published w' = published w).
Proof.
  intros Hrc Hh Ht He a d send recv.
  unfold ReadIicRegs. fold (first_register n reg).
  set (w0 := with_iic_buf buf w).
  set (c1 := bind (XIic_Send addr [first_register n reg] 1 XIIC_REPEATED_START) _).
  set (c2 := bind (XIic_Recv addr n XIIC_STOP) _).
  split; [|split]; intros Ha; [|intros Hd..];
    unfold bind at 1; cbn beta iota; fold w0; unfold bind at 1.
  - (* the address phase fails *)
    pose (w1 := with_sys (set_pcErr "ReadIicRegs::XIic_Send(Addr) -> %08x")
                 (with_sys (set_rc 1)
                   (with_iic (tl (iic_in w)) (iic_log w ++ [send]) w0))).
    assert (E1 : c1 w0 = Normal tt w1).
    { unfold c1, bind, XIic_Send, when. cbn [iic_in w0 with_iic_buf].
      fold a. replace (1 =? xfer a) with false
        by (symmetry; apply Z.eqb_neq; congruence). reflexivity. }
    destruct (MAY_DIE_reports c1 w0 w1 tt h E1) as (w2 & E2 & D & P);
      [cbn; discriminate|exact Hh|exact Ht|exact He|].
    exists w2.
    rewrite (L_DIE_Goto _ w0 w2) by (apply bind_Goto, E2).
    destruct D as (Ds & _ & Di & Dl & Db & _).
    rewrite Ds, Db, Di, Dl. cbn. split; [reflexivity|].
    repeat split. exact P.
  - 
    pose (w1 := with_iic (tl (iic_in w)) (iic_log w ++ [send]) w0).
    assert (E1 : c1 w0 = Normal tt w1).
    { unfold c1, bind, XIic_Send, when. cbn [iic_in w0 with_iic_buf].
      fold a. rewrite Ha. reflexivity. }
    assert (M1 := MAY_DIE_passes c1 w0 w1 tt E1 Hrc).
    pose (w2 := with_sys (set_pcErr "ReadIicRegs::XIic_Recv(Data) -> %08x")
                 (with_sys (set_rc (xfer d))
                   (with_iic_buf (data d)
                     (with_iic (tl (tl (iic_in w)))
                        (iic_log w ++ [send; recv]) w1)))).
    assert (E2 : c2 w1 = Normal tt w2).
    { unfold c2, bind, XIic_Recv, when. cbn [iic_in w1 w0 with_iic_buf with_iic].
      fold d. replace (n =? xfer d) with false
        by (symmetry; apply Z.eqb_neq; congruence).
      cbn. rewrite <- app_assoc. reflexivity. }
    destruct (Z.eqb_spec (xfer d) XST_SUCCESS) as [Hz|Hz].
    + assert (M2 := MAY_DIE_passes c2 w1 w2 tt E2 Hz).
      exists w2.
      rewrite (L_DIE_Normal _ w0 w2 tt)
        by (rewrite (bind_Normal _ _ _ _ _ M1); exact M2).
      cbn. rewrite app_nil_r. repeat split.
    + destruct (MAY_DIE_reports c2 w1 w2 tt h E2) as (w3 & E3 & D & P);
        [exact Hz|exact Hh|exact Ht|exact He|].
      exists w3.
      rewrite (L_DIE_Goto _ w0 w3)
        by (rewrite (bind_Normal _ _ _ _ _ M1); exact E3).
      destruct D as (Ds & _ & Di & Dl & Db & _).
      rewrite Ds, Db, Di, Dl. cbn. split; [reflexivity|].
      repeat split. exact P.
  - 
    pose (w1 := with_iic (tl (iic_in w)) (iic_log w ++ [send]) w0).
    assert (E1 : c1 w0 = Normal tt w1).
    { unfold c1, bind, XIic_Send, when. cbn [iic_in w0 with_iic_buf].
      fold a. rewrite Ha. reflexivity. }
    assert (M1 := MAY_DIE_passes c1 w0 w1 tt E1 Hrc).
    pose (w2 := with_iic_buf (data d)
                     (with_iic (tl (tl (iic_in w)))
                        (iic_log w ++ [send; recv]) w1)).
    assert (E2 : c2 w1 = Normal tt w2).
    { unfold c2, bind, XIic_Recv, when. cbn [iic_in w1 w0 with_iic_buf with_iic].
      fold d. rewrite Hd, Z.eqb_refl.
      cbn. rewrite <- app_assoc. reflexivity. }
    assert (M2 := MAY_DIE_passes c2 w1 w2 tt E2 Hrc).
    exists w2.
    rewrite (L_DIE_Normal _ w0 w2 tt)
      by (rewrite (bind_Normal _ _ _ _ _ M1); exact M2).
    cbn. rewrite Hrc. repeat split.
Qed.

(** The theorem for a receive that delivers four of six bytes. *)
Lemma ReadIicRegs_outcome_witness :
  exists w',
    ReadIicRegs BAROMETER_SLAVE_ADDRESS 6 BAROMETER_REG_STATUS_REG []
      (world_of [sent 1; mkIicReply 4 [1; 2; 3; 4]] [])
    = Normal (4, [1; 2; 3; 4]) w' /\
    published w' =
      [(TOPIC_SYSTEM_STATUS, "ReadIicRegs::XIic_Recv(Data) -> %08x",
        [ArgInt 4])].
Proof.
  destruct (ReadIicRegs_outcome BAROMETER_SLAVE_ADDRESS 6
              BAROMETER_REG_STATUS_REG 1 []
              (world_of [sent 1; mkIicReply 4 [1; 2; 3; 4]] [])
              eq_refl eq_refl eq_refl ltac:(discriminate))
    as (_ & H & _).
  destruct (H eq_refl ltac:(discriminate)) as (w' & E & _ & _ & _ & P).
  exists w'. split; [exact E|exact P].
Defined.

(** X12.  [WriteIicRegs], entered with the success code, always returns
    after exactly one transfer of the buffer as it leaves it.  A transfer
    that sends the count asked for ends with the success code; any other
    count sent becomes the result code and the return value, and is
    published on the reporting topic unless that count is 0, which is the
    success code. *)
Theorem WriteIicRegs_outcome (addr n h : Z) (buf : list Z) (w : World) :
  rc (sys w) = XST_SUCCESS ->
  xMQTTHandle (sys w) = Some h -> pTopicInfo w = topic_table ->
  eTopic (sys w) <> TOPIC_LAST ->
  (2 < n -> buf <> []) ->
  let a := hd no_reply (iic_in w) in
  let out := buffer_after_write n buf in
  let code := if xfer a =? n then XST_SUCCESS else xfer a in
  exists w',
    WriteIicRegs addr n buf w = Normal (code, out) w' /\
    rc (sys w') = code /\
    iic_log w' = iic_log w ++
      [IicSend addr (firstn (Z.to_nat n) out) XIIC_STOP] /\
    iic_in w' = tl (iic_in w) /\
    published w' = published w ++
      (if code =? XST_SUCCESS then []
       else [(eTopic (sys w), "WriteIicRegs::XIic_Send(Buf) -> %08x",
              [ArgInt code])]).
Proof.
  intros Hrc Hh Ht He Hne a out code.
  unfold WriteIicRegs. rewrite Z.gtb_ltb.
  assert (E0 : (if 2 <? n
                then match buf with
                     | [] => crash BufferOverrun
                     | b0 :: rest => ret (Z.lor b0 0x80 :: rest)
                     end
                else ret buf) w = Normal out w).
  { unfold out, buffer_after_write. destruct (Z.ltb_spec 2 n); [|reflexivity].
    destruct buf; [now destruct Hne|reflexivity]. }
  rewrite (bind_Normal _ _ _ _ _ E0).
  set (c := bind (XIic_Send addr out n XIIC_STOP) _).
  unfold bind at 1.
  pose (w1 := with_iic (tl (iic_in w))
                (iic_log w ++ [IicSend addr (firstn (Z.to_nat n) out) XIIC_STOP])
                w).
  destruct (Z.eqb_spec (xfer a) n) as [Ha|Ha].
  - assert (E1 : c w = Normal tt w1).
    { unfold c, bind, XIic_Send, when. fold a. rewrite Ha, Z.eqb_refl.
      reflexivity. }
    assert (M1 := MAY_DIE_passes c w w1 tt E1 Hrc).
    exists w1. rewrite (L_DIE_Normal _ w w1 tt M1).
    unfold code. cbn. rewrite Hrc, app_nil_r. repeat split.
  - pose (w2 := with_sys (set_pcErr "WriteIicRegs::XIic_Send(Buf) -> %08x")
                  (with_sys (set_rc (xfer a)) w1)).
    assert (E1 : c w = Normal tt w2).
    { unfold c, bind, XIic_Send, when. fold a.
      replace (n =? xfer a) with false
        by (symmetry; apply Z.eqb_neq; congruence). reflexivity. }
    unfold code. destruct (Z.eqb_spec (xfer a) XST_SUCCESS) as [Hz|Hz].
    + assert (M1 := MAY_DIE_passes c w w2 tt E1 Hz).
      exists w2. rewrite (L_DIE_Normal _ w w2 tt M1).
      cbn. rewrite app_nil_r. repeat split.
    + destruct (MAY_DIE_reports c w w2 tt h E1) as (w3 & E3 & D & P);
        [exact Hz|exact Hh|exact Ht|exact He|].
      exists w3. rewrite (L_DIE_Goto _ w w3 E3).
      destruct D as (Ds & _ & Di & Dl & _).
      cbn. rewrite Ds, Di, Dl. cbn. repeat split. exact P.
Qed.

(** The theorem for a write of two bytes of which one is sent. *)
Lemma WriteIicRegs_outcome_witness :
  exists w',
    WriteIicRegs BAROMETER_SLAVE_ADDRESS 2 [0x21; 0x01]
      (world_of [sent 1] [])
    = Normal (1, [0x21; 0x01]) w' /\
    published w' =
      [(TOPIC_SYSTEM_STATUS, "WriteIicRegs::XIic_Send(Buf) -> %08x",
        [ArgInt 1])].
Proof.
  destruct (WriteIicRegs_outcome BAROMETER_SLAVE_ADDRESS 2 1 [0x21; 0x01]
              (world_of [sent 1] [])
              eq_refl eq_refl eq_refl ltac:(discriminate)
              ltac:(discriminate))
    as (w' & E & _ & _ & _ & P).
  exists w'. split; [exact E|exact P].
Defined.

(** X13.  [ReadIicRegs] does not reset the result code.  Entered with a
    code other than success, it sends the address phase and stops there:
    no receive, the buffer untouched.  It returns and reports the code it
    was entered with, under the error text it was entered with, when the
    address phase went through, and the code 1 when it did not. *)
Theorem ReadIicRegs_with_a_stale_code (addr n reg h : Z) (buf : list Z)
    (w : World) :
  rc (sys w) <> XST_SUCCESS ->
  xMQTTHandle (sys w) = Some h -> pTopicInfo w = topic_table ->
  eTopic (sys w) <> TOPIC_LAST ->
  let a := hd no_reply (iic_in w) in
  let code := if xfer a =? 1 then rc (sys w) else 1 in
  let text := if xfer a =? 1 then pcErr (sys w)
              else "ReadIicRegs::XIic_Send(Addr) -> %08x" in
  exists w',
    ReadIicRegs addr n reg buf w = Normal (code, buf) w' /\
    rc (sys w') = code /\
    iic_log w' = iic_log w ++
      [IicSend addr [first_register n reg] XIIC_REPEATED_START] /\
    iic_in w' = tl (iic_in w) /\
    published w' = published w ++ [(eTopic (sys w), text, [ArgInt code])].
Proof.
  intros Hrc Hh Ht He a code text.
  unfold ReadIicRegs. fold (first_register n reg).
  set (w0 := with_iic_buf buf w).
  set (c1 := bind (XIic_Send addr [first_register n reg] 1 XIIC_REPEATED_START) _).
  unfold bind at 1; cbn beta iota; fold w0; unfold bind at 1.
  pose (w1 := with_iic (tl (iic_in w))
                (iic_log w ++
                 [IicSend addr [first_register n reg] XIIC_REPEATED_START]) w0).
  pose (w2 := if xfer a =? 1 then w1
              else with_sys (set_pcErr "ReadIicRegs::XIic_Send(Addr) -> %08x")
                     (with_sys (set_rc 1) w1)).
  assert (E1 : c1 w0 = Normal tt w2).
  { unfold c1, bind, XIic_Send, when, w2. cbn [iic_in w0 with_iic_buf].
    fold a. rewrite (Z.eqb_sym 1). destruct (xfer a =? 1); reflexivity. }
  assert (R2 : rc (sys w2) = code /\ pcErr (sys w2) = text /\
               eTopic (sys w2) = eTopic (sys w) /\
               xMQTTHandle (sys w2) = xMQTTHandle (sys w) /\
               pTopicInfo w2 = pTopicInfo w /\
               iic_log w2 = iic_log w1 /\ iic_in w2 = iic_in w1 /\
               iic_buf w2 = buf /\ published w2 = published w).
  { unfold w2, code, text. destruct (xfer a =? 1); cbn; repeat split. }
  destruct R2 as (Rc & Rt & Re & Rh & Rp & Rl & Ri & Rb & Rm).
  destruct (MAY_DIE_reports c1 w0 w2 tt h E1) as (w3 & E3 & D & P).
  { rewrite Rc. unfold code. destruct (xfer a =? 1); [exact Hrc|discriminate]. }
  { now rewrite Rh. }
  { now rewrite Rp. }
  { now rewrite Re. }
  exists w3.
  rewrite (L_DIE_Goto _ w0 w3) by (apply bind_Goto, E3).
  destruct D as (Ds & _ & Di & Dl & Db & _).
  rewrite Ds, Db, Di, Dl, Rc, Rb, Rl, Ri. cbn. repeat split.
  rewrite P, Rm, Re, Rt, Rc. reflexivity.
Qed.

(** The theorem for a read that is entered with the code 7 and whose
    device answers in full. *)
Lemma ReadIicRegs_with_a_stale_code_witness :
  exists w',
    ReadIicRegs BAROMETER_SLAVE_ADDRESS 1 BAROMETER_REG_WHO_AM_I [0]
      (with_sys (set_rc 7) (world_of (reg_read 0xBD) []))
    = Normal (7, [0]) w' /\
    iic_log w' =
      [IicSend BAROMETER_SLAVE_ADDRESS [BAROMETER_REG_WHO_AM_I]
         XIIC_REPEATED_START] /\
    published w' = [(TOPIC_SYSTEM_STATUS, "Success", [ArgInt 7])].
Proof.
  destruct (ReadIicRegs_with_a_stale_code BAROMETER_SLAVE_ADDRESS 1
              BAROMETER_REG_WHO_AM_I 1 [0]
              (with_sys (set_rc 7) (world_of (reg_read 0xBD) []))
              ltac:(discriminate) eq_refl eq_refl ltac:(discriminate))
    as (w' & E & _ & L & _ & P).
  exists w'. split; [exact E|]. split; [exact L|exact P].
Defined.

(* ================================================================== *)
(** * The drivers of the two IIC sensors *)
(* ================================================================== *)

(** X14.  An identity byte that is neither the expected one nor 0 ends
    the start of its sensor after the identity read: the barometer (0xBD
    expected) and the hygrometer (0xBC expected) publish the mismatch on
    their status topic with the byte read as its argument, leave that byte
    as the result code, and make no other bus transfer. *)
Theorem identity_mismatch_ends_the_start (b h : Z) (rest : list IicReply)
    (w : World) :
  b <> 0 ->
  rc (sys w) = XST_SUCCESS ->
  xMQTTHandle (sys w) = Some h -> pTopicInfo w = topic_table ->
  iic_in w = reg_read b ++ rest ->
  (b <> 0xBD ->
   exists w',
     StartBarometer w = Normal tt w' /\
     published w' = published w ++
       [(TOPIC_BAROMETER_STATUS, "BAROMETER_WHO_AM_I = %08x != BD",
         [ArgInt b])] /\
     rc (sys w') = b /\ iic_in w' = rest /\
     iic_log w' = iic_log w ++
       register_reads BAROMETER_SLAVE_ADDRESS BAROMETER_REG_WHO_AM_I 1) /\
  (b <> 0xBC ->
   exists w',
     StartHygrometer w = Normal tt w' /\
     published w' = published w ++
       [(TOPIC_HYGROMETER_STATUS, "HYGROMETER_WHO_AM_I = %08x != BC",
         [ArgInt b])] /\
     rc (sys w') = b /\ iic_in w' = rest /\
     iic_log w' = iic_log w ++
       register_reads HYGROMETER_SLAVE_ADDRESS HYGROMETER_REG_WHO_AM_I 1).
Proof.
  intros Hb0 Hrc Hh Ht Hin. split; intros Hb.
  - exact (StartBarometer_identity_mismatch b h rest w Hb Hb0 Hrc Hh Ht Hin).
  - exact (StartHygrometer_identity_mismatch b h rest w Hb Hb0 Hrc Hh Ht Hin).
Qed.

(** The theorem for a hygrometer at the barometer's address. *)
Lemma identity_mismatch_ends_the_start_witness :
  exists w',
    StartBarometer (world_of (reg_read 0xBC) []) = Normal tt w' /\
    published w' =
      [(TOPIC_BAROMETER_STATUS, "BAROMETER_WHO_AM_I = %08x != BD",
        [ArgInt 0xBC])] /\
    rc (sys w') = 0xBC.
Proof.
  destruct (identity_mismatch_ends_the_start 0xBC 1 []
              (world_of (reg_read 0xBC) [])
              ltac:(discriminate) eq_refl eq_refl eq_refl eq_refl)
    as (H & _).
  destruct (H ltac:(discriminate)) as (w' & E & P & R & _).
  exists w'. split; [exact E|]. split; [exact P|exact R].
Defined.

(** X15.  The start of the barometer on a device that answers: the
    identity 0xBD, the reset bit set in [k1] polls and then cleared, the
    boot bit set in [k2] polls and then cleared, both before the last
    poll of the 100.  The driver reads the identity, writes the reset,
    polls, writes the boot, polls, writes the power-up, in this order and
    with nothing else on the bus, ends with the success code and
    publishes "Barometer started". *)
Theorem StartBarometer_brings_the_sensor_up (k1 k2 : nat)
    (s1 c1 s2 c2 h : Z) (rest : list IicReply) (w : World) :
  rc (sys w) = XST_SUCCESS ->
  xMQTTHandle (sys w) = Some h -> pTopicInfo w = topic_table ->
  (k1 < 99)%nat -> (k2 < 99)%nat ->
  Z.land s1 BAROMETER_BFLD_SWRESET <> 0 ->
  Z.land c1 BAROMETER_BFLD_SWRESET = 0 ->
  Z.land s2 BAROMETER_BFLD_BOOT <> 0 ->
  Z.land c2 BAROMETER_BFLD_BOOT = 0 ->
  iic_in w = reg_read 0xBD
             ++ [sent 2] ++ polls k1 s1 ++ reg_read c1
             ++ [sent 2] ++ polls k2 s2 ++ reg_read c2
             ++ [sent 2] ++ rest ->
  exists w',
    StartBarometer w = Normal tt w' /\
    rc (sys w') = XST_SUCCESS /\
    iic_in w' = rest /\
    iic_log w' = iic_log w ++ barometer_start_log k1 k2 /\
    published w' = published w ++
      [(TOPIC_BAROMETER_STATUS, "Barometer started", [])].
Proof.
  intros Hrc Hh Ht Hk1 Hk2 Hs1 Hc1 Hs2 Hc2 Hin.
  unfold StartBarometer, L_DIE.
  rewrite (bind_Normal _ _ _ _ _ (MS_TO_TICKS_1 w)).
  set (t := one_ms w).
  rewrite (bind_Normal (modify_sys _) _ w _ tt eq_refl).
  set (w0 := with_sys (set_eTopic TOPIC_BAROMETER_STATUS) w).
  (* the identity *)
  rewrite (bind_Normal _ _ _ _ _
             (read_step BAROMETER_SLAVE_ADDRESS BAROMETER_REG_WHO_AM_I 0xBD
                uninitialised _ _ w0 Hrc Hin)).
  set (w1 := with_sys _ (with_iic_buf _ _)).
  rewrite (bind_Normal _ _ w1 w1 tt)
    by (apply MAY_DIE_passes; [reflexivity|exact Hrc]).
  (* the software reset *)
  rewrite (bind_Normal _ _ _ _ _
             (write_step BAROMETER_SLAVE_ADDRESS BAROMETER_REG_CTRL_REG2
                BAROMETER_BFLD_SWRESET _ _ w1 Hrc eq_refl)).
  set (w2 := with_sys _ (with_iic _ _ w1)).
  destruct (register_poll_loop BAROMETER_SLAVE_ADDRESS BAROMETER_REG_CTRL_REG2
              "ReadIicReg(BAROMETER_REG_CTRL_REG2) -> %08x"
              BAROMETER_BFLD_SWRESET t 100 k1 189 s1 c1
              ([sent 2] ++ polls k2 s2 ++ reg_read c2 ++ [sent 2] ++ rest)
              w2 Hrc)
    as (w3 & E3 & F3 & I3 & L3 & N3);
    [reflexivity|exact Hs1|exact Hc1|lia|].
  unfold register_poll in E3.
  rewrite (bind_Normal _ _ _ _ _ E3). cbn [fst snd].
  replace (Z.of_nat 100 - Z.of_nat k1 - 1 <=? 0) with false
    by (symmetry; apply Z.leb_gt; lia).
  cbn [when]. rewrite (bind_Normal (ret tt) _ w3 w3 tt eq_refl).
  destruct F3 as (R3 & T3 & H3 & C3 & P3 & M3 & MI3 & _ & _ & G3 & Z3).
  assert (Hrc3 : rc (sys w3) = XST_SUCCESS) by (rewrite R3; exact Hrc).
  (* the boot *)
  rewrite (bind_Normal _ _ _ _ _
             (write_step BAROMETER_SLAVE_ADDRESS BAROMETER_REG_CTRL_REG2
                BAROMETER_BFLD_BOOT _ _ w3 Hrc3 I3)).
  set (w4 := with_sys _ (with_iic _ _ w3)).
  destruct (register_poll_loop BAROMETER_SLAVE_ADDRESS BAROMETER_REG_CTRL_REG2
              "ReadIicReg(BAROMETER_REG_CTRL_REG2) -> %08x"
              BAROMETER_BFLD_BOOT t 100 k2 c1 s2 c2 ([sent 2] ++ rest)
              w4 Hrc3)
    as (w5 & E5 & F5 & I5 & L5 & N5);
    [reflexivity|exact Hs2|exact Hc2|lia|].
  unfold register_poll in E5.
  rewrite (bind_Normal _ _ _ _ _ E5). cbn [fst snd].
  replace (Z.of_nat 100 - Z.of_nat k2 - 1 <=? 0) with false
    by (symmetry; apply Z.leb_gt; lia).
  cbn [when]. rewrite (bind_Normal (ret tt) _ w5 w5 tt eq_refl).
  destruct F5 as (R5 & T5 & H5 & C5 & P5 & M5 & MI5 & _ & _ & G5 & Z5).
  assert (Hrc5 : rc (sys w5) = XST_SUCCESS) by (rewrite R5; exact Hrc3).
  (* power up *)
  rewrite (bind_Normal _ _ _ _ _
             (write_step BAROMETER_SLAVE_ADDRESS BAROMETER_REG_CTRL_REG1
                BAROMETER_BFLD_PD _ _ w5 Hrc5 I5)).
  set (w6 := with_sys _ (with_iic _ _ w5)).
  rewrite (bind_Normal (vTaskDelay t) _ w6 _ tt eq_refl).
  set (w7 := with_now _ w6).
  destruct (prvPublishTopic_publishes TOPIC_BAROMETER_STATUS
              "Barometer started" [] w7 h) as (w8 & E8 & D8 & P8).
  { cbn. rewrite H5. cbn. rewrite H3. exact Hh. }
  { cbn. rewrite P5. cbn. rewrite P3. exact Ht. }
  { discriminate. }
  rewrite E8. exists w8. split; [reflexivity|].
  destruct D8 as (Ds & _ & Di & Dl & _).
  rewrite Ds, Di, Dl, P8.
  cbn. rewrite Hrc5, L5. cbn. rewrite L3. cbn.
  unfold published. cbn. rewrite M5. cbn. rewrite M3. cbn.
  split; [reflexivity|]. split; [reflexivity|].
  split; [unfold barometer_start_log; rewrite <- !app_assoc; reflexivity|].
  reflexivity.
Qed.

(** The theorem for a reset that takes three polls and a boot that takes
    one. *)
Lemma StartBarometer_brings_the_sensor_up_witness :
  exists w',
    StartBarometer
      (world_of (reg_read 0xBD ++ [sent 2] ++ polls 2 0x04 ++ reg_read 0x00
                 ++ [sent 2] ++ polls 0 0x80 ++ reg_read 0x00
                 ++ [sent 2] ++ []) [])
    = Normal tt w' /\
    rc (sys w') = XST_SUCCESS /\
    published w' = [(TOPIC_BAROMETER_STATUS, "Barometer started", [])].
Proof.
  destruct (StartBarometer_brings_the_sensor_up 2 0 0x04 0x00 0x80 0x00 1 []
              (world_of (reg_read 0xBD ++ [sent 2] ++ polls 2 0x04
                         ++ reg_read 0x00 ++ [sent 2] ++ polls 0 0x80
                         ++ reg_read 0x00 ++ [sent 2] ++ []) [])
              eq_refl eq_refl eq_refl ltac:(lia) ltac:(lia)
              ltac:(discriminate) eq_refl ltac:(discriminate) eq_refl
              eq_refl)
    as (w' & E & R & _ & _ & P).
  exists w'. split; [exact E|]. split; [exact R|exact P].
Defined.

(** X16.  The start of the hygrometer on a device that answers: the
    identity 0xBC, the boot bit set in [k] polls and then cleared before
    the last poll of the 1000, then the 16 calibration registers.  The
    block that the device delivers is what the system handle holds as
    calibration afterwards; the driver ends with the success code, has
    made the transfers of the start in order and nothing else, and
    publishes "Hygrometer started". *)
Theorem StartHygrometer_stores_the_calibration (k : nat) (s c h : Z)
    (calibration : list Z) (rest : list IicReply) (w : World) :
  rc (sys w) = XST_SUCCESS ->
  xMQTTHandle (sys w) = Some h -> pTopicInfo w = topic_table ->
  (k < 999)%nat ->
  Z.land s HYGROMETER_BFLD_BOOT <> 0 ->
  Z.land c HYGROMETER_BFLD_BOOT = 0 ->
  List.length calibration = 16%nat ->
  iic_in w = reg_read 0xBC
             ++ [sent 2] ++ polls k s ++ reg_read c
             ++ block_read calibration
             ++ [sent 2] ++ rest ->
  exists w',
    StartHygrometer w = Normal tt w' /\
    rc (sys w') = XST_SUCCESS /\
    pbHygrometerCalibration (sys w') = calibration /\
    iic_in w' = rest /\
    iic_log w' = iic_log w ++ hygrometer_start_log k /\
    published w' = published w ++
      [(TOPIC_HYGROMETER_STATUS, "Hygrometer started", [])].
Proof.
  intros Hrc Hh Ht Hk Hs Hc Hl Hin.
  unfold StartHygrometer, L_DIE.
  rewrite (bind_Normal _ _ _ _ _ (MS_TO_TICKS_1 w)).
  set (t := one_ms w).
  rewrite (bind_Normal (modify_sys _) _ w _ tt eq_refl).
  set (w0 := with_sys (set_eTopic TOPIC_HYGROMETER_STATUS) w).
  rewrite (bind_Normal _ _ _ _ _
             (read_step HYGROMETER_SLAVE_ADDRESS HYGROMETER_REG_WHO_AM_I 0xBC
                uninitialised _ _ w0 Hrc Hin)).
  set (w1 := with_sys _ (with_iic_buf _ _)).
  rewrite (bind_Normal _ _ w1 w1 tt)
    by (apply MAY_DIE_passes; [reflexivity|exact Hrc]).
  rewrite (bind_Normal _ _ _ _ _
             (write_step HYGROMETER_SLAVE_ADDRESS HYGROMETER_REG_CTRL_REG2
                HYGROMETER_BFLD_BOOT _ _ w1 Hrc eq_refl)).
  set (w2 := with_sys _ (with_iic _ _ w1)).
  destruct (register_poll_loop HYGROMETER_SLAVE_ADDRESS HYGROMETER_REG_CTRL_REG2
              "ReadIicReg(BAROMETER_REG_CTRL_REG2) -> %08x"
              HYGROMETER_BFLD_BOOT t (Z.to_nat 1000) k 0xBC s c
              (block_read calibration ++ [sent 2] ++ rest)
              w2 Hrc)
    as (w3 & E3 & F3 & I3 & L3 & N3);
    [reflexivity|exact Hs|exact Hc|lia|].
  unfold register_poll in E3.
  rewrite (bind_Normal _ _ _ _ _ E3). cbn [fst snd].
  replace (Z.of_nat (Z.to_nat 1000) - Z.of_nat k - 1 <=? 0) with false
    by (symmetry; apply Z.leb_gt; lia).
  cbn [when]. rewrite (bind_Normal (ret tt) _ w3 w3 tt eq_refl).
  destruct F3 as (R3 & T3 & H3 & C3 & P3 & M3 & MI3 & _ & _ & G3 & Z3).
  assert (Hrc3 : rc (sys w3) = XST_SUCCESS) by (rewrite R3; exact Hrc).
  (* the calibration block *)
  unfold block_read in I3. rewrite Hl in I3. cbn [app Z.of_nat] in I3.
  set (w4 := with_sys (set_pcErr "ReadIicRegs(HYGROMETER_REG_CALIB_0) -> %08x")
               (with_sys (set_calibration calibration)
                  (with_iic_buf calibration
                     (with_iic ([sent 2] ++ rest)
                        (iic_log w3 ++
                         block_reads HYGROMETER_SLAVE_ADDRESS 16
                           HYGROMETER_REG_CALIB_0 1) w3)))).
  rewrite (bind_Normal _ _ w3 w4 tt).
  2:{ apply MAY_DIE_passes; [|exact Hrc3].
      unfold bind at 1, get_sys.
      rewrite (bind_Normal _ _ _ _ _
                 (ReadIicRegs_reads HYGROMETER_SLAVE_ADDRESS 16
                    HYGROMETER_REG_CALIB_0 _ calibration _ w3 Hrc3 I3)).
      reflexivity. }
  rewrite (bind_Normal _ _ _ _ _
             (write_step HYGROMETER_SLAVE_ADDRESS HYGROMETER_REG_CTRL_REG1
                HYGROMETER_BFLD_PD _ _ w4 Hrc3 eq_refl)).
  set (w6 := with_sys _ (with_iic _ _ w4)).
  rewrite (bind_Normal (vTaskDelay t) _ w6 _ tt eq_refl).
  set (w7 := with_now _ w6).
  destruct (prvPublishTopic_publishes TOPIC_HYGROMETER_STATUS
              "Hygrometer started" [] w7 h) as (w8 & E8 & D8 & P8).
  { cbn. rewrite H3. exact Hh. }
  { cbn. rewrite P3. exact Ht. }
  { discriminate. }
  rewrite E8. exists w8. split; [reflexivity|].
  destruct D8 as (Ds & _ & Di & Dl & _).
  rewrite Ds, Di, Dl, P8.
  cbn. rewrite Hrc3, L3. cbn.
  unfold published. cbn. rewrite M3. cbn.
  split; [reflexivity|]. split; [reflexivity|]. split; [reflexivity|].
  split; [unfold hygrometer_start_log; rewrite <- !app_assoc; reflexivity|].
  reflexivity.
Qed.

(** The theorem for a boot that takes two polls. *)
Lemma StartHygrometer_stores_the_calibration_witness :
  exists w',
    StartHygrometer
      (world_of (reg_read 0xBC ++ [sent 2] ++ polls 1 0x80 ++ reg_read 0x00
                 ++ block_read hygrometer_calibration ++ [sent 2] ++ []) [])
    = Normal tt w' /\
    pbHygrometerCalibration (sys w') = hygrometer_calibration /\
    published w' = [(TOPIC_HYGROMETER_STATUS, "Hygrometer started", [])].
Proof.
  destruct (StartHygrometer_stores_the_calibration 1 0x80 0x00 1
              hygrometer_calibration []
              (world_of (reg_read 0xBC ++ [sent 2] ++ polls 1 0x80
                         ++ reg_read 0x00
                         ++ block_read hygrometer_calibration
                         ++ [sent 2] ++ []) [])
              eq_refl eq_refl eq_refl ltac:(lia) ltac:(discriminate) eq_refl
              eq_refl eq_refl)
    as (w' & E & _ & C & _ & _ & P).
  exists w'. split; [exact E|]. split; [exact C|exact P].
Defined.

(** X17.  A sample of the barometer on a device that answers: the
    one-shot bit set in [k1] polls and then cleared, the block read [k2]
    times without both data-ready bits and then with both, each before
    the last round of its 50.  The driver ends with the success code,
    has written the one-shot trigger and made these reads and nothing
    else, and publishes the pressure and the temperature that it builds
    from the first block that had both bits; the earlier blocks do not
    show. *)
Theorem SampleBarometer_publishes_the_first_ready_block (k1 k2 : nat)
    (s c h : Z) (early block : list Z) (rest : list IicReply) (w : World) :
  rc (sys w) = XST_SUCCESS ->
  xMQTTHandle (sys w) = Some h -> pTopicInfo w = topic_table ->
  (k1 < 49)%nat -> (k2 < 49)%nat ->
  Z.land s BAROMETER_BFLD_ONE_SHOT <> 0 ->
  Z.land c BAROMETER_BFLD_ONE_SHOT = 0 ->
  List.length early = 6%nat -> List.length block = 6%nat ->
  ~ barometer_data_ready early -> barometer_data_ready block ->
  iic_in w = [sent 2] ++ polls k1 s ++ reg_read c
             ++ block_polls k2 early ++ block_read block ++ rest ->
  exists w',
    SampleBarometer w = Normal tt w' /\
    rc (sys w') = XST_SUCCESS /\
    iic_in w' = rest /\
    iic_log w' = iic_log w ++ barometer_sample_log k1 k2 /\
    published w' = published w ++
      [(TOPIC_BAROMETER_PRESSURE, "%.2f hPa",
        [ArgFloat (F_div (F_of_int (barometer_pressure_sqTmp block))
                         (F_lit (4096 # 1)))]);
       (TOPIC_BAROMETER_TEMPERATURE, "%.2f C",
        [ArgFloat (F_add (F_lit (85 # 2))
                     (F_div (F_of_int (barometer_temperature_sqTmp block))
                            (F_dbl (480 # 1))))])].
Proof. exact (SampleBarometer_ends k1 k2 s c h early block rest w). Qed.

(** The theorem for a one-shot bit that takes two polls and data that is
    ready in the third read of the block. *)
Lemma SampleBarometer_publishes_the_first_ready_block_witness :
  exists w',
    SampleBarometer
      (world_of ([sent 2] ++ polls 1 0x01 ++ reg_read 0x00
                 ++ block_polls 2 [0x01; 9; 9; 9; 9; 9]
                 ++ block_read [0x03; 0x00; 0xF0; 0xFF; 0x20; 0xFE] ++ [])
         [])
    = Normal tt w' /\
    published w' =
      [(TOPIC_BAROMETER_PRESSURE, "%.2f hPa",
        [ArgFloat (F_div (F_of_int (-4096)) (F_lit (4096 # 1)))]);
       (TOPIC_BAROMETER_TEMPERATURE, "%.2f C",
        [ArgFloat (F_add (F_lit (85 # 2))
                         (F_div (F_of_int (-480)) (F_dbl (480 # 1))))])].
Proof.
  destruct (SampleBarometer_publishes_the_first_ready_block 1 2 0x01 0x00 1
              [0x01; 9; 9; 9; 9; 9] [0x03; 0x00; 0xF0; 0xFF; 0x20; 0xFE] []
              (world_of ([sent 2] ++ polls 1 0x01 ++ reg_read 0x00
                         ++ block_polls 2 [0x01; 9; 9; 9; 9; 9]
                         ++ block_read [0x03; 0x00; 0xF0; 0xFF; 0x20; 0xFE]
                         ++ []) [])
              eq_refl eq_refl eq_refl ltac:(lia) ltac:(lia)
              ltac:(discriminate) eq_refl eq_refl eq_refl
              ltac:(discriminate) eq_refl eq_refl)
    as (w' & E & _ & _ & _ & P).
  exists w'. split; [exact E|exact P].
Defined.

(** X18.  The samples of the two IIC sensors do not reset the result
    code.  Entered with a code other than success, and with a device that
    takes the one-shot write, [SampleBarometer] and [SampleHygrometer]
    each make that one transfer and return: no poll, no measurement, the
    code still in place, and two reports of it on the sensor's status
    topic, the first under the error text that was left behind and the
    second under the text of the one-shot write. *)
Theorem IIC_sample_with_a_stale_code_only_reports_it (h : Z)
    (rest : list IicReply) (w : World) :
  rc (sys w) <> XST_SUCCESS ->
  xMQTTHandle (sys w) = Some h -> pTopicInfo w = topic_table ->
  iic_in w = sent 2 :: rest ->
  (exists w',
     SampleBarometer w = Normal tt w' /\
     rc (sys w') = rc (sys w) /\
     iic_in w' = rest /\
     iic_log w' = iic_log w ++
       [IicSend BAROMETER_SLAVE_ADDRESS
          [BAROMETER_REG_CTRL_REG2; BAROMETER_BFLD_ONE_SHOT] XIIC_STOP] /\
     published w' = published w ++
       [(TOPIC_BAROMETER_STATUS, pcErr (sys w), [ArgInt (rc (sys w))]);
        (TOPIC_BAROMETER_STATUS,
         "WriteIicReg(BAROMETER_REG_CTRL_REG2::BAROMETER_BFLD_ONE_SHOT) -> %08x",
         [ArgInt (rc (sys w))])]) /\
  (exists w',
     SampleHygrometer w = Normal tt w' /\
     rc (sys w') = rc (sys w) /\
     iic_in w' = rest /\
     iic_log w' = iic_log w ++
       [IicSend HYGROMETER_SLAVE_ADDRESS
          [HYGROMETER_REG_CTRL_REG2; HYGROMETER_BFLD_ONE_SHOT] XIIC_STOP] /\
     published w' = published w ++
       [(TOPIC_HYGROMETER_STATUS, pcErr (sys w), [ArgInt (rc (sys w))]);
        (TOPIC_HYGROMETER_STATUS,
         "WriteIicReg(HYGROMETER_REG_CTRL_REG2::HYGROMETER_BFLD_ONE_SHOT) -> %08x",
         [ArgInt (rc (sys w))])]).
Proof.
  intros Hrc Hh Ht Hin. split.
  - unfold SampleBarometer, SampleBarometer_acquire.
    set (w0 := with_sys (set_eTopic TOPIC_BAROMETER_STATUS) w).
    destruct (WriteIicReg_with_a_stale_code BAROMETER_SLAVE_ADDRESS
                BAROMETER_REG_CTRL_REG2 BAROMETER_BFLD_ONE_SHOT h rest w0
                Hrc Hh Ht ltac:(discriminate) Hin)
      as (w1 & E1 & S1 & T1 & I1 & L1 & P1).
    match goal with
    | |- context [MAY_DIE (bind ?c ?k)] =>
        set (code := bind c k);
        pose (w2 := with_sys (set_pcErr
          "WriteIicReg(BAROMETER_REG_CTRL_REG2::BAROMETER_BFLD_ONE_SHOT) -> %08x")
          w1);
        assert (E2 : code w0 = Normal tt w2)
          by (unfold code; rewrite (bind_Normal _ _ _ _ _ E1); reflexivity)
    end.
    destruct (MAY_DIE_reports code w0 w2 tt h E2) as (w3 & E3 & D & P).
    { cbn. rewrite S1. exact Hrc. }
    { cbn. rewrite S1. exact Hh. }
    { cbn. rewrite T1. exact Ht. }
    { cbn. rewrite S1. discriminate. }
    exists w3. split.
    + apply L_DIE_Goto. apply bind_Goto.
      rewrite (bind_Normal _ _ _ _ _ (MS_TO_TICKS_1 w)).
      rewrite (bind_Normal (modify_sys _) _ w w0 tt eq_refl).
      apply bind_Goto. exact E3.
    + destruct D as (Ds & _ & Di & Dl & _).
      rewrite Ds, Di, Dl, P. unfold published in *. cbn. rewrite S1, I1, L1.
      cbn. rewrite P1. cbn. rewrite <- app_assoc. repeat split.
  - unfold SampleHygrometer.
    set (w0 := with_sys (set_eTopic TOPIC_HYGROMETER_STATUS) w).
    destruct (WriteIicReg_with_a_stale_code HYGROMETER_SLAVE_ADDRESS
                HYGROMETER_REG_CTRL_REG2 HYGROMETER_BFLD_ONE_SHOT h rest w0
                Hrc Hh Ht ltac:(discriminate) Hin)
      as (w1 & E1 & S1 & T1 & I1 & L1 & P1).
    match goal with
    | |- context [MAY_DIE (bind ?c ?k)] =>
        set (code := bind c k);
        pose (w2 := with_sys (set_pcErr
          "WriteIicReg(HYGROMETER_REG_CTRL_REG2::HYGROMETER_BFLD_ONE_SHOT) -> %08x")
          w1);
        assert (E2 : code w0 = Normal tt w2)
          by (unfold code; rewrite (bind_Normal _ _ _ _ _ E1); reflexivity)
    end.
    destruct (MAY_DIE_reports code w0 w2 tt h E2) as (w3 & E3 & D & P).
    { cbn. rewrite S1. exact Hrc. }
    { cbn. rewrite S1. exact Hh. }
    { cbn. rewrite T1. exact Ht. }
    { cbn. rewrite S1. discriminate. }
    exists w3. split.
    + apply L_DIE_Goto.
      rewrite (bind_Normal _ _ _ _ _ (MS_TO_TICKS_1 w)).
      rewrite (bind_Normal (modify_sys _) _ w w0 tt eq_refl).
      apply bind_Goto. exact E3.
    + destruct D as (Ds & _ & Di & Dl & _).
      rewrite Ds, Di, Dl, P. unfold published in *. cbn. rewrite S1, I1, L1.
      cbn. rewrite P1. cbn. rewrite <- app_assoc. repeat split.
Qed.

(** The theorem for the code 1 left behind by a failed SPI transfer. *)
Lemma IIC_sample_with_a_stale_code_only_reports_it_witness :
  exists w',
    SampleHygrometer
      (with_sys (set_rc XST_FAILURE) (world_of hygrometer_sample_script []))
    = Normal tt w' /\
    published w' =
      [(TOPIC_HYGROMETER_STATUS, "Success", [ArgInt 1]);
       (TOPIC_HYGROMETER_STATUS,
        "WriteIicReg(HYGROMETER_REG_CTRL_REG2::HYGROMETER_BFLD_ONE_SHOT) -> %08x",
        [ArgInt 1])].
Proof.
  destruct (IIC_sample_with_a_stale_code_only_reports_it 1
              (reg_read 0x00 ++ block_read [0x03; 0x10; 0x20; 0x30; 0x40])
              (with_sys (set_rc XST_FAILURE)
                 (world_of hygrometer_sample_script []))
              ltac:(discriminate) eq_refl eq_refl eq_refl)
    as (_ & w' & E & _ & _ & _ & P).
  exists w'. split; [exact E|exact P].
Defined.

(* ================================================================== *)
(** * The thermocouple behind the SPI controller *)
(* ================================================================== *)

(** X19.  The 4-word transfer of [SamplePLTempSensor] on a controller
    that shows its transmit FIFO empty after some status reads, the
    occupancy 3 after some occupancy reads, and then a receive FIFO of up
    to four words.  The transfer returns the words in the order of the
    FIFO, with the all-ones words of the caller's array behind them when
    there are fewer than four; the result code is the success code
    exactly when there were four, whatever it was before; every answer of
    the controller up to the one that shows the FIFO empty is used up; and
    the controller is inhibited and the slave deselected at the end. *)
Theorem SPI_transfer_delivers_what_the_FIFO_holds
    (busy other words rest : list Z) (fuel : nat) (w : World) :
  Forall (fun v => Z.land (to_u32 v) XSP_SR_TX_EMPTY_MASK = 0) busy ->
  Forall (fun v => to_u32 v <> 3) other ->
  (List.length busy < fuel)%nat -> (List.length other < fuel)%nat ->
  (List.length words < fuel)%nat ->
  (List.length words <= 4)%nat ->
  spi_in w = spi_answers busy other words ++ rest ->
  exists w',
    SamplePLTempSensor_transfer fuel w
    = Normal (map to_u32 words ++
              skipn (List.length words)
                [0xFFFFFFFF; 0xFFFFFFFF; 0xFFFFFFFF; 0xFFFFFFFF]) w' /\
    rc (sys w') =
      (if (List.length words =? 4)%nat then XST_SUCCESS else XST_FAILURE) /\
    spi_in w' = rest /\
    spi_log w' = spi_log w ++
      spi_transfer_log (S (List.length busy)) (S (List.length other))
        (List.length words).
Proof.
  intros Hb Ho Hfb Hfo Hfw Hw Hin.
  destruct (SamplePLTempSensor_transfer_ends busy other words rest fuel w
              Hb Ho Hfb Hfo Hfw Hw Hin) as (w' & E & Hs & Hi & Hl & _).
  exists w'. rewrite Hs. repeat split; assumption.
Qed.

(** The theorem for a controller that is busy for one status read and
    then delivers four words. *)
Lemma SPI_transfer_delivers_what_the_FIFO_holds_witness :
  exists w',
    SamplePLTempSensor_transfer 8
      (world_of [] (spi_answers [0] [] [0x01; 0x90; 0x19; 0x00] ++ []))
    = Normal [0x01; 0x90; 0x19; 0x00] w' /\
    rc (sys w') = XST_SUCCESS.
Proof.
  destruct (SPI_transfer_delivers_what_the_FIFO_holds
              [0] [] [0x01; 0x90; 0x19; 0x00] [] 8
              (world_of [] (spi_answers [0] [] [0x01; 0x90; 0x19; 0x00]
                            ++ []))
              ltac:(repeat constructor) ltac:(constructor)
              ltac:(cbn; lia) ltac:(cbn; lia) ltac:(cbn; lia)
              ltac:(cbn; lia) eq_refl)
    as (w' & E & R & _).
  exists w'. split; [exact E|exact R].
Defined.

(** X20.  A transfer that drains fewer than four words is a failure of
    the sample and nothing else: [SamplePLTempSensor] returns with the
    failure code and its one publication is "SPI Transaction failure" on
    the thermocouple's status topic, whatever the words that did arrive
    say. *)
Theorem short_SPI_transfer_is_reported_as_a_failure
    (busy other words rest : list Z) (fuel : nat) (h : Z) (w : World) :
  Forall (fun v => Z.land (to_u32 v) XSP_SR_TX_EMPTY_MASK = 0) busy ->
  Forall (fun v => to_u32 v <> 3) other ->
  (List.length busy < fuel)%nat -> (List.length other < fuel)%nat ->
  (List.length words < fuel)%nat ->
  (List.length words < 4)%nat ->
  spi_in w = spi_answers busy other words ++ rest ->
  xMQTTHandle (sys w) = Some h -> pTopicInfo w = topic_table ->
  exists w',
    SamplePLTempSensor fuel w = Normal tt w' /\
    rc (sys w') = XST_FAILURE /\
    published w' = published w ++
      [(TOPIC_THERMOCOUPLE_STATUS, "SPI Transaction failure", [])].
Proof.
  intros Hb Ho Hfb Hfo Hfw Hw Hin Hh Ht.
  destruct (SamplePLTempSensor_transfer_ends busy other words rest fuel w
              Hb Ho Hfb Hfo Hfw ltac:(lia) Hin)
    as (w1 & E & Hs & _ & _ & Ht1 & Hm & _).
  replace (List.length words =? 4)%nat with false in Hs
    by (symmetry; apply Nat.eqb_neq; lia).
  unfold SamplePLTempSensor. rewrite (bind_Normal _ _ _ _ _ E).
  unfold SamplePLTempSensor_report, bind at 1, get_sys. rewrite Hs.
  cbn [rc set_rc negb Z.eqb XST_SUCCESS XST_FAILURE].
  destruct (prvPublishTopic_publishes TOPIC_THERMOCOUPLE_STATUS
              "SPI Transaction failure" [] w1 h) as (w2 & E2 & D & P).
  { rewrite Hs. exact Hh. }
  { rewrite Ht1. exact Ht. }
  { discriminate. }
  exists w2. split; [exact E2|].
  destruct D as (Ds & _). rewrite Ds, Hs, P. unfold published. rewrite Hm.
  split; reflexivity.
Qed.

(** The theorem for a FIFO of three words. *)
Lemma short_SPI_transfer_is_reported_as_a_failure_witness :
  exists w',
    SamplePLTempSensor 8
      (world_of [] (spi_answers [] [] [0x01; 0x90; 0x19] ++ []))
    = Normal tt w' /\
    rc (sys w') = XST_FAILURE /\
    published w' =
      [(TOPIC_THERMOCOUPLE_STATUS, "SPI Transaction failure", [])].
Proof.
  destruct (short_SPI_transfer_is_reported_as_a_failure
              [] [] [0x01; 0x90; 0x19] [] 8 1
              (world_of [] (spi_answers [] [] [0x01; 0x90; 0x19] ++ []))
              ltac:(constructor) ltac:(constructor)
              ltac:(cbn; lia) ltac:(cbn; lia) ltac:(cbn; lia)
              ltac:(cbn; lia) eq_refl eq_refl eq_refl)
    as (w' & E & R & P).
  exists w'. split; [exact E|]. split; [exact R|exact P].
Defined.

(** X21.  The loop that drains the receive FIFO has no bound of its
    own: it stores for as long as the controller shows the FIFO not
    empty.  With more than four words in the FIFO, [SamplePLTempSensor]
    writes the fifth behind the end of its 4-word array. *)
Theorem SPI_transfer_overruns_on_a_fifth_word
    (busy other words rest : list Z) (fuel : nat) (w : World) :
  Forall (fun v => Z.land (to_u32 v) XSP_SR_TX_EMPTY_MASK = 0) busy ->
  Forall (fun v => to_u32 v <> 3) other ->
  (List.length busy < fuel)%nat -> (List.length other < fuel)%nat ->
  (List.length words < fuel)%nat ->
  (4 < List.length words)%nat ->
  spi_in w = spi_answers busy other words ++ rest ->
  exists w', SamplePLTempSensor fuel w = Crash BufferOverrun w'.
Proof.
  intros Hb Ho Hfb Hfo Hfw Hw Hin.
  destruct (SamplePLTempSensor_transfer_drain busy other (fifo words ++ rest)
              fuel w Hb Ho Hfb Hfo) as (w1 & E & Hi & _).
  { rewrite Hin. unfold spi_answers. rewrite <- !app_assoc. cbn [app].
    rewrite <- !app_assoc. reflexivity. }
  destruct (XSpi_drain_rx_overruns words rest fuel
              [0xFFFFFFFF; 0xFFFFFFFF; 0xFFFFFFFF; 0xFFFFFFFF] 0 w1)
    as (w2 & E2); [exact Hfw|cbn; lia|cbn; lia|exact Hi|].
  exists w2. unfold SamplePLTempSensor. unfold bind at 1. rewrite E.
  unfold bind at 1. rewrite E2. reflexivity.
Qed.

(** The theorem for a FIFO of five words. *)
Lemma SPI_transfer_overruns_on_a_fifth_word_witness :
  exists w',
    SamplePLTempSensor 8
      (world_of [] (spi_answers [] [] [1; 2; 3; 4; 5] ++ []))
    = Crash BufferOverrun w'.
Proof.
  exact (SPI_transfer_overruns_on_a_fifth_word [] [] [1; 2; 3; 4; 5] [] 8
           (world_of [] (spi_answers [] [] [1; 2; 3; 4; 5] ++ []))
           ltac:(constructor) ltac:(constructor)
           ltac:(cbn; lia) ltac:(cbn; lia) ltac:(cbn; lia) ltac:(cbn; lia)
           eq_refl).
Defined.

(** X22.  The wait for the transmit FIFO has no time-out.  On a
    controller that never shows the transmit FIFO empty,
    [SamplePLTempSensor] is still waiting after any number of status
    reads, and has published nothing. *)
Theorem SPI_transfer_waits_without_a_bound (fuel : nat) (w : World) :
  Forall (fun v => Z.land (to_u32 v) XSP_SR_TX_EMPTY_MASK = 0) (spi_in w) ->
  exists w',
    SamplePLTempSensor fuel w = Crash Hang w' /\
    mqtt_log w' = mqtt_log w.
Proof.
  intros H.
  destruct w as [s tt0 ii il ib mi ml si sl gl hz nw].
  cbn [spi_in mqtt_log] in *.
  unfold SamplePLTempSensor, SamplePLTempSensor_transfer, XSpi_LowLevelExecute.
  change (Z.to_nat 4) with 4%nat.
  world_step.
  match goal with
  | |- context [XSpi_wait_tx_empty fuel ?w1] =>
      destruct (XSpi_wait_tx_empty_hangs fuel w1 H) as (w' & E & L)
  end.
  rewrite E. exists w'. split; [reflexivity|exact L].
Qed.

(** The theorem for a controller that answers nothing, after 1000 status
    reads. *)
Lemma SPI_transfer_waits_without_a_bound_witness :
  exists w',
    SamplePLTempSensor 1000 (world_of [] []) = Crash Hang w' /\
    mqtt_log w' = [].
Proof.
  exact (SPI_transfer_waits_without_a_bound 1000 (world_of [] [])
           ltac:(constructor)).
Defined.

(** X23.  [StartPLTempSensor] writes and never reads: on every world
    with a broker and the topic table it returns after the reset of the
    controller, its mode and the deselection of all slaves, leaves the
    controller's answers and the result code as they were, and publishes
    "PL Thermocouple started", so that it reports a start whether or not
    a controller answers. *)
Theorem StartPLTempSensor_writes_and_never_reads (h : Z) (w : World) :
  xMQTTHandle (sys w) = Some h -> pTopicInfo w = topic_table ->
  exists w',
    StartPLTempSensor w = Normal tt w' /\
    rc (sys w') = rc (sys w) /\
    spi_in w' = spi_in w /\
    spi_log w' = spi_log w ++
      [SpiWrite XSP_SRR_OFFSET AXI_SPI_RESET_VALUE;
       SpiWrite XSP_CR_OFFSET MAX31855_CR_INIT_MODE;
       SpiWrite XSP_SSR_OFFSET PL_SPI_CHANNEL_SEL_NONE] /\
    published w' = published w ++
      [(TOPIC_THERMOCOUPLE_STATUS, "PL Thermocouple started", [])].
Proof.
  intros Hh Ht.
  destruct (StartPLTempSensor_effect h w Hh Ht)
    as (w' & E & S & _ & _ & _ & Hi & Hl & P).
  exists w'. rewrite S. repeat split; assumption.
Qed.

(** The theorem without a controller. *)
Lemma StartPLTempSensor_writes_and_never_reads_witness :
  exists w',
    StartPLTempSensor (world_of [] []) = Normal tt w' /\
    published w' =
      [(TOPIC_THERMOCOUPLE_STATUS, "PL Thermocouple started", [])].
Proof.
  destruct (StartPLTempSensor_writes_and_never_reads 1 (world_of [] [])
              eq_refl eq_refl) as (w' & E & _ & _ & _ & P).
  exists w'. split; [exact E|exact P].
Defined.

(* ================================================================== *)
(** * The integers behind the measurements *)
(* ================================================================== *)

(** X24.  The two integers that [SampleBarometer] builds from a block
    of bytes are within the 24-bit and the 16-bit two's-complement range,
    and they carry the bytes: their low 24 and 16 bits are the pressure
    bytes and the temperature bytes of the block, low byte first.  The
    status byte of the block has no part in them. *)
Theorem barometer_integers_carry_the_block (s xl l h tl th : Z) :
  byte_range xl -> byte_range l -> byte_range h ->
  byte_range tl -> byte_range th ->
  let pressure := barometer_pressure_sqTmp [s; xl; l; h; tl; th] in
  let temperature := barometer_temperature_sqTmp [s; xl; l; h; tl; th] in
  - 2 ^ 23 <= pressure < 2 ^ 23 /\
  pressure mod 2 ^ 24 = xl + l * 2 ^ 8 + h * 2 ^ 16 /\
  - 2 ^ 15 <= temperature < 2 ^ 15 /\
  temperature mod 2 ^ 16 = tl + th * 2 ^ 8.
Proof.
  intros Hxl Hl Hh Htl Hth pressure temperature.
  unfold pressure, temperature.
  rewrite barometer_pressure_sqTmp_spec, barometer_temperature_sqTmp_spec
    by assumption.
  rewrite pressure_pattern, temperature_pattern by assumption.
  unfold byte_range in *.
  destruct (sign_extend_range 24 (xl + l * 2 ^ 8 + h * 2 ^ 16)) as [A B];
    [lia|lia|].
  destruct (sign_extend_range 16 (tl + th * 2 ^ 8)) as [C D]; [lia|lia|].
  repeat split; first [exact B | exact D | apply A | apply C].
Qed.

(** The theorem at the block 03 00 F0 FF 20 FE. *)
Lemma barometer_integers_carry_the_block_witness :
  barometer_pressure_sqTmp [0x03; 0x00; 0xF0; 0xFF; 0x20; 0xFE] mod 2 ^ 24
  = 0x00 + 0xF0 * 2 ^ 8 + 0xFF * 2 ^ 16.
Proof.
  exact (proj1 (proj2
    (barometer_integers_carry_the_block 0x03 0x00 0xF0 0xFF 0x20 0xFE
       ltac:(unfold byte_range; lia) ltac:(unfold byte_range; lia)
       ltac:(unfold byte_range; lia) ltac:(unfold byte_range; lia)
       ltac:(unfold byte_range; lia)))).
Defined.

(** X25.  The two integers that [SamplePLTempSensor] builds from the
    four bytes received are within the 12-bit and the 14-bit
    two's-complement range, and they carry the fields: the low 12 bits of
    the internal-junction integer are byte 2 and the high four bits of
    byte 3, the low 14 bits of the thermocouple integer are byte 0 and the
    high six bits of byte 1.  The fault bits in the low bits of bytes 1
    and 3 have no part in them. *)
Theorem thermocouple_integers_carry_the_fields (r0 r1 r2 r3 : Z) :
  byte_range r0 -> byte_range r1 -> byte_range r2 -> byte_range r3 ->
  let internal := internal_sqTemporaryValue [r0; r1; r2; r3] in
  let thermocouple := thermocouple_sqTemporaryValue [r0; r1; r2; r3] in
  - 2 ^ 11 <= internal < 2 ^ 11 /\
  internal mod 2 ^ 12 = r2 * 2 ^ 4 + r3 / 2 ^ 4 /\
  - 2 ^ 13 <= thermocouple < 2 ^ 13 /\
  thermocouple mod 2 ^ 14 = r0 * 2 ^ 6 + r1 / 2 ^ 2.
Proof.
  intros H0 H1 H2 H3 internal thermocouple.
  unfold internal, thermocouple.
  rewrite internal_spec, thermocouple_spec by assumption.
  rewrite internal_pattern, thermocouple_pattern by assumption.
  unfold byte_range in *.
  assert (0 <= r3 / 2 ^ 4 < 2 ^ 4)
    by (split; [apply Z.div_pos; lia|apply Z.div_lt_upper_bound; lia]).
  assert (0 <= r1 / 2 ^ 2 < 2 ^ 6)
    by (split; [apply Z.div_pos; lia|apply Z.div_lt_upper_bound; lia]).
  destruct (sign_extend_range 12 (r2 * 2 ^ 4 + r3 / 2 ^ 4)) as [A B];
    [lia|lia|].
  destruct (sign_extend_range 14 (r0 * 2 ^ 6 + r1 / 2 ^ 2)) as [C D];
    [lia|lia|].
  repeat split; first [exact B | exact D | apply A | apply C].
Qed.

(** The theorem at the bytes 01 90 19 00. *)
Lemma thermocouple_integers_carry_the_fields_witness :
  thermocouple_sqTemporaryValue [0x01; 0x90; 0x19; 0x00] mod 2 ^ 14
  = 0x01 * 2 ^ 6 + 0x90 / 2 ^ 2.
Proof.
  exact (proj2 (proj2 (proj2
    (thermocouple_integers_carry_the_fields 0x01 0x90 0x19 0x00
       ltac:(unfold byte_range; lia) ltac:(unfold byte_range; lia)
       ltac:(unfold byte_range; lia) ltac:(unfold byte_range; lia))))).
Defined.

(* ================================================================== *)
(** * What cannot happen, and the start of the system *)
(* ================================================================== *)

(** X26.  Every operation of a driver other than the sample of the
    thermocouple returns, whatever the devices and the broker answer,
    from every world in which reports can be made (no broker handle, or a
    topic table with an entry for each of the ten topics, and a reporting
    topic other than the sentinel's): there is no missing table entry to
    read through, no write outside a buffer and no wait without a bound on
    the way, and each poll loop ends.  It ends in such a world again. *)
Theorem every_operation_but_the_SPI_sample_returns (fuel : nat)
    (op : Operation) (w : World) :
  op <> Sample Thermocouple -> reportable w ->
  exists w', run fuel op w = Normal tt w' /\ reportable w'.
Proof. exact (run_returns fuel op w). Qed.

(** The theorem for a start of the hygrometer on a bus that answers
    nothing. *)
Lemma every_operation_but_the_SPI_sample_returns_witness :
  exists w',
    run 0 (Start Hygrometer) (world_of [] []) = Normal tt w' /\
    reportable w'.
Proof.
  apply (every_operation_but_the_SPI_sample_returns 0 (Start Hygrometer)
           (world_of [] [])).
  - discriminate.
  - split; [right; vm_compute; reflexivity|discriminate].
Defined.

(** X27.  The three starts at the end of [StartSystem], with a broker
    and the topic table.  Either all three leave the success code, and
    then the last publication is "System started" on the system's status
    topic; or the sequence jumps to [L_DIE] with a result code other than
    success, and then the last publication is the failed start's report.
    That report goes to the status topic of the sensor, not of the
    system.  Only the start of the barometer and of the hygrometer can
    fail in this way: the test after the start of the thermocouple never
    fires.  When the barometer's start failed, the SPI controller was not
    touched and no IIC transfer went to another address than the
    barometer's. *)
Theorem StartSystem_stops_at_the_first_failed_start (h : Z) (w : World) :
  xMQTTHandle (sys w) = Some h -> pTopicInfo w = topic_table ->
  (exists w',
     StartSystem_sensors w = Normal tt w' /\
     rc (sys w') = XST_SUCCESS /\
     exists l, published w' =
                 l ++ [(TOPIC_SYSTEM_STATUS, "System started", [])]) \/
  (exists w',
     StartSystem_sensors w = Goto_L_DIE w' /\
     rc (sys w') <> XST_SUCCESS /\
     spi_log w' = spi_log w /\
     addressed BAROMETER_SLAVE_ADDRESS w w' /\
     exists l, published w' =
                 l ++ [(TOPIC_BAROMETER_STATUS, "StartBarometer() -> %08x",
                        [ArgInt (rc (sys w'))])]) \/
  (exists w',
     StartSystem_sensors w = Goto_L_DIE w' /\
     rc (sys w') <> XST_SUCCESS /\
     exists l, published w' =
                 l ++ [(TOPIC_HYGROMETER_STATUS, "StartHygroMeter() -> %08x",
                        [ArgInt (rc (sys w'))])]).
Proof.
  intros Hh Ht. unfold StartSystem_sensors.
  (* the barometer *)
  assert (Hr0 : reportable
                  (with_sys (set_eTopic TOPIC_BAROMETER_STATUS) w)).
  { split; [right; cbn; rewrite Ht; reflexivity|discriminate]. }
  destruct (run_returns 0 (Start Barometer) _ ltac:(discriminate) Hr0)
    as (w1 & E1 & _).
  pose proof (run_sets_topic_first 0 (Start Barometer) w) as Q1.
  cbn [sensor_of status_topic] in Q1. rewrite <- Q1 in E1. clear Q1.
  cbn [run] in E1.
  pose proof (setup_kept_run 0 (Start Barometer) w) as K1.
  pose proof (run_ends_on_its_status_topic 0 (Start Barometer) w) as T1.
  pose proof (spi_idle_run 0 (Start Barometer) ltac:(discriminate) w) as S1.
  pose proof (addressed_barometer 0 (Start Barometer) eq_refl w) as A1.
  cbn [run sensor_of status_topic] in K1, T1, S1, A1.
  rewrite E1 in K1, T1, S1, A1. cbn [world_after] in K1, T1, S1, A1.
  destruct K1 as (K1h & _ & _ & _ & K1t & _). destruct S1 as [S1l _].
  set (w1' := with_sys (set_pcErr "StartBarometer() -> %08x") w1).
  match goal with
  | |- context [bind (MAY_DIE ?c) _ w] =>
      assert (C1 : c w = Normal tt w1')
        by (rewrite (bind_Normal _ _ _ _ _ E1); reflexivity);
      set (code1 := c) in *
  end.
  destruct (Z.eq_dec (rc (sys w1)) XST_SUCCESS) as [R1|R1].
  2:{ right. left.
      destruct (MAY_DIE_reports code1 w w1' tt h C1 R1)
        as (w2 & E2 & D & P);
        [cbn; rewrite K1h; exact Hh|cbn; rewrite K1t; exact Ht
        |cbn; rewrite T1; discriminate|].
      exists w2. split; [apply bind_Goto, E2|].
      destruct D as (Ds & _ & _ & Dl & _ & _ & Dsl & _).
      rewrite Ds, Dsl. cbn. split; [exact R1|]. split; [exact S1l|].
      split.
      - destruct A1 as (ops & Ao & Af). exists ops.
        rewrite Dl. cbn. split; assumption.
      - exists (published w1'). rewrite P. cbn. rewrite T1. reflexivity. }
  rewrite (bind_Normal _ _ _ _ _ (MAY_DIE_passes code1 w w1' tt C1 R1)).
  (* the thermocouple *)
  destruct (StartPLTempSensor_effect h w1')
    as (w3 & E3 & S3 & T3 & _ & _ & _ & _ & _);
    [cbn; rewrite K1h; exact Hh|cbn; rewrite K1t; exact Ht|].
  set (w3' := with_sys (set_pcErr "StartPLTempSensor() -> %08x") w3).
  match goal with
  | |- context [bind (MAY_DIE ?c) _ w1'] =>
      assert (C3 : c w1' = Normal tt w3')
        by (rewrite (bind_Normal _ _ _ _ _ E3); reflexivity);
      set (code3 := c) in *
  end.
  assert (R3 : rc (sys w3') = XST_SUCCESS) by (cbn; rewrite S3; exact R1).
  rewrite (bind_Normal _ _ _ _ _ (MAY_DIE_passes code3 w1' w3' tt C3 R3)).
  assert (H3 : xMQTTHandle (sys w3') = Some h)
    by (cbn; rewrite S3; cbn; rewrite K1h; exact Hh).
  assert (Tb3 : pTopicInfo w3' = topic_table)
    by (cbn; rewrite T3; cbn; rewrite K1t; exact Ht).
  (* the hygrometer *)
  assert (Hr3 : reportable
                  (with_sys (set_eTopic TOPIC_HYGROMETER_STATUS) w3')).
  { split; [right; cbn [pTopicInfo with_sys]; rewrite Tb3; reflexivity
           |discriminate]. }
  destruct (run_returns 0 (Start Hygrometer) _ ltac:(discriminate) Hr3)
    as (w4 & E4 & _).
  pose proof (run_sets_topic_first 0 (Start Hygrometer) w3') as Q4.
  cbn [sensor_of status_topic] in Q4. rewrite <- Q4 in E4. clear Q4.
  cbn [run] in E4.
  pose proof (setup_kept_run 0 (Start Hygrometer) w3') as K4.
  pose proof (run_ends_on_its_status_topic 0 (Start Hygrometer) w3') as T4.
  cbn [run sensor_of status_topic] in K4, T4.
  rewrite E4 in K4, T4. cbn [world_after] in K4, T4.
  destruct K4 as (K4h & _ & _ & _ & K4t & _).
  set (w4' := with_sys (set_pcErr "StartHygroMeter() -> %08x") w4).
  match goal with
  | |- context [bind (MAY_DIE ?c) _ w3'] =>
      assert (C4 : c w3' = Normal tt w4')
        by (rewrite (bind_Normal _ _ _ _ _ E4); reflexivity);
      set (code4 := c) in *
  end.
  destruct (Z.eq_dec (rc (sys w4)) XST_SUCCESS) as [R4|R4].
  2:{ right. right.
      destruct (MAY_DIE_reports code4 w3' w4' tt h C4 R4)
        as (w5 & E5 & D & P);
        [cbn; rewrite K4h; exact H3|cbn; rewrite K4t; exact Tb3
        |cbn; rewrite T4; discriminate|].
      exists w5. split; [apply bind_Goto, E5|].
      destruct D as (Ds & _).
      rewrite Ds. cbn. split; [exact R4|].
      exists (published w4'). rewrite P. cbn. rewrite T4. reflexivity. }
  rewrite (bind_Normal _ _ _ _ _ (MAY_DIE_passes code4 w3' w4' tt C4 R4)).
  left.
  destruct (prvPublishTopic_publishes TOPIC_SYSTEM_STATUS "System started" []
              w4' h) as (w5 & E5 & D & P);
    [cbn; rewrite K4h; exact H3|cbn; rewrite K4t; exact Tb3|discriminate|].
  exists w5. split; [exact E5|].
  destruct D as (Ds & _). rewrite Ds. split; [exact R4|].
  exists (published w4'). exact P.
Qed.

(** The theorem on buses that answer nothing. *)
Lemma StartSystem_stops_at_the_first_failed_start_witness :
  (exists w',
     StartSystem_sensors (world_of [] []) = Normal tt w' /\
     rc (sys w') = XST_SUCCESS /\
     exists l, published w' =
                 l ++ [(TOPIC_SYSTEM_STATUS, "System started", [])]) \/
  (exists w',
     StartSystem_sensors (world_of [] []) = Goto_L_DIE w' /\
     rc (sys w') <> XST_SUCCESS /\
     spi_log w' = spi_log (world_of [] []) /\
     addressed BAROMETER_SLAVE_ADDRESS (world_of [] []) w' /\
     exists l, published w' =
                 l ++ [(TOPIC_BAROMETER_STATUS, "StartBarometer() -> %08x",
                        [ArgInt (rc (sys w'))])]) \/
  (exists w',
     StartSystem_sensors (world_of [] []) = Goto_L_DIE w' /\
     rc (sys w') <> XST_SUCCESS /\
     exists l, published w' =
                 l ++ [(TOPIC_HYGROMETER_STATUS, "StartHygroMeter() -> %08x",
                        [ArgInt (rc (sys w'))])]).
Proof.
  exact (StartSystem_stops_at_the_first_failed_start 1 (world_of [] [])
           eq_refl eq_refl).
Defined.

(** X28.  A one-shot bit that stays set ends the sample of the
    barometer after exactly 50 polls: the driver has written the trigger
    and read the control register 50 times and nothing else, the block is
    not read, the result code is the failure code, and the one publication
    is the time-out on the barometer's status topic. *)
Theorem SampleBarometer_gives_up_after_50_polls (s h : Z)
    (rest : list IicReply) (w : World) :
  rc (sys w) = XST_SUCCESS ->
  xMQTTHandle (sys w) = Some h -> pTopicInfo w = topic_table ->
  Z.land s BAROMETER_BFLD_ONE_SHOT <> 0 ->
  iic_in w = [sent 2] ++ polls 50 s ++ rest ->
  exists w',
    SampleBarometer w = Normal tt w' /\
    rc (sys w') = XST_FAILURE /\
    iic_in w' = rest /\
    iic_log w' = iic_log w ++
      [IicSend BAROMETER_SLAVE_ADDRESS
         [BAROMETER_REG_CTRL_REG2; BAROMETER_BFLD_ONE_SHOT] XIIC_STOP]
      ++ register_reads BAROMETER_SLAVE_ADDRESS BAROMETER_REG_CTRL_REG2 50 /\
    published w' = published w ++
      [(TOPIC_BAROMETER_STATUS,
        "Timed out waiting for BAROMETER_BFLD_ONE_SHOT",
        [ArgInt XST_FAILURE])].
Proof.
  intros Hrc Hh Ht Hs Hin.
  unfold SampleBarometer, L_DIE, SampleBarometer_acquire.
  unfold bind at 1.
  rewrite (bind_Normal _ _ _ _ _ (MS_TO_TICKS_1 w)).
  set (t := one_ms w).
  rewrite (bind_Normal (modify_sys _) _ w _ tt eq_refl).
  set (w0 := with_sys (set_eTopic TOPIC_BAROMETER_STATUS) w).
  rewrite (bind_Normal _ _ _ _ _
             (write_step BAROMETER_SLAVE_ADDRESS BAROMETER_REG_CTRL_REG2
                BAROMETER_BFLD_ONE_SHOT _ _ w0 Hrc Hin)).
  set (w2 := with_sys _ (with_iic _ _ w0)).
  destruct (register_poll_rounds BAROMETER_SLAVE_ADDRESS
              BAROMETER_REG_CTRL_REG2
              "ReadIicRegs(6@BAROMETER_REG_STATUS_REG) -> %08x"
              BAROMETER_BFLD_ONE_SHOT t 50 uninitialised s rest w2 Hrc
              eq_refl Hs)
    as (b' & w3 & R3 & F3 & I3 & L3 & _).
  pose proof (for_countdown_exhausted _ _ _ _ _ _ R3) as E3.
  unfold register_poll in E3.
  rewrite (bind_Normal _ _ _ _ _ E3).
  cbn [fst snd]. change (-1 <=? 0) with true. cbn [when].
  destruct F3 as (Rc3 & T3 & H3 & _ & P3 & M3 & _).
  pose (w4 := with_sys
                (set_pcErr "Timed out waiting for BAROMETER_BFLD_ONE_SHOT")
                (with_sys (set_rc XST_FAILURE) w3)).
  match goal with
  | |- context [MAY_DIE ?c] =>
      destruct (MAY_DIE_reports c w3 w4 tt h eq_refl)
        as (w5 & E5 & D & P);
        [discriminate|cbn; rewrite H3; exact Hh|cbn; rewrite P3; exact Ht
        |cbn; rewrite T3; discriminate|]
  end.
  rewrite (bind_Goto _ _ _ _ E5).
  exists w5. split; [reflexivity|].
  destruct D as (Ds & _ & Di & Dl & _).
  rewrite Ds, Di, Dl, P. unfold published. cbn. rewrite I3, L3, M3, T3.
  cbn. rewrite <- app_assoc. repeat split.
Qed.

(** The theorem for a control register that reads 0x01 throughout. *)
Lemma SampleBarometer_gives_up_after_50_polls_witness :
  exists w',
    SampleBarometer (world_of ([sent 2] ++ polls 50 0x01 ++ []) [])
    = Normal tt w' /\
    rc (sys w') = XST_FAILURE /\
    published w' =
      [(TOPIC_BAROMETER_STATUS,
        "Timed out waiting for BAROMETER_BFLD_ONE_SHOT",
        [ArgInt XST_FAILURE])].
Proof.
  destruct (SampleBarometer_gives_up_after_50_polls 0x01 1 []
              (world_of ([sent 2] ++ polls 50 0x01 ++ []) [])
              eq_refl eq_refl eq_refl ltac:(discriminate) eq_refl)
    as (w' & E & R & _ & _ & P).
  exists w'. split; [exact E|]. split; [exact R|exact P].
Defined.

(* ================================================================== *)
(** * A round of the sampling loop *)
(* ================================================================== *)

(** X29.  One round of the sampling loop with three sensors that are
    ready at the first poll, a thermocouple answer of four words without
    a fault bit, a broker and the topic table: the round returns with the
    success code, has used up exactly the answers of the three samples,
    and has published six measurements in this order: pressure and
    temperature of the barometer from its block, board and thermocouple
    temperature from the four words, and the two constants of the
    hygrometer. *)
Theorem a_healthy_round_publishes_six_measurements (fuel : nat)
    (xSamplingPeriod xPreviousWakeTime : Z) (h c1 c2 r0 r1 r2 r3 : Z)
    (block1 block2 : list Z) (rest_iic : list IicReply) (rest_spi : list Z)
    (w : World) :
  rc (sys w) = XST_SUCCESS ->
  xMQTTHandle (sys w) = Some h -> pTopicInfo w = topic_table ->
  (5 <= fuel)%nat ->
  Z.land c1 BAROMETER_BFLD_ONE_SHOT = 0 ->
  List.length block1 = 6%nat -> barometer_data_ready block1 ->
  Z.land c2 HYGROMETER_BFLD_ONE_SHOT = 0 ->
  List.length block2 = 5%nat -> hygrometer_data_ready block2 ->
  thermocouple_faultless (to_u32 r1) (to_u32 r3) ->
  iic_in w = ready_answers c1 block1 ++ ready_answers c2 block2 ++ rest_iic ->
  spi_in w = spi_answers [] [] [r0; r1; r2; r3] ++ rest_spi ->
  let rx := [to_u32 r0; to_u32 r1; to_u32 r2; to_u32 r3] in
  exists t w',
    sampling_rounds 1 fuel xSamplingPeriod xPreviousWakeTime w
    = Normal t w' /\
    rc (sys w') = XST_SUCCESS /\
    iic_in w' = rest_iic /\ spi_in w' = rest_spi /\
    published w' = published w ++
      [(TOPIC_BAROMETER_PRESSURE, "%.2f hPa",
        [ArgFloat (F_div (F_of_int (barometer_pressure_sqTmp block1))
                         (F_lit (4096 # 1)))]);
       (TOPIC_BAROMETER_TEMPERATURE, "%.2f C",
        [ArgFloat (F_add (F_lit (85 # 2))
                     (F_div (F_of_int (barometer_temperature_sqTmp block1))
                            (F_dbl (480 # 1))))]);
       (TOPIC_THERMOCOUPLE_BOARD_TEMPERATURE, "%.1f C",
        [ArgFloat (F_div (F_of_int (internal_sqTemporaryValue rx))
                         (F_lit (16 # 1)))]);
       (TOPIC_THERMOCOUPLE_TEMPERATURE, "%.1f C",
        [ArgFloat (F_div (F_of_int (thermocouple_sqTemporaryValue rx))
                         (F_lit (4 # 1)))]);
       (TOPIC_HYGROMETER_RELATIVE_HUMIDITY, "%.2f %%rH",
        [ArgFloat (F_lit (100 # 1))]);
       (TOPIC_HYGROMETER_HUMIDITY_SENSOR_TEMPERATURE, "%.2f C",
        [ArgFloat (F_lit (1000 # 1))])].
Proof.
  intros Hrc Hh Ht Hf Hc1 Hl1 Hr1 Hc2 Hl2 Hr2 Hfl Hiic Hspi rx.
  cbn [sampling_rounds]. unfold bind at 1, vTaskDelayUntil.
  set (wa := with_now _ w).
  (* the barometer *)
  destruct (SampleBarometer_ends 0 0 1 c1 h (repeat 0 6) block1
              (ready_answers c2 block2 ++ rest_iic) wa Hrc Hh Ht
              ltac:(lia) ltac:(lia) ltac:(discriminate) Hc1 eq_refl Hl1
              ltac:(discriminate) Hr1)
    as (wb & Eb & Rb & Ib & _ & Pb).
  { cbn [iic_in wa with_now]. rewrite Hiic. unfold ready_answers.
    rewrite <- !app_assoc. reflexivity. }
  rewrite (bind_Normal _ _ _ _ _ Eb).
  pose proof (setup_kept_run fuel (Sample Barometer) wa) as Kb.
  pose proof (spi_idle_run fuel (Sample Barometer) ltac:(discriminate) wa)
    as Sb.
  cbn [run] in Kb, Sb. rewrite Eb in Kb, Sb. cbn [world_after] in Kb, Sb.
  destruct Kb as (Kbh & _ & _ & _ & Kbt & _). destruct Sb as [_ Sbi].
  (* the thermocouple *)
  destruct (SamplePLTempSensor_transfer_ends [] [] [r0; r1; r2; r3] rest_spi
              fuel wb ltac:(constructor) ltac:(constructor)
              ltac:(cbn; lia) ltac:(cbn; lia) ltac:(cbn; lia)
              ltac:(cbn; lia))
    as (wc & Ec & Sc & Ic & _ & Tc & Mc & _).
  { rewrite Sbi. exact Hspi. }
  cbn [List.length Nat.eqb map skipn app] in Ec, Sc.
  destruct Hfl as (F0 & F1 & F2 & F3).
  destruct (SamplePLTempSensor_report_publishes (to_u32 r0) (to_u32 r1)
              (to_u32 r2) (to_u32 r3) wc h)
    as (wd & Ed & Dd & Pd).
  { rewrite Sc. reflexivity. }
  { rewrite Sc. cbn. rewrite Kbh. exact Hh. }
  { rewrite Tc, Kbt. exact Ht. }
  rewrite F0, F1, F2, F3 in Pd.
  assert (Et : SamplePLTempSensor fuel wb = Normal tt wd).
  { unfold SamplePLTempSensor. rewrite (bind_Normal _ _ _ _ _ Ec). exact Ed. }
  rewrite (bind_Normal _ _ _ _ _ Et).
  pose proof (iic_idle_run fuel (Sample Thermocouple) eq_refl wb) as Id.
  cbn [run] in Id. rewrite Et in Id. cbn [world_after] in Id.
  destruct Id as (_ & Idi & _).
  destruct Dd as (Dds & Ddt & _ & _ & _ & Ddsi & _).
  (* the hygrometer *)
  destruct (SampleHygrometer_ends 0 0 1 c2 h (repeat 0 5) block2 rest_iic wd)
    as (we & Ee & Re & Ie & _ & Pe);
    [rewrite Dds, Sc; reflexivity
    |rewrite Dds, Sc; cbn; rewrite Kbh; exact Hh
    |rewrite Ddt, Tc, Kbt; exact Ht
    |lia|lia|discriminate|exact Hc2|reflexivity|exact Hl2
    |discriminate|exact Hr2
    |rewrite Idi, Ib; unfold ready_answers; rewrite <- !app_assoc;
     reflexivity|].
  rewrite (bind_Normal _ _ _ _ _ Ee).
  eexists. exists we. split; [reflexivity|].
  split; [exact Re|]. split; [exact Ie|].
  split.
  - pose proof (spi_idle_run fuel (Sample Hygrometer) ltac:(discriminate) wd)
      as Se.
    cbn [run] in Se. rewrite Ee in Se. cbn [world_after] in Se.
    destruct Se as [_ Sei]. rewrite Sei, Ddsi. exact Ic.
  - rewrite Pe, Pd. unfold published at 1. rewrite Mc.
    fold (published wb). rewrite Pb.
    unfold published at 1. cbn [mqtt_log wa with_now]. fold (published w).
    rewrite <- !app_assoc. reflexivity.
Qed.

(** The theorem for the blocks 03 00 F0 FF 20 FE and 03 10 20 30 40 and
    the words 01 90 19 00. *)
Lemma a_healthy_round_publishes_six_measurements_witness :
  exists t w',
    sampling_rounds 1 8 5000 0
      (world_of
         (ready_answers 0 [0x03; 0x00; 0xF0; 0xFF; 0x20; 0xFE]
          ++ ready_answers 0 [0x03; 0x10; 0x20; 0x30; 0x40] ++ [])
         (spi_answers [] [] [0x01; 0x90; 0x19; 0x00] ++ []))
    = Normal t w' /\
    rc (sys w') = XST_SUCCESS /\
    List.length (published w') = 6%nat.
Proof.
  destruct (a_healthy_round_publishes_six_measurements 8 5000 0 1 0 0
              0x01 0x90 0x19 0x00
              [0x03; 0x00; 0xF0; 0xFF; 0x20; 0xFE]
              [0x03; 0x10; 0x20; 0x30; 0x40] [] []
              (world_of
                 (ready_answers 0 [0x03; 0x00; 0xF0; 0xFF; 0x20; 0xFE]
                  ++ ready_answers 0 [0x03; 0x10; 0x20; 0x30; 0x40] ++ [])
                 (spi_answers [] [] [0x01; 0x90; 0x19; 0x00] ++ []))
              eq_refl eq_refl eq_refl ltac:(lia) eq_refl eq_refl eq_refl
              eq_refl eq_refl eq_refl
              ltac:(vm_compute; repeat split) eq_refl eq_refl)
    as (t & w' & E & R & _ & _ & P).
  exists t, w'. split; [exact E|]. split; [exact R|].
  rewrite P. reflexivity.
Defined.

(** X30.  A round of the sampling loop reaches the thermocouple
    whatever the barometer did.  From every world in which reports can be
    made, and whatever the devices answer, the first round has filled the
    transmit FIFO, selected the slave and released the controller: the
    part that the round adds to the log of the SPI controller begins
    with these six writes. *)
Theorem every_round_begins_the_SPI_transfer (fuel : nat)
    (xSamplingPeriod xPreviousWakeTime : Z) (w : World) :
  reportable w ->
  exists l,
    spi_log
      (world_after
         (sampling_rounds 1 fuel xSamplingPeriod xPreviousWakeTime w))
    = spi_log w ++ spi_transfer_begins ++ l.
Proof.
  intros H. cbn [sampling_rounds]. unfold bind at 1, vTaskDelayUntil.
  set (wa := with_now _ w).
  destruct (run_returns fuel (Sample Barometer) wa ltac:(discriminate) H)
    as (wb & Eb & _).
  cbn [run] in Eb. rewrite (bind_Normal _ _ _ _ _ Eb).
  pose proof (spi_idle_run fuel (Sample Barometer) ltac:(discriminate) wa)
    as Sb.
  cbn [run] in Sb. rewrite Eb in Sb. destruct Sb as [Sbl _].
  cbn [world_after spi_log wa with_now] in Sbl.
  destruct (SamplePLTempSensor_transfer_begins fuel wb) as (w1 & E1 & L1).
  unfold bind at 1. unfold SamplePLTempSensor, bind at 1. rewrite E1.
  match goal with
  | |- context [?tail w1] =>
      match type of E1 with _ = tail w1 =>
        pose (K := bind (bind tail SamplePLTempSensor_report)
                     (fun _ : unit =>
                        SampleHygrometer ;;
                        sampling_rounds 0 fuel xSamplingPeriod
                          (xPreviousWakeTime + xSamplingPeriod)));
        assert (G : preserves spi_grows K)
      end
  end.
  { unfold K. grows;
      first [ apply spi_grows_wait_tx_empty | apply spi_grows_wait_occupancy
            | apply spi_grows_drain_rx
            | apply spi_grows_SamplePLTempSensor_report
            | apply spi_grows_idle,
                (spi_idle_run fuel (Sample Hygrometer) ltac:(discriminate))
            | apply (preserves_ret _ spi_grows_refl) ]. }
  destruct (G w1) as [l El]. exists l.
  transitivity (spi_log (world_after (K w1))); [reflexivity|].
  rewrite El, L1, Sbl, <- app_assoc. reflexivity.
Qed.

(** The theorem on buses that answer nothing: the barometer's sample
    fails at its first transfer. *)
Lemma every_round_begins_the_SPI_transfer_witness :
  exists l,
    spi_log (world_after (sampling_rounds 1 8 5000 0 (world_of [] [])))
    = spi_log (world_of [] []) ++ spi_transfer_begins ++ l.
Proof.
  apply (every_round_begins_the_SPI_transfer 8 5000 0 (world_of [] [])).
  split; [right; vm_compute; reflexivity|discriminate].
Defined.

